(** * ETL.py: normalising a wide banking CSV into relational sheets

    A shallow embedding of [src/ETL.py] and the properties of its column
    resolver, type coercer, key deriver, table splitter and data dictionary,
    of its workbook writer and of its command line.

    Modelling conventions.
    - A Python [str] is a [string] whose characters are the code points
      0..255; [strip], [lower] and the UTF-8 encoding are exact on that
      range.
    - The working [DataFrame] has unique column labels; a row is the
      label-indexed record that [df.apply(axis=1)] hands to its callback.
      Tables that leave the transform are positional rows under a header.
    - pandas' date parser, its float reader and the textual forms of
      timestamps and floats are library code: they are the fields of the
      class [PandasText]. A float64 is held as the rational it denotes.
    - A timestamp is an instant, in nanoseconds since the epoch, and
      either carries no zone or the UTC offset it was read with.
    - [main] meets the file system, the CSV parser and the workbook writer
      through the fields of the record [World]. *)

From Stdlib Require Import ZArith QArith Qreduction Ascii String.
From stdpp Require Import base decidable option list gmap strings pretty.

Local Open Scope string_scope.
Local Open Scope list_scope.
Local Open Scope Z_scope.

(** ** Python strings *)

Module PyStr.

Definition code (a : ascii) : N := N_of_ascii a.

(** [str.isspace] on the code points below 256. *)
Definition is_space (a : ascii) : bool :=
  let n := code a in
  ((9 <=? n) && (n <=? 13) || (28 <=? n) && (n <=? 32)
   || (n =? 133) || (n =? 160))%N.

(** [str.lower] on one code point below 256: A-Z, and the Latin-1
    capitals U+00C0..U+00DE except the multiplication sign. *)
Definition lower_char (a : ascii) : ascii :=
  let n := code a in
  if ((65 <=? n) && (n <=? 90)
      || (192 <=? n) && (n <=? 222) && negb (n =? 215))%N
  then ascii_of_N (n + 32) else a.

Fixpoint lstrip_chars (l : list ascii) : list ascii :=
  match l with
  | a :: l' => if is_space a then lstrip_chars l' else l
  | [] => []
  end.

Definition rstrip_chars (l : list ascii) : list ascii :=
  rev (lstrip_chars (rev l)).

Definition strip (s : string) : string :=
  string_of_list_ascii
    (rstrip_chars (lstrip_chars (list_ascii_of_string s))).

Definition lower (s : string) : string :=
  string_of_list_ascii (lower_char <$> list_ascii_of_string s).

(** [bool(s)] for a [str]. *)
Definition truthy (s : string) : bool :=
  if decide (s = "") then false else true.

(** [s.encode("utf-8")], one or two bytes per code point below 256. *)
Definition utf8_char (a : ascii) : list Z :=
  let n := Z.of_N (code a) in
  if n <? 128 then [n]
  else [Z.lor 192 (Z.shiftr n 6); Z.lor 128 (Z.land n 63)].

Definition encode_utf8 (s : string) : list Z :=
  list_ascii_of_string s ≫= utf8_char.

(** [s[:n]] *)
Fixpoint prefix (n : nat) (s : string) : string :=
  match n, s with
  | S n', String a s' => String a (prefix n' s')
  | _, _ => ""
  end.

End PyStr.

(** ** hashlib.sha1 (FIPS 180-4), on bytes given as integers 0..255 *)

Module Sha1.

Definition w32 (x : Z) : Z := x mod 2 ^ 32.
Definition add32 (x y : Z) : Z := w32 (x + y).
Definition rotl (n x : Z) : Z :=
  w32 (Z.lor (Z.shiftl x n) (Z.shiftr x (32 - n))).
Definition not32 (x : Z) : Z := Z.lxor x (2 ^ 32 - 1).

(** Big-endian bytes of the low [n] bytes of [x]. *)
Fixpoint be_bytes (n : nat) (x : Z) : list Z :=
  match n with
  | O => []
  | S n' => Z.land (Z.shiftr x (8 * Z.of_nat n')) 255 :: be_bytes n' x
  end.

Definition pad (msg : list Z) : list Z :=
  let len := Z.of_nat (length msg) in
  let k := (55 - len) mod 64 in
  msg ++ [128] ++ replicate (Z.to_nat k) 0 ++ be_bytes 8 (8 * len).

Fixpoint be_words (n : nat) (bs : list Z) : list Z :=
  match n, bs with
  | S n', b0 :: b1 :: b2 :: b3 :: bs' =>
      (b0 * 2 ^ 24 + b1 * 2 ^ 16 + b2 * 2 ^ 8 + b3) :: be_words n' bs'
  | _, _ => []
  end.

(** The message schedule, newest word first: [ws] holds w(t-1), w(t-2),
    ..., and each step adds rotl 1 (w(t-3) ^ w(t-8) ^ w(t-14) ^ w(t-16)). *)
Fixpoint schedule (n : nat) (ws : list Z) : list Z :=
  match n with
  | O => ws
  | S n' =>
      let w i := default 0 (ws !! i) in
      schedule n'
        (rotl 1 (Z.lxor (Z.lxor (w 2%nat) (w 7%nat))
                        (Z.lxor (w 13%nat) (w 15%nat))) :: ws)
  end.

Definition round_f (t : nat) (b c d : Z) : Z :=
  if (t <? 20)%nat then Z.lor (Z.land b c) (Z.land (not32 b) d)
  else if (t <? 40)%nat then Z.lxor (Z.lxor b c) d
  else if (t <? 60)%nat
       then Z.lor (Z.lor (Z.land b c) (Z.land b d)) (Z.land c d)
  else Z.lxor (Z.lxor b c) d.

Definition round_k (t : nat) : Z :=
  if (t <? 20)%nat then 0x5A827999
  else if (t <? 40)%nat then 0x6ED9EBA1
  else if (t <? 60)%nat then 0x8F1BBCDC
  else 0xCA62C1D6.

Record state := St { ha : Z; hb : Z; hc : Z; hd : Z; he : Z }.

Fixpoint rounds (t : nat) (ws : list Z) (s : state) : state :=
  match ws with
  | [] => s
  | w :: ws' =>
      let tmp :=
        add32 (add32 (add32 (add32 (rotl 5 (ha s))
                                   (round_f t (hb s) (hc s) (hd s)))
                            (he s)) (round_k t)) w in
      rounds (S t) ws' (St tmp (ha s) (rotl 30 (hb s)) (hc s) (hd s))
  end.

Definition compress (h : state) (block : list Z) : state :=
  let ws := rev (schedule 64 (rev (be_words 16 block))) in
  let s := rounds 0 ws h in
  St (add32 (ha h) (ha s)) (add32 (hb h) (hb s)) (add32 (hc h) (hc s))
     (add32 (hd h) (hd s)) (add32 (he h) (he s)).

Fixpoint blocks (n : nat) (bs : list Z) (h : state) : state :=
  match n with
  | O => h
  | S n' => blocks n' (drop 64 bs) (compress h (take 64 bs))
  end.

Definition init : state :=
  St 0x67452301 0xEFCDAB89 0x98BADCFE 0x10325476 0xC3D2E1F0.

Definition digest (msg : list Z) : list Z :=
  let p := pad msg in
  let h := blocks (length p / 64) p init in
  be_bytes 4 (ha h) ++ be_bytes 4 (hb h) ++ be_bytes 4 (hc h)
    ++ be_bytes 4 (hd h) ++ be_bytes 4 (he h).

Definition hex_digit (n : Z) : ascii :=
  ascii_of_N (Z.to_N (if n <? 10 then 48 + n else 87 + n)).

Fixpoint hex (bs : list Z) : string :=
  match bs with
  | [] => ""
  | b :: bs' =>
      String (hex_digit (Z.shiftr b 4))
             (String (hex_digit (Z.land b 15)) (hex bs'))
  end.

(** [hashlib.sha1(data).hexdigest()] *)
Definition hexdigest (msg : list Z) : string := hex (digest msg).

End Sha1.

(** ** Column Resolver *)

(** [find_col], lines 51-58. An entry of [df_cols] may be [None]; it is
    skipped. *)
Fixpoint find_col (df_cols : list (option string)) (target : string)
  : option string :=
  let target_key := PyStr.lower (PyStr.strip target) in
  match df_cols with
  | [] => None
  | None :: rest => find_col rest target
  | Some c :: rest =>
      if decide (PyStr.lower (PyStr.strip c) = target_key) then Some c
      else find_col rest target
  end.

(** ** Cell values and the pandas text interface *)

(** A value held in a frame: a [str] or the float [nan] in an object
    column, a timestamp (nanoseconds since the epoch) or [NaT] in a
    datetime64 column, a number or [nan] in a float64 column, and a
    timestamp with its UTC offset (in seconds, the instant being counted
    in UTC) in a zone-aware datetime64 column or in an object column. *)
Inductive cell :=
| Str (s : string)
| NaN
| Stamp (t : Z)
| NaT
| Num (q : Q)
| Aware (t : Z) (offset : Z).

Global Instance Q_eq_dec : EqDecision Q.
Proof. solve_decision. Defined.
Global Instance cell_eq_dec : EqDecision cell.
Proof. solve_decision. Defined.
Global Instance cell_inhabited : Inhabited cell := populate NaN.

(** What the transform takes from pandas and Python without fixing it:
    [parse_datetime col s] is what [pd.to_datetime(..., errors="coerce",
    infer_datetime_format=True)] reads from the text [s] of the column
    [col] (the layout is inferred from the column): the instant, and the
    UTC offset when the text gives one; [None] when it reads no date;
    [datetime_of_float] is the same for a number;
    [float_of_text col s] is the number that [pd.to_numeric(...,
    errors="coerce")] reads from the text [s] of the column of texts
    [col] (whether the column comes out as integers or as floats depends
    on all of it), [None] when it reads none (the text is no number, or
    none that a float64 holds);
    [datetime_text col t] and [aware_text col t o] are [astype(str)] on a
    column of timestamps;
    [timestamp_text], [aware_timestamp_text] and [float_text] are [str()]
    of a timestamp and of a float. *)
Class PandasText := {
  parse_datetime : list cell → string → option (Z * option Z);
  datetime_of_float : Q → option Z;
  float_of_text : list string → string → option Q;
  datetime_text : list cell → Z → string;
  aware_text : list cell → Z → Z → string;
  timestamp_text : Z → string;
  aware_timestamp_text : Z → Z → string;
  float_text : Q → string
}.

(** [pd.isna] *)
Definition isna (v : cell) : bool :=
  match v with NaN | NaT => true | _ => false end.


(** The timestamp read with the offset [o], if any. *)
Definition stamp_of (p : Z * option Z) : cell :=
  match p.2 with
  | Some o => Aware p.1 o
  | None => Stamp p.1
  end.

(** ** Type Coercer *)

Section Coercer.
Context `{PandasText}.

(** What the conversion has met of timestamps so far: the offset it
    converts to, whether it met a timestamp without zone, and whether it
    met one with. *)
Record seen := Seen {
  tz_out : option Z;
  found_naive : bool;
  found_tz : bool
}.

(** The conversion walks down the column. A text is parsed, and keeps
    the offset it was read with: a column read from texts of different
    offsets is an object column of timestamps, each with its own. A
    timestamp that the column holds already is kept when it goes with
    those met before it, and coerced otherwise, as it cannot be converted
    without [utc=True]: one with an offset after one without, or after
    one with another offset; one without after one with. Whatever yields
    no timestamp becomes [NaT]. *)
Fixpoint convert (col : list cell) (st : seen) (l : list cell)
  : list cell :=
  match l with
  | [] => []
  | v :: l' =>
      match v with
      | Stamp _ =>
          (if found_tz st then NaT else v)
          :: convert col (Seen (tz_out st) true (found_tz st)) l'
      | Aware _ o =>
          let fits :=
            negb (found_naive st)
            && bool_decide (tz_out st = None ∨ tz_out st = Some o) in
          (if fits then v else NaT)
          :: convert col
               (Seen (if fits then Some o else tz_out st)
                     (found_naive st) true) l'
      | NaT | NaN => NaT :: convert col st l'
      | Str s =>
          from_option stamp_of NaT (parse_datetime col s)
          :: convert col st l'
      | Num q =>
          from_option Stamp NaT (datetime_of_float q) :: convert col st l'
      end
  end.

(** [pd.to_datetime(col, errors="coerce", infer_datetime_format=True)],
    line 81. A datetime64 column, which has one zone, comes back as it
    is. *)
Definition to_datetime (col : list cell) : list cell :=
  convert col (Seen None false false) col.

(** [col.astype(str)] *)
Definition astype_str_cell (col : list cell) (v : cell) : string :=
  match v with
  | Str s => s
  | NaN => "nan"
  | NaT => "NaT"
  | Stamp t => datetime_text col t
  | Aware t o => aware_text col t o
  | Num q => float_text q
  end.

Definition astype_str (col : list cell) : list string :=
  astype_str_cell col <$> col.

End Coercer.

Module Numeric.

Definition is_digit (a : ascii) : bool :=
  let n := PyStr.code a in ((48 <=? n) && (n <=? 57))%N.

(** The complement of the class [[^\d\.\-eE]] of line 91. *)
Definition keeps (a : ascii) : bool :=
  is_digit a
  || bool_decide (a = "."%char) || bool_decide (a = "-"%char)
  || bool_decide (a = "e"%char) || bool_decide (a = "E"%char).

(** [re.sub(r"[^\d\.\-eE]", "", s)] *)
Definition strip_decoration (s : string) : string :=
  string_of_list_ascii (filter (λ a, keeps a = true) (list_ascii_of_string s)).

(** [pd.to_numeric(col, errors="coerce")] on one text of the column: the
    empty text is made [nan] before anything is read, any other text is
    handed to the float reader, and what it reads no number from becomes
    [nan]. *)
Definition to_numeric_text `{PandasText} (col : list string) (s : string)
  : cell :=
  if decide (s = "") then NaN else from_option Num NaN (float_of_text col s).

Definition to_numeric `{PandasText} (col : list string) : list cell :=
  to_numeric_text col <$> col.

(** [s.str.replace(r"[^\d\.\-eE]", "", regex=True)] *)
Definition str_replace (col : list string) : list string :=
  strip_decoration <$> col.

End Numeric.

(** ** Frames and tables *)

(** The frame the transform works on: the header and, per row, the record
    of its cells by column label. *)
Record DataFrame := mkDF {
  columns : list string;
  rows : list (gmap string cell)
}.

(** A frame handed on: positional rows under a header. *)
Record Table := mkTable {
  tcolumns : list string;
  trows : list (list cell)
}.

(** Every label of the header is unique and filled in every row. *)
Definition wf_frame (df : DataFrame) : Prop :=
  NoDup (columns df)
  ∧ Forall (λ r : gmap string cell,
              Forall (λ k, is_Some (r !! k)) (columns df)) (rows df).

(** [df[name]] *)
Definition column (df : DataFrame) (name : string) : list cell :=
  (λ r : gmap string cell, r !!! name) <$> rows df.

(** [df[name] = s]: an existing column is replaced in place, a new one is
    appended. *)
Definition setitem (df : DataFrame) (name : string) (s : list cell)
  : DataFrame :=
  mkDF (if decide (name ∈ columns df) then columns df
        else columns df ++ [name])
       (zip_with (λ (r : gmap string cell) v, <[name := v]> r) (rows df) s).

(** [df[names]] *)
Definition getitem (df : DataFrame) (names : list string) : Table :=
  mkTable names
    ((λ r : gmap string cell, (λ k, r !!! k) <$> names) <$> rows df).

(** The cell of a positional row under the label [name]. *)
Definition cell_at (header : list string) (name : string) (row : list cell)
  : cell :=
  default NaN (list_find (λ k, k = name) header ≫= λ p, row !! p.1).

Definition row_key (header subset : list string) (row : list cell)
  : list cell :=
  (λ k, cell_at header k row) <$> subset.

(** The rows kept by [drop_duplicates(keep="first")]: a row is dropped
    when its key has been seen; [nan] and [NaT] keys count as equal to
    themselves. *)
Fixpoint keep_first {A K} `{EqDecision K} (key : A → K) (seen : list K)
    (l : list A) : list A :=
  match l with
  | [] => []
  | x :: l' =>
      if decide (key x ∈ seen) then keep_first key seen l'
      else x :: keep_first key (key x :: seen) l'
  end.

(** [t.drop_duplicates(subset=...)]; [subset=None] compares whole rows. *)
Definition drop_duplicates (subset : option (list string)) (t : Table)
  : Table :=
  mkTable (tcolumns t)
    (keep_first (match subset with
                 | Some ks => row_key (tcolumns t) ks
                 | None => id
                 end) [] (trows t)).

(** [t.dropna(subset=...)] *)
Definition dropna (subset : list string) (t : Table) : Table :=
  mkTable (tcolumns t)
    (filter (λ row, Forall (λ k, isna (cell_at (tcolumns t) k row) = false)
                      subset) (trows t)).

(** [t.reset_index(drop=True)]: rows are positional already. *)
Definition reset_index (t : Table) : Table := t.

(** [t.rename(columns=m)] *)
Definition rename (m : gmap string string) (t : Table) : Table :=
  mkTable ((λ k, default k (m !! k)) <$> tcolumns t) (trows t).

(** [pd.DataFrame(columns=names)] *)
Definition empty_table (names : list string) : Table := mkTable names [].

(** [pd.DataFrame(records)] for a list of dicts: the columns are the keys
    in order of first appearance, a key a dict lacks reads [nan]. *)
Definition frame_of_records (records : list (list (string * string)))
  : Table :=
  let header := keep_first id [] (records ≫= fmap fst) in
  mkTable header
    ((λ rec : list (string * string),
        (λ k, from_option (λ p : nat * (string * string), Str p.2.2) NaN
                (list_find (λ kv : string * string, kv.1 = k) rec))
        <$> header) <$> records).

(** ** Key Deriver *)

Section Transform.
Context `{PandasText}.

(** [bool(v)] *)
Definition py_bool (v : cell) : bool :=
  match v with
  | Str s => PyStr.truthy s
  | Num q => negb (Qeq_bool q 0)
  | NaN | NaT | Stamp _ | Aware _ _ => true
  end.

(** [v or ''] *)
Definition py_or_empty (v : cell) : cell :=
  if py_bool v then v else Str "".

(** [f"{v}"] *)
Definition py_format (v : cell) : string :=
  match v with
  | Str s => s
  | NaN => "nan"
  | NaT => "NaT"
  | Stamp t => timestamp_text t
  | Aware t o => aware_timestamp_text t o
  | Num q => float_text q
  end.

(** The local [base] of [make_account_id], line 62. *)
Definition account_id_base (customer_id account_type open_date : cell)
  : string :=
  py_format (py_or_empty customer_id) +:+ "|"
  +:+ py_format (py_or_empty account_type) +:+ "|"
  +:+ py_format (py_or_empty open_date).

(** [make_account_id], lines 61-64. *)
Definition make_account_id (customer_id account_type open_date : cell)
  : string :=
  let base := account_id_base customer_id account_type open_date in
  let h := PyStr.prefix 12 (Sha1.hexdigest (PyStr.encode_utf8 base)) in
  "ACC_" +:+ h.

(** ** build_relational_sheets, lines 67-286 *)

(** [if actual:] for the result of [find_col]. *)
Definition truthy_col (actual : option string) : bool :=
  match actual with Some a => PyStr.truthy a | None => false end.

(** [[col for col in cols if col is not None]] *)
Definition not_none (cols : list (option string)) : list string :=
  omap id cols.

(** A rename dict filled by [if src: m[src] = new], in source order. *)
Definition rename_dict (entries : list (option string * string))
  : gmap string string :=
  foldl (λ m e, match e.1 with
                | Some a => if PyStr.truthy a then <[a := e.2]> m else m
                | None => m
                end) ∅ entries.

Definition date_cols : list string :=
  [ "Date Of Account Opening"; "Last Transaction Date"; "Transaction Date";
    "Approval/Rejection Date"; "Payment Due Date";
    "Last Credit Card Payment Date"; "Feedback Date" ].

Definition numeric_cols : list string :=
  [ "Account Balance"; "Transaction Amount";
    "Account Balance After Transaction"; "Loan Amount"; "Interest Rate";
    "Credit Limit"; "Credit Card Balance"; "Minimum Payment Due";
    "Rewards Points" ].

Section Body.
(** [cols = list(df.columns)], taken once, and the closure [c]. *)
Variable cols : list string.

Definition c (name : string) : option string :=
  find_col (Some <$> cols) name.

(** One turn of the loop of lines 78-81. *)
Definition coerce_date (df : DataFrame) (dc : string) : DataFrame :=
  let actual := c dc in
  match actual with
  | Some a =>
      if PyStr.truthy a then setitem df a (to_datetime (column df a))
      else df
  | None => df
  end.

(** One turn of the loop of lines 88-92. *)
Definition coerce_numeric (df : DataFrame) (nc : string) : DataFrame :=
  let actual := c nc in
  match actual with
  | Some a =>
      if PyStr.truthy a then
        let s := Numeric.str_replace (astype_str (column df a)) in
        setitem df a (Numeric.to_numeric s)
      else df
  | None => df
  end.

(** Lines 78-81 and 88-92. *)
Definition coerce_dates (df : DataFrame) : DataFrame :=
  foldl coerce_date df date_cols.

Definition coerce_numerics (df : DataFrame) : DataFrame :=
  foldl coerce_numeric df numeric_cols.

Definition coerce (df : DataFrame) : DataFrame :=
  coerce_numerics (coerce_dates df).

(** Lines 101-107: the two helper columns and [AccountID]. *)
Definition derive_keys (cust_col : string) (df : DataFrame) : DataFrame :=
  let acct_type_col := c "Account Type" in
  let open_date_col := c "Date Of Account Opening" in
  let df1 :=
    setitem df "__account_open_date_str"
      (match open_date_col with
       | Some a =>
           if PyStr.truthy a then Str <$> astype_str (column df a)
           else replicate (length (rows df)) (Str "")
       | None => replicate (length (rows df)) (Str "")
       end) in
  let df2 :=
    setitem df1 "__customer_id_str"
      (Str <$> astype_str (column df1 cust_col)) in
  setitem df2 "AccountID"
    ((λ r : gmap string cell,
        Str (make_account_id
               (r !!! "__customer_id_str")
               (match acct_type_col with
                | Some a => if PyStr.truthy a then r !!! a else Str ""
                | None => Str ""
                end)
               (r !!! "__account_open_date_str")))
     <$> rows df2).

(** Lines 110-114. *)
Definition customers_cols (cust_col : string) : list string :=
  not_none [ Some cust_col; c "First Name"; c "Last Name"; c "Age";
             c "Gender"; c "Address"; c "City"; c "Contact Number";
             c "Email" ].

Definition customers_table (cust_col : string) (df : DataFrame) : Table :=
  rename {[ cust_col := "CustomerID" ]}
    (reset_index
       (drop_duplicates (Some [cust_col])
          (getitem df (customers_cols cust_col)))).

(** Lines 117-133. *)
Definition accounts_cols (cust_col : string) : list string :=
  let acct_type_col := c "Account Type" in
  let open_date_col := c "Date Of Account Opening" in
  not_none [ Some "AccountID"; Some cust_col; acct_type_col;
             c "Account Balance"; open_date_col;
             c "Last Transaction Date"; c "Branch ID" ].

Definition accounts_table (cust_col : string) (df : DataFrame) : Table :=
  let acct_type_col := c "Account Type" in
  let open_date_col := c "Date Of Account Opening" in
  rename
    (rename_dict
       [ (Some cust_col, "CustomerID"); (acct_type_col, "AccountType");
         (open_date_col, "DateOfAccountOpening");
         (c "Last Transaction Date", "LastTransactionDate");
         (c "Account Balance", "AccountBalance");
         (c "Branch ID", "BranchID") ])
    (reset_index
       (drop_duplicates (Some ["AccountID"])
          (getitem df (accounts_cols cust_col)))).

(** [cols = []; if id_col: cols.append(id_col)] *)
Definition id_first (id_col : option string) : list (option string) :=
  if truthy_col id_col then [id_col] else [].

(** [[id_col] if id_col else None] *)
Definition id_subset (id_col : option string) : option (list string) :=
  match id_col with
  | Some a => if PyStr.truthy a then Some [a] else None
  | None => None
  end.

(** Lines 136-158. *)
Definition transactions_cols : list string :=
  let txid_col := c "TransactionID" in
  not_none (id_first txid_col
            ++ [ Some "AccountID"; c "Transaction Date";
                 c "Transaction Type"; c "Transaction Amount";
                 c "Account Balance After Transaction"; c "Branch ID" ]).

Definition transactions_table (df : DataFrame) : Table :=
  let txid_col := c "TransactionID" in
  let transactions :=
    rename
      (rename_dict
         [ (txid_col, "TransactionID");
           (c "Transaction Date", "TransactionDate");
           (c "Transaction Type", "TransactionType");
           (c "Transaction Amount", "TransactionAmount");
           (c "Account Balance After Transaction",
            "AccountBalanceAfterTransaction");
           (c "Branch ID", "BranchID") ])
      (reset_index (getitem df transactions_cols)) in
  if decide ("TransactionID" ∈ tcolumns transactions)
  then drop_duplicates (Some ["TransactionID"]) transactions
  else transactions.

(** Lines 161-187. *)
Definition loans_cols (cust_col : string) : list string :=
  let loanid_col := c "Loan ID" in
  not_none (id_first loanid_col
            ++ [ Some cust_col; c "Loan Amount"; c "Loan Type";
                 c "Interest Rate"; c "Loan Term";
                 c "Approval/Rejection Date"; c "Loan Status";
                 c "Branch ID" ]).

Definition loans_table (cust_col : string) (df : DataFrame) : Table :=
  let loanid_col := c "Loan ID" in
  rename
    (rename_dict
       [ (loanid_col, "LoanID"); (Some cust_col, "CustomerID");
         (c "Loan Amount", "LoanAmount"); (c "Loan Type", "LoanType");
         (c "Interest Rate", "InterestRate"); (c "Loan Term", "LoanTerm");
         (c "Approval/Rejection Date", "ApprovalRejectionDate");
         (c "Loan Status", "LoanStatus"); (c "Branch ID", "BranchID") ])
    (reset_index
       (drop_duplicates (id_subset loanid_col)
          (getitem df (loans_cols cust_col)))).

(** Lines 190-217. *)
Definition cards_cols (cust_col : string) : list string :=
  let cardid_col := c "CardID" in
  not_none (id_first cardid_col
            ++ [ Some cust_col; c "Card Type"; c "Credit Limit";
                 c "Credit Card Balance"; c "Minimum Payment Due";
                 c "Payment Due Date"; c "Last Credit Card Payment Date";
                 c "Rewards Points" ]).

Definition cards_table (cust_col : string) (df : DataFrame) : Table :=
  let cardid_col := c "CardID" in
  rename
    (rename_dict
       [ (cardid_col, "CardID"); (Some cust_col, "CustomerID");
         (c "Card Type", "CardType"); (c "Credit Limit", "CreditLimit");
         (c "Credit Card Balance", "CreditCardBalance");
         (c "Minimum Payment Due", "MinimumPaymentDue");
         (c "Payment Due Date", "PaymentDueDate");
         (c "Last Credit Card Payment Date", "LastCreditCardPaymentDate");
         (c "Rewards Points", "RewardsPoints") ])
    (reset_index
       (drop_duplicates (id_subset cardid_col)
          (getitem df (cards_cols cust_col)))).

(** Lines 220-240. *)
Definition feedback_cols (cust_col : string) : list string :=
  let feedbackid_col := c "Feedback ID" in
  not_none (id_first feedbackid_col
            ++ [ Some cust_col; c "Feedback Date"; c "Feedback Type";
                 c "Resolution Status"; c "Resolution Date" ]).

Definition feedback_table (cust_col : string) (df : DataFrame) : Table :=
  let feedbackid_col := c "Feedback ID" in
  rename
    (rename_dict
       [ (feedbackid_col, "FeedbackID"); (Some cust_col, "CustomerID");
         (c "Feedback Date", "FeedbackDate");
         (c "Feedback Type", "FeedbackType");
         (c "Resolution Status", "ResolutionStatus");
         (c "Resolution Date", "ResolutionDate") ])
    (reset_index
       (drop_duplicates (id_subset feedbackid_col)
          (getitem df (feedback_cols cust_col)))).

(** Lines 243-248. *)
Definition branches_table (df : DataFrame) : Table :=
  let branch_col := c "Branch ID" in
  match branch_col with
  | Some b =>
      if PyStr.truthy b then
        rename {[ b := "BranchID" ]}
          (reset_index (drop_duplicates None (getitem df [b])))
      else empty_table ["BranchID"]
  | None => empty_table ["BranchID"]
  end.

(** Lines 251-257. *)
Definition anomalies_table (cust_col : string) (df : DataFrame) : Table :=
  let anomaly_col := c "Anomaly" in
  match anomaly_col with
  | Some a =>
      if decide (a ∈ columns df) then
        rename (<[ a := "Anomaly" ]> {[ cust_col := "CustomerID" ]})
          (reset_index
             (drop_duplicates None
                (dropna [a] (getitem df [cust_col; a]))))
      else empty_table ["CustomerID"; "Anomaly"]
  | None => empty_table ["CustomerID"; "Anomaly"]
  end.

End Body.

(** Lines 260-270. *)
Definition dd_rows : list (list (string * string)) :=
  [ [ ("Table", "Customers"); ("PrimaryKey", "CustomerID");
      ("Notes", "Customer master data") ];
    [ ("Table", "Accounts"); ("PrimaryKey", "AccountID");
      ("ForeignKeys", "CustomerID");
      ("Notes", "One or more accounts per customer") ];
    [ ("Table", "Transactions");
      ("PrimaryKey", "TransactionID (may be null)");
      ("ForeignKeys", "AccountID, BranchID");
      ("Notes", "Transaction records") ];
    [ ("Table", "Loans"); ("PrimaryKey", "LoanID");
      ("ForeignKeys", "CustomerID, BranchID");
      ("Notes", "Loan records if present") ];
    [ ("Table", "Cards"); ("PrimaryKey", "CardID");
      ("ForeignKeys", "CustomerID"); ("Notes", "Credit card records") ];
    [ ("Table", "Feedback"); ("PrimaryKey", "FeedbackID");
      ("ForeignKeys", "CustomerID"); ("Notes", "Customer feedback") ];
    [ ("Table", "Branches"); ("PrimaryKey", "BranchID");
      ("Notes", "Branch identifiers") ];
    [ ("Table", "Anomalies"); ("PrimaryKey", "");
      ("ForeignKeys", "CustomerID");
      ("Notes", "Rows flagged as anomalies (if any)") ] ].

Definition data_dictionary : Table := frame_of_records dd_rows.

Inductive exn := ValueError (msg : string).

Inductive result (A : Type) :=
| Ok (a : A)
| Raise (e : exn).
Global Arguments Ok {A} a.
Global Arguments Raise {A} e.

(** The returned dict, in insertion order. *)
Definition Sheets : Type := list (string * Table).

Definition sheet (name : string) (sheets : Sheets) : option Table :=
  snd <$> (snd <$> list_find (λ p : string * Table, p.1 = name) sheets).

(** The frame as it stands when the tables are cut from it. *)
Definition prepared (cust_col : string) (df : DataFrame) : DataFrame :=
  derive_keys (columns df) cust_col (coerce (columns df) df).

Definition build_relational_sheets (df : DataFrame) : result Sheets :=
  let cols := columns df in
  let df0 := coerce cols df in
  let cust_col := c cols "Customer ID" in
  match cust_col with
  | None =>
      Raise (ValueError
        "Input CSV does not contain a 'Customer ID' column (case-insensitive match).")
  | Some cust_col =>
      let df := derive_keys cols cust_col df0 in
      Ok [ ("Customers", customers_table cols cust_col df);
           ("Accounts", accounts_table cols cust_col df);
           ("Transactions", transactions_table cols df);
           ("Loans", loans_table cols cust_col df);
           ("Cards", cards_table cols cust_col df);
           ("Feedback", feedback_table cols cust_col df);
           ("Branches", branches_table cols df);
           ("Anomalies", anomalies_table cols cust_col df);
           ("DataDictionary", data_dictionary) ]
  end.

(** ** main, lines 313-333, from the parsed CSV on *)

(** [pd.read_csv(path, dtype=str, keep_default_na=False,
    na_values=["", "NA", "N/A"])] on the parsed file, followed by the
    trimming of the header of line 321. *)
Definition read_field (text : string) : cell :=
  if decide (text ∈ [""; "NA"; "N/A"]) then NaN else Str text.

Definition read_frame (header : list string) (records : list (list string))
  : DataFrame :=
  let labels := PyStr.strip <$> header in
  mkDF labels
    ((λ rec : list string, list_to_map (zip labels (read_field <$> rec)))
     <$> records).

(** How the process ends: with a status from [sys.exit], or by falling
    off the end of [main] after the sheets were written. *)
Inductive outcome :=
| Exit (status : Z)
| Written (sheets : Sheets).

(** [write] tells whether [write_sheets_to_excel] returns normally. *)
Definition main_from (write : Sheets → bool) (df : DataFrame) : outcome :=
  match build_relational_sheets df with
  | Raise _ => Exit 3
  | Ok sheets => if write sheets then Written sheets else Exit 4
  end.

End Transform.

(** ** An instance of the text interface, for evaluating examples *)

(** Decimal literals read exactly: the float reader of the instance.
    It knows neither the range nor the rounding of a float64, which the
    examples do not meet. *)
Module Decimal.

Fixpoint span_digits (l : list ascii) : list ascii * list ascii :=
  match l with
  | a :: l' =>
      if Numeric.is_digit a
      then let '(ds, rest) := span_digits l' in (a :: ds, rest)
      else ([], l)
  | [] => ([], [])
  end.

Definition digits_value (ds : list ascii) : Z :=
  foldl (λ acc a, 10 * acc + (Z.of_N (PyStr.code a) - 48)) 0 ds.

Definition take_sign (l : list ascii) : bool * list ascii :=
  match l with
  | a :: l' =>
      if bool_decide (a = "-"%char) then (true, l')
      else if bool_decide (a = "+"%char) then (false, l')
      else (false, l)
  | [] => (false, [])
  end.

(** m * 10^e as a reduced fraction. *)
Definition scale10 (m e : Z) : Q :=
  Qred (if 0 <=? e then inject_Z (m * 10 ^ e)
        else Qmake m (Z.to_pos (10 ^ (- e)))).

(** An optional sign, digits with an optional point and at least one
    digit, an optional exponent of [e] or [E], an optional sign and at
    least one digit; nothing may follow. *)
Definition parse_float (s : string) : option Q :=
  let '(neg, l1) := take_sign (list_ascii_of_string s) in
  let '(ip, l2) := span_digits l1 in
  let '(fp, l3) :=
    match l2 with
    | a :: l' => if bool_decide (a = "."%char) then span_digits l'
                 else ([], l2)
    | [] => ([], [])
    end in
  let mant := digits_value (ip ++ fp) in
  let mant := if neg then - mant else mant in
  let frac := Z.of_nat (length fp) in
  match ip ++ fp with
  | [] => None
  | _ :: _ =>
      match l3 with
      | [] => Some (scale10 mant (- frac))
      | a :: l4 =>
          if bool_decide (a = "e"%char) || bool_decide (a = "E"%char)
          then
            let '(eneg, l5) := take_sign l4 in
            match span_digits l5 with
            | ((_ :: _) as ed, []) =>
                let e := digits_value ed in
                Some (scale10 mant ((if eneg then - e else e) - frac))
            | _ => None
            end
          else None
      end
  end.

End Decimal.

(** Dates are read in the layouts YYYY-MM-DD, without zone, and
    YYYY-MM-DD HH:MM:SS+HH:MM, with its offset, each text on its own, and
    printed in them; a float is printed as its fraction, which is not
    Python's text. *)
Module IsoDates.

Definition ns_per_day : Z := 86400000000000.
Definition ns_per_second : Z := 1000000000.

(** Days since 1970-01-01 of a proleptic Gregorian date. *)
Definition days_from_civil (y m d : Z) : Z :=
  let y := if m <=? 2 then y - 1 else y in
  let era := y / 400 in
  let yoe := y - era * 400 in
  let doy := (153 * (if 2 <? m then m - 3 else m + 9) + 2) / 5 + d - 1 in
  let doe := yoe * 365 + yoe / 4 - yoe / 100 + doy in
  era * 146097 + doe - 719468.

Definition civil_from_days (z : Z) : Z * Z * Z :=
  let z := z + 719468 in
  let era := z / 146097 in
  let doe := z - era * 146097 in
  let yoe := (doe - doe / 1460 + doe / 36524 - doe / 146096) / 365 in
  let doy := doe - (365 * yoe + yoe / 4 - yoe / 100) in
  let mp := (5 * doy + 2) / 153 in
  let d := doy - (153 * mp + 2) / 5 + 1 in
  let m := if mp <? 10 then mp + 3 else mp - 9 in
  (yoe + era * 400 + (if m <=? 2 then 1 else 0), m, d).

(** The instant of the midnight that opens the day written YYYY-MM-DD. *)
Definition parse_day (l : list ascii) : option Z :=
  match l with
  | [y1; y2; y3; y4; s1; m1; m2; s2; d1; d2] =>
      if forallb Numeric.is_digit [y1; y2; y3; y4; m1; m2; d1; d2]
         && bool_decide (s1 = "-"%char) && bool_decide (s2 = "-"%char)
      then
        let y := Decimal.digits_value [y1; y2; y3; y4] in
        let m := Decimal.digits_value [m1; m2] in
        let d := Decimal.digits_value [d1; d2] in
        let days := days_from_civil y m d in
        if bool_decide (civil_from_days days = (y, m, d))
        then Some (days * ns_per_day) else None
      else None
  | _ => None
  end.

Definition parse (s : string) : option Z :=
  parse_day (list_ascii_of_string s).

(** The seconds into the day written HH:MM:SS. *)
Definition parse_clock (l : list ascii) : option Z :=
  match l with
  | [h1; h2; s1; m1; m2; s2; c1; c2] =>
      if forallb Numeric.is_digit [h1; h2; m1; m2; c1; c2]
         && bool_decide (s1 = ":"%char) && bool_decide (s2 = ":"%char)
      then
        let h := Decimal.digits_value [h1; h2] in
        let m := Decimal.digits_value [m1; m2] in
        let c := Decimal.digits_value [c1; c2] in
        if (h <? 24) && (m <? 60) && (c <? 60)
        then Some (h * 3600 + m * 60 + c) else None
      else None
  | _ => None
  end.

(** The seconds east of UTC written +HH:MM or -HH:MM. *)
Definition parse_offset (l : list ascii) : option Z :=
  match l with
  | [sg; h1; h2; s1; m1; m2] =>
      if forallb Numeric.is_digit [h1; h2; m1; m2]
         && bool_decide (s1 = ":"%char)
         && (bool_decide (sg = "+"%char) || bool_decide (sg = "-"%char))
      then
        let h := Decimal.digits_value [h1; h2] in
        let m := Decimal.digits_value [m1; m2] in
        if (h <? 24) && (m <? 60)
        then Some (if bool_decide (sg = "-"%char)
                   then - (h * 3600 + m * 60) else h * 3600 + m * 60)
        else None
      else None
  | _ => None
  end.

(** A day alone, or a day, a blank, a clock and an offset. *)
Definition parse_zoned (s : string) : option (Z * option Z) :=
  let l := list_ascii_of_string s in
  match parse_day l with
  | Some t => Some (t, None)
  | None =>
      match parse_day (take 10 l), l !! 10%nat,
            parse_clock (take 8 (drop 11 l)), parse_offset (drop 19 l) with
      | Some t, Some sep, Some secs, Some off =>
          if bool_decide (sep = " "%char)
          then Some (t + (secs - off) * ns_per_second, Some off)
          else None
      | _, _, _, _ => None
      end
  end.

Definition digit (n : Z) : ascii := ascii_of_N (Z.to_N (48 + n mod 10)).

Definition text (t : Z) : string :=
  let '(y, m, d) := civil_from_days (t / ns_per_day) in
  string_of_list_ascii
    [ digit (y / 1000); digit (y / 100); digit (y / 10); digit y;
      "-"%char; digit (m / 10); digit m;
      "-"%char; digit (d / 10); digit d ].

Definition clock_text (secs : Z) : string :=
  let h := secs / 3600 in
  let m := secs / 60 mod 60 in
  let c := secs mod 60 in
  string_of_list_ascii
    [ digit (h / 10); digit h; ":"%char; digit (m / 10); digit m;
      ":"%char; digit (c / 10); digit c ].

Definition offset_text (off : Z) : string :=
  let a := Z.abs off in
  let h := a / 3600 in
  let m := a / 60 mod 60 in
  string_of_list_ascii
    [ if off <? 0 then "-"%char else "+"%char;
      digit (h / 10); digit h; ":"%char; digit (m / 10); digit m ].

(** The wall clock of the instant [t] at the offset [off]. *)
Definition zoned_text (t off : Z) : string :=
  let wall := t + off * ns_per_second in
  text wall +:+ " " +:+ clock_text (wall mod ns_per_day / ns_per_second)
  +:+ offset_text off.

Definition instance : PandasText := {|
  parse_datetime _ s := parse_zoned s;
  datetime_of_float q := Some (Qnum q / Zpos (Qden q));
  float_of_text _ s := Decimal.parse_float s;
  datetime_text _ t := text t;
  aware_text _ t off := zoned_text t off;
  timestamp_text t := text t +:+ " 00:00:00";
  aware_timestamp_text t off := zoned_text t off;
  float_text q := pretty (Qnum q) +:+ "/" +:+ pretty (Zpos (Qden q))
|}.

End IsoDates.

(** ** Notions used in the statements *)

(** The form under which [find_col] compares names. *)
Definition norm (s : string) : string := PyStr.lower (PyStr.strip s).

(** The shape shared by the two coercion loops: the column a logical name
    resolves to is rewritten as a whole. *)
Definition coerce_step (G : list cell → list cell) (cols : list string)
    (df : DataFrame) (n : string) : DataFrame :=
  match c cols n with
  | Some a => if PyStr.truthy a then setitem df a (G (column df a)) else df
  | None => df
  end.

(** A rewriting of columns that keeps their length. *)
Class Columnwise (G : list cell → list cell) : Prop :=
  columnwise_length : ∀ col, length (G col) = length col.

(** What the numeric loop makes of one cell. *)
Definition numeric_cell `{PandasText} (col : list cell) (v : cell) : cell :=
  Numeric.to_numeric_text (Numeric.str_replace (astype_str col))
    (Numeric.strip_decoration (astype_str_cell col v)).

Definition numeric_column `{PandasText} (col : list cell) : list cell :=
  numeric_cell col <$> col.


(** A value that a coerced date column holds: a timestamp, with or
    without offset, or [NaT]. *)
Definition is_datetime (v : cell) : Prop :=
  match v with Stamp _ | Aware _ _ | NaT => True | _ => False end.



(** [df'] is [df] rewritten row by row, and only under labels in [P]. *)
Definition rowwise (P : string → Prop) (df df' : DataFrame) : Prop :=
  Forall2 (λ r r' : gmap string cell, ∀ k, ¬ P k → r' !! k = r !! k)
    (rows df) (rows df').

(** The labels of the three columns that [derive_keys] writes. *)
Definition key_labels : list string :=
  ["__account_open_date_str"; "__customer_id_str"; "AccountID"].

(** A logical name that no coercion loop and no derived column can hit. *)
Definition raw_name (n : string) : Prop :=
  norm n ∉ norm <$> (date_cols ++ numeric_cols ++ key_labels).

(** The positional row cut from a frame row. *)
Definition project (names : list string) (r : gmap string cell) : list cell :=
  (λ k, r !!! k) <$> names.


(** The labels the transform writes before it cuts the tables. *)
Definition touched (cols : list string) (k : string) : Prop :=
  k ∈ key_labels ∨ ∃ n, n ∈ date_cols ++ numeric_cols ∧ c cols n = Some k.

(** The rows of [t] under the key [v] of its column [pk] are the first row
    of [df] whose cell under [k] is [v], cut to [names], and nothing else. *)
Definition first_wins (t : Table) (pk : string) (df : DataFrame)
    (names : list string) (k : string) : Prop :=
  ∀ v, filter (λ row, cell_at (tcolumns t) pk row = v) (trows t)
       = option_list (project names
                        <$> head (filter (λ r : gmap string cell, r !!! k = v)
                                    (rows df))).


(** How many logical columns each table section of the source names. *)
Definition full_widths : list (string * nat) :=
  [ ("Customers", 9%nat); ("Accounts", 7%nat); ("Transactions", 7%nat);
    ("Loans", 9%nat); ("Cards", 9%nat); ("Feedback", 6%nat);
    ("Branches", 1%nat); ("Anomalies", 2%nat) ].

(** A table of at most [width] columns and [n] rows. *)
Definition bounded (n width : nat) (t : Table) : Prop :=
  (length (tcolumns t) ≤ width)%nat ∧ (length (trows t) ≤ n)%nat.

(** ** Frames for evaluating the transform *)

Module Example.

(** Two customers under one identifier, two rows without an identifier,
    a repeated TransactionID, no Loan ID, decorated and unreadable
    numbers and dates, and anomalies that repeat or are missing. *)
Definition frame : DataFrame :=
  read_frame
    [ "Customer ID "; "first name"; "Account Type";
      "Date Of Account Opening"; "Account Balance"; "TransactionID";
      "Loan Amount"; "Branch ID"; "Anomaly" ]
    [ [ "C1"; "Ann"; "Savings"; "2023-01-05"; "$1,234.56"; "T1"; "1000";
        "B1"; "Suspicious" ];
      [ "C1"; "Anna"; "Savings"; "2023-01-05"; "$1,234.56"; "T2"; "1000";
        "B1"; "Suspicious" ];
      [ ""; "Bob"; "NA"; "not a date"; "abc"; "T2"; ""; ""; "" ];
      [ ""; "Bea"; "Current"; ""; "7"; "T3"; "N/A"; "B1"; "Odd" ] ].

Definition sheets : Sheets :=
  match @build_relational_sheets IsoDates.instance frame with
  | Ok s => s
  | Raise _ => []
  end.

Definition table (name : string) : Table :=
  default (empty_table []) (sheet name sheets).

(** A file without any customer identifier column. *)
Definition headless : DataFrame :=
  read_frame ["Client"; "Anomaly"] [["C1"; "Odd"]].



(** A row whose account type and opening date are missing. *)
Definition blank : DataFrame :=
  read_frame ["Customer ID"; "Account Type"; "Date Of Account Opening"]
    [["C1"; ""; ""]].


End Example.

(** ** The catalogue, the writer and the command line *)

(** Lines 38-48. *)
Definition EXPECTED_COLS : list string :=
  [ "Customer ID"; "First Name"; "Last Name"; "Age"; "Gender"; "Address";
    "City"; "Contact Number"; "Email";
    "Account Type"; "Account Balance"; "Date Of Account Opening";
    "Last Transaction Date";
    "TransactionID"; "Transaction Date"; "Transaction Type";
    "Transaction Amount"; "Account Balance After Transaction";
    "Branch ID";
    "Loan ID"; "Loan Amount"; "Loan Type"; "Interest Rate"; "Loan Term";
    "Approval/Rejection Date"; "Loan Status";
    "CardID"; "Card Type"; "Credit Limit"; "Credit Card Balance";
    "Minimum Payment Due"; "Payment Due Date";
    "Last Credit Card Payment Date"; "Rewards Points";
    "Feedback ID"; "Feedback Date"; "Feedback Type"; "Resolution Status";
    "Resolution Date";
    "Anomaly" ].

(** Line 292: [name if len(name) <= 31 else name[:31]]. *)
Definition sheet_name (name : string) : string :=
  if (String.length name <=? 31)%nat then name else PyStr.prefix 31 name.

(** [write_sheets_to_excel], lines 289-293, as the calls of [to_excel] it
    issues on the writer: one per entry of the dict, in its order, each
    with its sheet name and its frame ([index=False]: header and rows). *)
Definition write_sheets_to_excel (sheets : Sheets) : list (string * Table) :=
  (λ p : string * Table, (sheet_name p.1, p.2)) <$> sheets.

(** Lines 302-306. *)
Definition default_input : string := "Comprehensive_Banking_Database.csv".
Definition default_output : string := "Comprehensive_Banking_Database.xlsx".

(** [arg or default], for a positional argument declared [nargs="?"]:
    [None] when it is not given. *)
Definition arg_or (arg : option string) (default : string) : string :=
  match arg with
  | Some s => if PyStr.truthy s then s else default
  | None => default
  end.

(** What [main] asks of its surroundings: whether [Path(p).exists()];
    the header and the records that [pd.read_csv] parses from the file,
    [None] when it raises; whether the workbook writer, given the output
    path and the [to_excel] calls, returns normally. *)
Record World := {
  path_exists : string → bool;
  read_csv : string → option (list string * list (list string));
  excel_writer : string → list (string * Table) → bool
}.

(** [main], lines 296-338, up to what it prints. The path is handed
    to [path_exists] and to [read_csv] as the argument gives it. *)
Definition main `{PandasText} (w : World)
    (input_csv output_xlsx : option string) : outcome :=
  let input_csv := arg_or input_csv default_input in
  let output_xlsx := arg_or output_xlsx default_output in
  if negb (path_exists w input_csv) then Exit 1
  else
    match read_csv w input_csv with
    | None => Exit 2
    | Some (header, records) =>
        main_from
          (λ sheets, excel_writer w output_xlsx (write_sheets_to_excel sheets))
          (read_frame header records)
    end.

(** [df.drop(columns=names, inplace=True, errors="ignore")] *)
Definition drop_columns (names : list string) (df : DataFrame) : DataFrame :=
  mkDF (filter (λ k, k ∉ names) (columns df))
       ((λ r : gmap string cell, foldr delete r names) <$> rows df).

(** The frame of the caller once [build_relational_sheets] has returned
    or raised: the function works on its argument in place, the loops of
    lines 78-92 run before the check of line 98, and line 272 takes the
    two helper columns away again. *)
Definition frame_after `{PandasText} (df : DataFrame) : DataFrame :=
  let cols := columns df in
  let df0 := coerce cols df in
  match c cols "Customer ID" with
  | None => df0
  | Some cust_col =>
      drop_columns ["__account_open_date_str"; "__customer_id_str"]
        (derive_keys cols cust_col df0)
  end.

(** ** More notions used in the statements *)

(** The header of a renamed table: the new names of the columns that
    resolve, in the order of the cut. *)
Definition resolved_header (entries : list (option string * string))
  : list string :=
  omap (λ e : option string * string, e.1 ≫= λ _, Some e.2) entries.

(** Every value of the column [fk] of [child] is a value of the column
    [pk] of [parent]. *)
Definition references (child : Table) (fk : string) (parent : Table)
    (pk : string) : Prop :=
  ∀ row, row ∈ trows child →
    ∃ prow, prow ∈ trows parent
      ∧ cell_at (tcolumns parent) pk prow = cell_at (tcolumns child) fk row.

(** Every row has one cell per column. *)
Definition rectangular (t : Table) : Prop :=
  Forall (λ row, length row = length (tcolumns t)) (trows t).

(** A lower-case hexadecimal digit. *)
Definition is_hex (a : ascii) : Prop :=
  a ∈ list_ascii_of_string "0123456789abcdef".

(** The separator of [account_id_base] does not occur in [s]. *)
Definition bar_free (s : string) : Prop :=
  "|"%char ∉ list_ascii_of_string s.

(** The columns each renamed table is cut from, in the order of the cut,
    with the names they leave under (lines 117-133, 136-156, 161-187,
    190-217, 220-240). *)
Definition accounts_entries (cols : list string) (cust_col : string)
  : list (option string * string) :=
  [ (Some "AccountID", "AccountID"); (Some cust_col, "CustomerID");
    (c cols "Account Type", "AccountType");
    (c cols "Account Balance", "AccountBalance");
    (c cols "Date Of Account Opening", "DateOfAccountOpening");
    (c cols "Last Transaction Date", "LastTransactionDate");
    (c cols "Branch ID", "BranchID") ].

Definition transactions_entries (cols : list string)
  : list (option string * string) :=
  [ (c cols "TransactionID", "TransactionID");
    (Some "AccountID", "AccountID");
    (c cols "Transaction Date", "TransactionDate");
    (c cols "Transaction Type", "TransactionType");
    (c cols "Transaction Amount", "TransactionAmount");
    (c cols "Account Balance After Transaction",
     "AccountBalanceAfterTransaction");
    (c cols "Branch ID", "BranchID") ].

Definition loans_entries (cols : list string) (cust_col : string)
  : list (option string * string) :=
  [ (c cols "Loan ID", "LoanID"); (Some cust_col, "CustomerID");
    (c cols "Loan Amount", "LoanAmount"); (c cols "Loan Type", "LoanType");
    (c cols "Interest Rate", "InterestRate"); (c cols "Loan Term", "LoanTerm");
    (c cols "Approval/Rejection Date", "ApprovalRejectionDate");
    (c cols "Loan Status", "LoanStatus"); (c cols "Branch ID", "BranchID") ].

Definition cards_entries (cols : list string) (cust_col : string)
  : list (option string * string) :=
  [ (c cols "CardID", "CardID"); (Some cust_col, "CustomerID");
    (c cols "Card Type", "CardType"); (c cols "Credit Limit", "CreditLimit");
    (c cols "Credit Card Balance", "CreditCardBalance");
    (c cols "Minimum Payment Due", "MinimumPaymentDue");
    (c cols "Payment Due Date", "PaymentDueDate");
    (c cols "Last Credit Card Payment Date", "LastCreditCardPaymentDate");
    (c cols "Rewards Points", "RewardsPoints") ].

Definition feedback_entries (cols : list string) (cust_col : string)
  : list (option string * string) :=
  [ (c cols "Feedback ID", "FeedbackID"); (Some cust_col, "CustomerID");
    (c cols "Feedback Date", "FeedbackDate");
    (c cols "Feedback Type", "FeedbackType");
    (c cols "Resolution Status", "ResolutionStatus");
    (c cols "Resolution Date", "ResolutionDate") ].

(** Customers: only the identifier is renamed (line 114). *)
Definition customers_entries (cols : list string) (cust_col : string)
  : list (option string * string) :=
  (Some cust_col, "CustomerID")
  :: ((λ n, (c cols n, default "" (c cols n)))
      <$> [ "First Name"; "Last Name"; "Age"; "Gender"; "Address"; "City";
            "Contact Number"; "Email" ]).

(** [t] is cut from [df]: under a header that gives every column of
    [entries] that resolves its new name, the rows are projections of
    rows of [df] to those columns, in the order of [df]. *)
Definition cut_of (t : Table) (df : DataFrame)
    (entries : list (option string * string)) : Prop :=
  let names := not_none (fst <$> entries) in
  ∃ f : string → string,
    tcolumns t = f <$> names
    ∧ (∀ a v, (Some a, v) ∈ entries → f a = v)
    ∧ trows t `sublist_of` (project names <$> rows df).

(** A value of a float64 column. *)
Definition is_number (v : cell) : Prop :=
  match v with Num _ | NaN => True | _ => False end.

(** The renamed sheets with the columns they are cut from. *)
Definition sheet_entries (cols : list string) (cust_col : string)
  : list (string * list (option string * string)) :=
  [ ("Accounts", accounts_entries cols cust_col);
    ("Transactions", transactions_entries cols);
    ("Loans", loans_entries cols cust_col);
    ("Cards", cards_entries cols cust_col);
    ("Feedback", feedback_entries cols cust_col) ].

(** A file system for evaluating [main]. *)
Module ExampleWorld.

(** One file is there and readable, a second is there and has no customer
    column; no other path exists; the writer succeeds. *)
Definition world : World := {|
  path_exists p := bool_decide (p = "bank.csv" ∨ p = "other.csv");
  read_csv p :=
    if decide (p = "bank.csv")
    then Some ([" customer id"; "Anomaly"], [["C1"; "Odd"]])
    else if decide (p = "other.csv")
    then Some (["Client"], [["C1"]])
    else None;
  excel_writer _ _ := true
|}.

End ExampleWorld.

(** * Properties *)

(** ** Rows kept by [drop_duplicates] *)

Section KeepFirst.
Context {A K : Type} `{EqDecision K} (key : A → K).

(** The kept rows under a key [k] are: none when [k] was seen before,
    otherwise the first row of the input under [k], alone. *)
Lemma keep_first_filter seen l k :
  filter (λ y, key y = k) (keep_first key seen l)
  = if decide (k ∈ seen) then []
    else option_list (head (filter (λ y, key y = k) l)).
Proof.
  revert seen. induction l as [|x l IH]; intros seen; simpl.
  - by case_decide.
  - destruct (decide (key x ∈ seen)) as [Hin|Hnin].
    + rewrite IH. case_decide as Hk; [done|].
      rewrite (filter_cons_False (λ y, key y = k)); [done|].
      intros Heq. apply Hk. by rewrite <- Heq.
    + destruct (decide (key x = k)) as [<-|Hne].
      * rewrite !(filter_cons_True (λ y, key y = key x)) by done.
        rewrite IH, decide_True by (apply elem_of_cons; by left).
        by rewrite decide_False.
      * rewrite !(filter_cons_False (λ y, key y = k)) by done.
        rewrite IH. case_decide as Hk; case_decide as Hk'; try done.
        -- apply elem_of_cons in Hk as [->|]; done.
        -- destruct Hk. apply elem_of_cons. by right.
Qed.

Lemma keep_first_elem seen l x :
  x ∈ keep_first key seen l → x ∈ l ∧ key x ∉ seen.
Proof.
  revert seen. induction l as [|y l IH]; intros seen; simpl.
  - by intros ?%elem_of_nil.
  - case_decide.
    + intros Hx. destruct (IH _ Hx) as [Hl Hs].
      split; [apply elem_of_cons; by right|exact Hs].
    + intros [Heq|Hx]%elem_of_cons.
      * rewrite Heq. split; [apply elem_of_cons; by left|assumption].
      * destruct (IH _ Hx) as [Hl Hs].
        split; [apply elem_of_cons; by right|].
        intros Hin. apply Hs, elem_of_cons. by right.
Qed.

Lemma keep_first_sublist seen l : keep_first key seen l `sublist_of` l.
Proof.
  revert seen. induction l as [|y l IH]; intros seen; simpl; [done|].
  case_decide; [by apply sublist_cons|by apply sublist_skip].
Qed.

Lemma keep_first_NoDup_keys seen l :
  NoDup (key <$> keep_first key seen l).
Proof.
  revert seen. induction l as [|y l IH]; intros seen; simpl.
  - constructor.
  - case_decide; [done|]. rewrite fmap_cons. constructor; [|done].
    intros (z & Hz & [_ Hseen]%keep_first_elem)%list_elem_of_fmap.
    apply Hseen. rewrite Hz. by left.
Qed.

Lemma keep_first_covers l x :
  x ∈ l → ∃ y, y ∈ keep_first key [] l ∧ key y = key x.
Proof.
  intros Hx.
  pose proof (keep_first_filter [] l (key x)) as Hf.
  rewrite decide_False in Hf by (by intros ?%elem_of_nil).
  destruct (filter (λ y, key y = key x) l) as [|y l'] eqn:Hl.
  - assert (x ∈ filter (λ y, key y = key x) l) as Hin
      by by apply list_elem_of_filter.
    rewrite Hl in Hin. by apply elem_of_nil in Hin.
  - simpl in Hf. exists y.
    assert (y ∈ filter (λ y, key y = key x) (keep_first key [] l)) as Hin
      by (rewrite Hf; by left).
    apply list_elem_of_filter in Hin as [??]. done.
Qed.

Lemma keep_first_length seen l :
  (length (keep_first key seen l) ≤ length l)%nat.
Proof. apply sublist_length, keep_first_sublist. Qed.

Lemma keep_first_fmap {B} (f : B → A) seen (l : list B) :
  keep_first key seen (f <$> l) = f <$> keep_first (key ∘ f) seen l.
Proof.
  revert seen. induction l as [|y l IH]; intros seen; simpl; [done|].
  case_decide; rewrite IH; done.
Qed.

Lemma keep_first_ext (key' : A → K) seen l :
  (∀ x, x ∈ l → key x = key' x) →
  keep_first key seen l = keep_first key' seen l.
Proof.
  revert seen. induction l as [|y l IH]; intros seen Hk; simpl; [done|].
  rewrite <- (Hk y) by by left.
  rewrite !IH by (intros; apply Hk; by right). done.
Qed.

End KeepFirst.

(** With the whole row as the key no row is kept twice and none is lost. *)
Lemma keep_first_id_NoDup `{EqDecision A} (l : list A) :
  NoDup (keep_first id [] l).
Proof.
  pose proof (keep_first_NoDup_keys (@id A) [] l) as Hn.
  by rewrite list_fmap_id in Hn.
Qed.

Lemma keep_first_id_elem `{EqDecision A} (l : list A) x :
  x ∈ keep_first id [] l ↔ x ∈ l.
Proof.
  split.
  - by intros [??]%keep_first_elem.
  - intros Hx. destruct (keep_first_covers id l x Hx) as (y & Hy & Heq).
    unfold id in Heq. by subst.
Qed.

(** ** The column resolver *)

Lemma find_col_cons_Some df_cols target c0 :
  find_col (Some c0 :: df_cols) target
  = if decide (norm c0 = norm target) then Some c0
    else find_col df_cols target.
Proof. done. Qed.

Lemma find_col_Some df_cols target c0 :
  find_col df_cols target = Some c0 ↔
  ∃ pre post, df_cols = pre ++ Some c0 :: post
              ∧ norm c0 = norm target
              ∧ ∀ c', Some c' ∈ pre → norm c' ≠ norm target.
Proof.
  induction df_cols as [|[c1|] rest IH].
  - split; [done|]. intros (pre & post & Hp & _). by destruct pre.
  - rewrite find_col_cons_Some. case_decide as Hn.
    + split.
      * intros [= ->]. exists [], rest. split_and!; [done..|].
        by intros ? ?%elem_of_nil.
      * intros (pre & post & Hp & Hc & Hpre).
        destruct pre as [|p pre]; simpl in Hp; [by inversion Hp|].
        inversion Hp; subst. exfalso. apply (Hpre c1); [by left|done].
    + rewrite IH. split.
      * intros (pre & post & -> & Hc & Hpre).
        exists (Some c1 :: pre), post. split_and!; [done..|].
        intros c' [Heq|?]%elem_of_cons; [by inversion Heq; subst|by apply Hpre].
      * intros (pre & post & Hp & Hc & Hpre).
        destruct pre as [|p pre]; simpl in Hp; inversion Hp; subst; [done|].
        exists pre, post. split_and!; [done..|].
        intros c' ?. apply Hpre. by right.
  - change (find_col (None :: rest) target) with (find_col rest target).
    rewrite IH. split.
    + intros (pre & post & -> & Hc & Hpre).
      exists (None :: pre), post. split_and!; [done..|].
      intros c' [Heq|?]%elem_of_cons; [done|by apply Hpre].
    + intros (pre & post & Hp & Hc & Hpre).
      destruct pre as [|p pre]; simpl in Hp; inversion Hp; subst.
      exists pre, post. split_and!; [done..|].
      intros c' ?. apply Hpre. by right.
Qed.

Lemma find_col_None df_cols target :
  find_col df_cols target = None ↔
  ∀ c', Some c' ∈ df_cols → norm c' ≠ norm target.
Proof.
  induction df_cols as [|[c1|] rest IH].
  - split; [|done]. by intros _ ? ?%elem_of_nil.
  - rewrite find_col_cons_Some. case_decide as Hn.
    + split; [done|]. intros Hall. exfalso. apply (Hall c1); [by left|done].
    + rewrite IH. split.
      * intros Hall c' [Heq|?]%elem_of_cons;
          [by inversion Heq; subst|by apply Hall].
      * intros Hall c' ?. apply Hall. by right.
  - change (find_col (None :: rest) target) with (find_col rest target).
    rewrite IH. split.
    + intros Hall c' [Heq|?]%elem_of_cons; [done|by apply Hall].
    + intros Hall c' ?. apply Hall. by right.
Qed.

(** C4. Column resolution: [find_col] never fails; it answers with the
    first name, in column order, whose trimmed and lower-cased form equals
    the trimmed and lower-cased target (so among several matching columns
    always the first by position), and with [None] exactly when no name
    matches. *)
Theorem find_col_first_match (df_cols : list (option string))
    (target : string) :
  match find_col df_cols target with
  | Some c0 =>
      ∃ pre post, df_cols = pre ++ Some c0 :: post
        ∧ PyStr.lower (PyStr.strip c0) = PyStr.lower (PyStr.strip target)
        ∧ ∀ c', Some c' ∈ pre →
            PyStr.lower (PyStr.strip c') ≠ PyStr.lower (PyStr.strip target)
  | None =>
      ∀ c', Some c' ∈ df_cols →
        PyStr.lower (PyStr.strip c') ≠ PyStr.lower (PyStr.strip target)
  end.
Proof.
  destruct (find_col df_cols target) as [c0|] eqn:Hf.
  - exact (proj1 (find_col_Some _ _ _) Hf).
  - exact (proj1 (find_col_None _ _) Hf).
Qed.

Lemma find_col_first_match_witness :
  find_col [Some "Customer ID"; Some " customer id "] "Customer ID"
    = Some "Customer ID"
  ∧ ∃ pre post,
      [Some "Customer ID"; Some " customer id "]
        = pre ++ Some "Customer ID" :: post
      ∧ ∀ c', Some c' ∈ pre →
          PyStr.lower (PyStr.strip c')
          ≠ PyStr.lower (PyStr.strip "Customer ID").
Proof.
  pose proof (find_col_first_match
    [Some "Customer ID"; Some " customer id "] "Customer ID") as Hw.
  split; [vm_compute; reflexivity|].
  change (find_col [Some "Customer ID"; Some " customer id "] "Customer ID")
    with (Some "Customer ID") in Hw.
  destruct Hw as (pre & post & ? & _ & ?). by exists pre, post.
Defined.

(** ** Resolved names *)

Lemma c_Some cols n a : c cols n = Some a → a ∈ cols ∧ norm a = norm n.
Proof.
  unfold c. intros (pre & post & Hc & Hn & _)%find_col_Some. split; [|done].
  assert (Some a ∈ Some <$> cols) as Hin
    by (rewrite Hc; apply elem_of_app; right; by left).
  apply list_elem_of_fmap in Hin as (a' & [= ->] & ?). done.
Qed.

Lemma c_same cols n n' a :
  c cols n = Some a → c cols n' = Some a → norm n = norm n'.
Proof. intros [_ <-]%c_Some [_ <-]%c_Some. done. Qed.

Lemma c_truthy cols n a :
  c cols n = Some a → norm n ≠ "" → PyStr.truthy a = true.
Proof.
  intros [_ Hn]%c_Some Hne. unfold PyStr.truthy. case_decide; [|done].
  subst a. by destruct Hne.
Qed.

(** ** Writing a column *)

Lemma setitem_rows df name (g : gmap string cell → cell) :
  rows (setitem df name (g <$> rows df))
  = (λ r, <[name := g r]> r) <$> rows df.
Proof. simpl. by rewrite zip_with_fmap_r, zip_with_diag. Qed.

Lemma setitem_columns df name s :
  name ∈ columns df → columns (setitem df name s) = columns df.
Proof. intros ?. simpl. by rewrite decide_True. Qed.

Lemma column_fmap {B} df name (f : cell → B) :
  f <$> column df name = (λ r : gmap string cell, f (r !!! name)) <$> rows df.
Proof. unfold column. by rewrite <- list_fmap_compose. Qed.

Lemma setitem_column df name s :
  length s = length (rows df) → column (setitem df name s) name = s.
Proof.
  unfold column. simpl. generalize (rows df). intros rs. revert s.
  induction rs as [|r rs IH]; intros [|v s] Hlen; simpl in *; try done.
  rewrite lookup_total_insert_eq. f_equal. apply IH. by injection Hlen.
Qed.

Lemma rowwise_fmap P df df' (F : gmap string cell → gmap string cell) :
  rows df' = F <$> rows df → (∀ r k, ¬ P k → F r !! k = r !! k) →
  rowwise P df df'.
Proof.
  intros HF HFk. unfold rowwise. rewrite HF.
  apply Forall2_fmap_r, Forall_Forall2_diag, Forall_forall.
  intros r _ k Hk. by apply HFk.
Qed.

Lemma rowwise_refl P df : rowwise P df df.
Proof. apply (rowwise_fmap _ _ _ id); [by rewrite list_fmap_id|done]. Qed.

Lemma rowwise_trans P df1 df2 df3 :
  rowwise P df1 df2 → rowwise P df2 df3 → rowwise P df1 df3.
Proof.
  unfold rowwise. intros H12 H23. eapply Forall2_trans; [|done..].
  intros r1 r2 r3 Hr12 Hr23 k Hk. by rewrite Hr23, Hr12.
Qed.

Lemma rowwise_mono (P Q : string → Prop) df df' :
  (∀ k, P k → Q k) → rowwise P df df' → rowwise Q df df'.
Proof.
  intros HPQ Hrw. unfold rowwise. eapply Forall2_impl; [exact Hrw|].
  intros r r' Hr k Hk. apply Hr. intros HP. by apply Hk, HPQ.
Qed.

Lemma rowwise_setitem df name (g : gmap string cell → cell) :
  rowwise (λ k, k = name) df (setitem df name (g <$> rows df)).
Proof.
  apply (rowwise_fmap _ _ _ (λ r, <[name := g r]> r)); [apply setitem_rows|].
  intros r k Hk. by rewrite lookup_insert_ne.
Qed.

Lemma rowwise_setitem_list df name s :
  length s = length (rows df) →
  rowwise (λ k, k = name) df (setitem df name s).
Proof.
  unfold rowwise. simpl. generalize (rows df). intros rs. revert s.
  induction rs as [|r rs IH]; intros [|v s] Hlen; simpl in *; try done.
  constructor.
  - intros k Hk. by rewrite lookup_insert_ne.
  - apply IH. by injection Hlen.
Qed.

Lemma rowwise_length P df df' :
  rowwise P df df' → length (rows df') = length (rows df).
Proof. intros Hrw. symmetry. by eapply Forall2_length. Qed.

Lemma rowwise_project P df df' names :
  rowwise P df df' → (∀ k, k ∈ names → ¬ P k) →
  project names <$> rows df' = project names <$> rows df.
Proof.
  unfold rowwise. intros Hrw Hn.
  induction Hrw as [|r r' rs rs' Hr _ IH]; [done|].
  rewrite !fmap_cons, IH. f_equal. unfold project.
  apply list_fmap_ext. intros _ k Hk%list_elem_of_lookup_2.
  rewrite !lookup_total_alt. by rewrite Hr by by apply Hn.
Qed.

Lemma rowwise_column P df df' k :
  rowwise P df df' → ¬ P k → column df' k = column df k.
Proof.
  unfold rowwise, column. intros Hrw Hk.
  induction Hrw as [|r r' rs rs' Hr _ IH]; [done|].
  rewrite !fmap_cons, IH. f_equal.
  by rewrite !lookup_total_alt, Hr.
Qed.

(** ** The coercion loops *)

Section Loops.
Context `{PandasText}.

Lemma convert_length col st l : length (convert col st l) = length l.
Proof.
  revert st. induction l as [|v l IH]; intros st; [done|].
  destruct v; simpl; by rewrite IH.
Qed.

Global Instance to_datetime_columnwise : Columnwise to_datetime.
Proof. intros col. apply convert_length. Qed.

Global Instance numeric_columnwise : Columnwise numeric_column.
Proof. intros col. apply length_fmap. Qed.

Lemma coerce_date_step cols df dc :
  coerce_date cols df dc = coerce_step to_datetime cols df dc.
Proof. done. Qed.

Lemma coerce_numeric_step cols df nc :
  coerce_numeric cols df nc = coerce_step numeric_column cols df nc.
Proof.
  unfold coerce_numeric, coerce_step. destruct (c cols nc); [|done].
  case_match; [|done]. f_equal. cbv zeta.
  unfold numeric_column, numeric_cell, Numeric.to_numeric.
  unfold Numeric.str_replace at 2. unfold astype_str at 2.
  rewrite <- !list_fmap_compose. done.
Qed.

Lemma coerce_fold_date cols df names :
  foldl (coerce_date cols) df names
  = foldl (coerce_step to_datetime cols) df names.
Proof. done. Qed.

Lemma coerce_fold_numeric cols df names :
  foldl (coerce_numeric cols) df names
  = foldl (coerce_step numeric_column cols) df names.
Proof.
  revert df. induction names as [|n names IH]; intros df; simpl; [done|].
  by rewrite coerce_numeric_step, IH.
Qed.
End Loops.

Section Step.
Variable G : list cell → list cell.
Context `{!Columnwise G}.
Variable cols : list string.

Lemma column_length df a : length (column df a) = length (rows df).
Proof. apply length_fmap. Qed.

Lemma coerce_step_rowwise df n :
  rowwise (λ k, c cols n = Some k) df (coerce_step G cols df n).
Proof.
  unfold coerce_step. destruct (c cols n) as [a|]; [|apply rowwise_refl].
  case_match; [|apply rowwise_refl].
  eapply rowwise_mono; [|apply rowwise_setitem_list].
  - by intros k ->.
  - by rewrite columnwise_length, column_length.
Qed.

Lemma coerce_step_column df n a :
  c cols n = Some a → PyStr.truthy a = true →
  column (coerce_step G cols df n) a = G (column df a).
Proof.
  intros Hc Ht. unfold coerce_step. rewrite Hc, Ht.
  apply setitem_column. by rewrite columnwise_length, column_length.
Qed.

Lemma coerce_step_columns df n :
  cols ⊆ columns df → columns (coerce_step G cols df n) = columns df.
Proof.
  intros Hsub. unfold coerce_step.
  destruct (c cols n) as [a|] eqn:Hc; [|done]. case_match; [|done].
  apply setitem_columns, Hsub. by apply c_Some in Hc as [??].
Qed.

Lemma coerce_fold_rowwise df names :
  rowwise (λ k, ∃ n, n ∈ names ∧ c cols n = Some k) df
    (foldl (coerce_step G cols) df names).
Proof.
  revert df. induction names as [|n names IH]; intros df; simpl.
  - apply rowwise_refl.
  - eapply rowwise_trans.
    + eapply rowwise_mono; [|apply (coerce_step_rowwise df n)].
      intros k ?. exists n. split; [by left|done].
    + eapply rowwise_mono; [|apply IH].
      intros k (n' & ? & ?). exists n'. split; [by right|done].
Qed.

Lemma coerce_fold_columns df names :
  cols ⊆ columns df →
  columns (foldl (coerce_step G cols) df names) = columns df.
Proof.
  revert df. induction names as [|n names IH]; intros df Hsub; simpl.
  - done.
  - rewrite IH; [by apply coerce_step_columns|].
    by rewrite coerce_step_columns.
Qed.

(** A column that one name of the loop resolves to is rewritten once. *)
Lemma coerce_fold_column df names n a :
  NoDup (norm <$> names) → n ∈ names →
  c cols n = Some a → PyStr.truthy a = true →
  column (foldl (coerce_step G cols) df names) a = G (column df a).
Proof.
  intros Hnd Hn Hc Ht. revert df Hnd Hn.
  induction names as [|n0 names IH]; intros df Hnd Hn; simpl.
  - by apply elem_of_nil in Hn.
  - rewrite fmap_cons in Hnd. apply NoDup_cons in Hnd as [Hn0 Hnd].
    destruct (decide (n0 = n)) as [->|Hne].
    + rewrite (rowwise_column _ _ _ a (coerce_fold_rowwise _ names)).
      * by apply coerce_step_column.
      * intros (n' & Hn' & Hc'). apply Hn0.
        rewrite (c_same _ _ _ _ Hc Hc'). by apply list_elem_of_fmap_2.
    + apply elem_of_cons in Hn as [?|Hn]; [done|].
      rewrite IH by done.
      rewrite (rowwise_column _ _ _ a (coerce_step_rowwise df n0)); [done|].
      intros Hc'. apply Hn0.
      rewrite (c_same _ _ _ _ Hc' Hc). by apply list_elem_of_fmap_2.
Qed.
End Step.


Section Dates.
Context `{PandasText}.
Variable cols : list string.

Lemma stamp_of_is_datetime p : is_datetime (stamp_of p).
Proof. by destruct p as [t [o|]]. Qed.

Lemma convert_is_datetime col st l : Forall is_datetime (convert col st l).
Proof.
  revert st. induction l as [|v l IH]; intros st; [constructor|].
  destruct v; simpl; constructor; try apply IH; try done.
  - destruct (parse_datetime col s); [apply stamp_of_is_datetime|done].
  - by destruct (found_tz st).
  - by destruct (datetime_of_float q).
  - by case_match.
Qed.

Lemma to_datetime_is_datetime col : Forall is_datetime (to_datetime col).
Proof. apply convert_is_datetime. Qed.







Local Abbreviation step := (coerce_step to_datetime cols).









End Dates.

Lemma norms_distinct :
  NoDup (norm <$> (date_cols ++ numeric_cols ++ key_labels)).
Proof. compute_done. Qed.

Lemma norm_of_logical_nonempty n :
  n ∈ date_cols ++ numeric_cols → norm n ≠ "".
Proof.
  intros Hn Hnil.
  assert (Forall (λ n, norm n ≠ "") (date_cols ++ numeric_cols)) as Hall.
  { compute_done. }
  rewrite Forall_forall in Hall. by apply (Hall n).
Qed.


Section NumericCoercion.
Context `{PandasText}.

End NumericCoercion.

(** ** Cutting tables *)

Lemma filter_fmap {A B} (f : A → B) (P : B → Prop) `{∀ y, Decision (P y)}
    (l : list A) :
  filter P (f <$> l) = f <$> filter (P ∘ f) l.
Proof.
  induction l as [|x l IH]; [done|]. rewrite fmap_cons.
  destruct (decide (P (f x))).
  - rewrite filter_cons_True, (filter_cons_True (P ∘ f)) by done.
    by rewrite fmap_cons, IH.
  - by rewrite filter_cons_False, (filter_cons_False (P ∘ f)) by done.
Qed.

Lemma cell_at_cons h hs k v vs :
  cell_at (h :: hs) k (v :: vs) = if decide (h = k) then v else cell_at hs k vs.
Proof.
  unfold cell_at. simpl. case_decide; [done|].
  by destruct (list_find (λ k0, k0 = k) hs) as [[??]|].
Qed.

Lemma cell_at_head hs k v vs : cell_at (k :: hs) k (v :: vs) = v.
Proof. by rewrite cell_at_cons, decide_True. Qed.

Lemma cell_at_project names k r :
  k ∈ names → cell_at names k (project names r) = r !!! k.
Proof.
  induction names as [|h hs IH]; [by intros ?%elem_of_nil|].
  intros Hk. unfold project. rewrite fmap_cons, cell_at_cons.
  case_decide as Hh; [by subst|].
  apply elem_of_cons in Hk as [?|Hk]; [by subst|]. by apply IH.
Qed.

Lemma keep_first_inj {A K K'} `{EqDecision K, EqDecision K'}
    (key : A → K) (f : K → K') `{!Inj (=) (=) f} seen l :
  keep_first (f ∘ key) (f <$> seen) l = keep_first key seen l.
Proof.
  revert seen. induction l as [|x l IH]; intros seen; simpl; [done|].
  destruct (decide (key x ∈ seen)) as [Hin|Hnin].
  - rewrite decide_True by by apply list_elem_of_fmap_2. apply IH.
  - rewrite decide_False by by rewrite (list_elem_of_fmap_inj f).
    f_equal. apply (IH (key x :: seen)).
Qed.

Global Instance singleton_list_inj {A} : Inj (=) (=) (λ v : A, [v]).
Proof. by intros ?? [= ->]. Qed.

(** A table cut from [names] and deduplicated on the label [k]. *)
Lemma keyed_rows df names k m :
  k ∈ names →
  trows (rename m (reset_index (drop_duplicates (Some [k]) (getitem df names))))
  = project names <$> keep_first (λ r : gmap string cell, r !!! k) [] (rows df).
Proof.
  intros Hk. simpl. fold (project names).
  rewrite (keep_first_fmap (row_key names [k])). f_equal.
  rewrite <- (keep_first_inj (λ r : gmap string cell, r !!! k) (λ v, [v])).
  apply keep_first_ext. intros r _. unfold row_key. simpl.
  by rewrite cell_at_project.
Qed.


Lemma renamed_columns df names subset m :
  tcolumns (rename m (reset_index (drop_duplicates subset (getitem df names))))
  = (λ k, default k (m !! k)) <$> names.
Proof. done. Qed.

(** ** Rename dicts *)

Lemma rename_dict_from m0 entries a v :
  foldl (λ (m : gmap string string) (e : option string * string),
           match e.1 with
           | Some a => if PyStr.truthy a then <[a := e.2]> m else m
           | None => m
           end) m0 entries !! a = Some v →
  m0 !! a = Some v ∨ (Some a, v) ∈ entries.
Proof.
  revert m0. induction entries as [|[[a'|] v'] entries IH]; intros m0; simpl.
  - by left.
  - intros [Hm|Hin]%IH; [|right; by right].
    destruct (PyStr.truthy a'); [|by left].
    destruct (decide (a' = a)) as [->|Hne].
    + rewrite lookup_insert_eq in Hm. injection Hm as ->. right. by left.
    + rewrite lookup_insert_ne in Hm by done. by left.
  - intros [Hm|Hin]%IH; [by left|right; by right].
Qed.

Lemma rename_dict_elem entries a v :
  rename_dict entries !! a = Some v → (Some a, v) ∈ entries.
Proof.
  intros [Hm|?]%rename_dict_from; [|done]. by rewrite lookup_empty in Hm.
Qed.

Lemma rename_dict_keep m0 entries a :
  (∀ v, (Some a, v) ∉ entries) →
  foldl (λ (m : gmap string string) (e : option string * string),
           match e.1 with
           | Some a => if PyStr.truthy a then <[a := e.2]> m else m
           | None => m
           end) m0 entries !! a = m0 !! a.
Proof.
  revert m0. induction entries as [|[[a'|] v'] entries IH]; intros m0 Hn; simpl.
  - done.
  - rewrite IH by (intros v ?; apply (Hn v); by right).
    destruct (PyStr.truthy a'); [|done]. rewrite lookup_insert_ne; [done|].
    intros ->. apply (Hn v'). by left.
  - apply IH. intros v ?. apply (Hn v). by right.
Qed.

Lemma rename_dict_first a v entries :
  PyStr.truthy a = true → (∀ v', (Some a, v') ∉ entries) →
  rename_dict ((Some a, v) :: entries) !! a = Some v.
Proof.
  intros Ht Hn. unfold rename_dict. simpl. rewrite Ht.
  rewrite rename_dict_keep by done. apply lookup_insert_eq.
Qed.

Lemma raw_untouched cols n a :
  raw_name n → c cols n = Some a → ¬ touched cols a.
Proof.
  intros Hraw Hc Ht. apply Hraw. pose proof Hc as [_ <-]%c_Some.
  destruct Ht as [Hk|(n' & Hn' & Hc')].
  - apply list_elem_of_fmap_2. rewrite !elem_of_app. auto.
  - apply c_Some in Hc' as [_ ->]. apply list_elem_of_fmap_2.
    apply elem_of_app in Hn' as [?|?]; rewrite !elem_of_app; auto.
Qed.

Lemma setitem_columns_elem df name s k :
  k ∈ columns df → k ∈ columns (setitem df name s).
Proof. intros Hk. simpl. case_decide; [done|]. apply elem_of_app. by left. Qed.

Lemma rowwise_setitem_eq P df name s (g : gmap string cell → cell) :
  s = g <$> rows df → P name → rowwise P df (setitem df name s).
Proof.
  intros -> HP. eapply rowwise_mono; [|apply rowwise_setitem]. by intros k ->.
Qed.

Section Prepared.
Context `{PandasText}.

Lemma astype_rows df a :
  Str <$> astype_str (column df a)
  = (λ r : gmap string cell, Str (astype_str_cell (column df a) (r !!! a)))
    <$> rows df.
Proof. unfold astype_str. by rewrite <- list_fmap_compose, column_fmap. Qed.

Lemma coerce_rowwise cols df : rowwise (touched cols) df (coerce cols df).
Proof.
  unfold coerce, coerce_numerics, coerce_dates.
  rewrite coerce_fold_numeric, coerce_fold_date.
  eapply rowwise_trans.
  - eapply rowwise_mono; [|apply (coerce_fold_rowwise to_datetime)].
    intros k (n & ? & ?). right. exists n.
    split; [apply elem_of_app; by left|done].
  - eapply rowwise_mono; [|apply (coerce_fold_rowwise numeric_column)].
    intros k (n & ? & ?). right. exists n.
    split; [apply elem_of_app; by right|done].
Qed.

Lemma coerce_columns df : columns (coerce (columns df) df) = columns df.
Proof.
  unfold coerce, coerce_numerics, coerce_dates.
  rewrite coerce_fold_numeric, coerce_fold_date.
  rewrite coerce_fold_columns; rewrite coerce_fold_columns; done.
Qed.

Lemma derive_keys_rowwise cols cust df :
  rowwise (touched cols) df (derive_keys cols cust df).
Proof.
  unfold derive_keys. cbv zeta.
  assert (∃ g : gmap string cell → cell,
    match c cols "Date Of Account Opening" with
    | Some a =>
        if PyStr.truthy a then Str <$> astype_str (column df a)
        else replicate (length (rows df)) (Str "")
    | None => replicate (length (rows df)) (Str "")
    end = g <$> rows df) as [g1 ->].
  { destruct (c cols "Date Of Account Opening") as [a|];
      [destruct (PyStr.truthy a)|].
    - eexists. apply astype_rows.
    - exists (λ _, Str ""). symmetry. by apply const_fmap.
    - exists (λ _, Str ""). symmetry. by apply const_fmap. }
  assert (∀ k, k ∈ key_labels → touched cols k) as Hkey by (by left).
  eapply rowwise_trans; [eapply rowwise_trans|].
  - eapply (rowwise_setitem_eq _ df "__account_open_date_str");
      [reflexivity|]. apply Hkey. compute_done.
  - eapply (rowwise_setitem_eq _ _ "__customer_id_str");
      [apply astype_rows|]. apply Hkey. compute_done.
  - eapply (rowwise_setitem_eq _ _ "AccountID"); [reflexivity|].
    apply Hkey. compute_done.
Qed.

Lemma prepared_rowwise cust df :
  rowwise (touched (columns df)) df (prepared cust df).
Proof.
  unfold prepared. eapply rowwise_trans;
    [apply coerce_rowwise|apply derive_keys_rowwise].
Qed.

Lemma prepared_columns cust df k :
  k ∈ columns df → k ∈ columns (prepared cust df).
Proof.
  intros Hk. unfold prepared, derive_keys. cbv zeta.
  do 3 apply setitem_columns_elem. by rewrite coerce_columns.
Qed.

Lemma prepared_length cust df :
  length (rows (prepared cust df)) = length (rows df).
Proof. eapply rowwise_length, prepared_rowwise. Qed.

(** What [build_relational_sheets] returns. *)
Lemma build_Ok df cust :
  c (columns df) "Customer ID" = Some cust →
  build_relational_sheets df
  = let cols := columns df in
    let pdf := prepared cust df in
    Ok [ ("Customers", customers_table cols cust pdf);
         ("Accounts", accounts_table cols cust pdf);
         ("Transactions", transactions_table cols pdf);
         ("Loans", loans_table cols cust pdf);
         ("Cards", cards_table cols cust pdf);
         ("Feedback", feedback_table cols cust pdf);
         ("Branches", branches_table cols pdf);
         ("Anomalies", anomalies_table cols cust pdf);
         ("DataDictionary", data_dictionary) ].
Proof. intros Hc. unfold build_relational_sheets. by rewrite Hc. Qed.

Lemma build_Raise df :
  c (columns df) "Customer ID" = None →
  ∃ msg, build_relational_sheets df = Raise (ValueError msg).
Proof.
  intros Hc. unfold build_relational_sheets. rewrite Hc. by eexists.
Qed.

Lemma build_inv df sheets :
  build_relational_sheets df = Ok sheets →
  ∃ cust, c (columns df) "Customer ID" = Some cust
    ∧ sheets
      = [ ("Customers", customers_table (columns df) cust (prepared cust df));
          ("Accounts", accounts_table (columns df) cust (prepared cust df));
          ("Transactions", transactions_table (columns df) (prepared cust df));
          ("Loans", loans_table (columns df) cust (prepared cust df));
          ("Cards", cards_table (columns df) cust (prepared cust df));
          ("Feedback", feedback_table (columns df) cust (prepared cust df));
          ("Branches", branches_table (columns df) (prepared cust df));
          ("Anomalies", anomalies_table (columns df) cust (prepared cust df));
          ("DataDictionary", data_dictionary) ].
Proof.
  destruct (c (columns df) "Customer ID") as [cust|] eqn:Hc.
  - rewrite (build_Ok df cust Hc). intros [= <-]. by exists cust.
  - destruct (build_Raise df Hc) as [msg ->]. done.
Qed.

End Prepared.

(** ** Keyed tables *)

Lemma option_list_fmap {A B} (f : A → B) (o : option A) :
  f <$> option_list o = option_list (f <$> o).
Proof. by destruct o. Qed.

Lemma keyed_rows_under (hdr : list string) pk names k
    (l : list (gmap string cell)) :
  (∀ r, cell_at hdr pk (project names r) = r !!! k) →
  keep_first (row_key hdr [pk]) [] (project names <$> l)
  = project names <$> keep_first (λ r : gmap string cell, r !!! k) [] l.
Proof.
  intros Hcell. rewrite (keep_first_fmap (row_key hdr [pk])). f_equal.
  rewrite <- (keep_first_inj (λ r : gmap string cell, r !!! k) (λ v, [v])).
  apply keep_first_ext. intros r _. unfold row_key. simpl. by rewrite Hcell.
Qed.

Lemma first_wins_intro (t : Table) pk df names k :
  (∀ r, cell_at (tcolumns t) pk (project names r) = r !!! k) →
  trows t
  = project names <$> keep_first (λ r : gmap string cell, r !!! k) [] (rows df) →
  first_wins t pk df names k.
Proof.
  intros Hcell Hrows v. rewrite Hrows, filter_fmap.
  rewrite (list_filter_iff _ (λ r : gmap string cell, r !!! k = v)).
  - rewrite keep_first_filter, decide_False by by intros ?%elem_of_nil.
    apply option_list_fmap.
  - intros r. simpl. by rewrite Hcell.
Qed.

(** The tables deduplicated before the rename. *)
Lemma keyed_first_wins df k rest m pk :
  default k (m !! k) = pk →
  first_wins
    (rename m (reset_index
       (drop_duplicates (Some [k]) (getitem df (k :: rest)))))
    pk df (k :: rest) k.
Proof.
  intros Hpk. apply first_wins_intro.
  - intros r. rewrite renamed_columns, fmap_cons, Hpk. apply cell_at_head.
  - apply keyed_rows. by left.
Qed.

(** The table deduplicated after the rename. *)
Lemma renamed_first_wins df k rest m pk :
  default k (m !! k) = pk →
  first_wins
    (drop_duplicates (Some [pk])
       (rename m (reset_index (getitem df (k :: rest)))))
    pk df (k :: rest) k.
Proof.
  intros Hpk.
  assert (∀ r, cell_at ((λ k0, default k0 (m !! k0)) <$> k :: rest) pk
                 (project (k :: rest) r) = r !!! k) as Hcell.
  { intros r. rewrite fmap_cons, Hpk. apply cell_at_head. }
  apply first_wins_intro; [done|]. simpl. fold (project (k :: rest)).
  by apply (keyed_rows_under _ pk (k :: rest) k).
Qed.


Lemma not_none_elem (l : list (option string)) a :
  a ∈ not_none l ↔ Some a ∈ l.
Proof.
  unfold not_none. rewrite list_elem_of_omap. split.
  - by intros ([x|] & ? & [= ->]).
  - intros ?. by exists (Some a).
Qed.

Lemma not_none_length (l : list (option string)) :
  (length (not_none l) ≤ length l)%nat.
Proof.
  induction l as [|[x|] l IH]; simpl; [done| |].
  - apply le_n_S, IH.
  - by apply Nat.le_le_succ_r.
Qed.

Lemma not_none_cons a (l : list (option string)) :
  not_none (Some a :: l) = a :: not_none l.
Proof. done. Qed.

(** Two logical names that compare differently never resolve to the same
    column, and a resolved column compares like its logical name. *)
Ltac name_clash :=
  repeat match goal with
         | H : Some _ = c _ _ |- _ => symmetry in H
         | H : Some _ = Some _ |- _ => injection H as H
         end;
  subst;
  match goal with
  | H1 : c ?cols ?n = Some ?a, H2 : c ?cols ?n' = Some ?a |- _ =>
      let E := fresh in
      pose proof (c_same _ _ _ _ H1 H2) as E; vm_compute in E; discriminate E
  | H1 : c ?cols ?n = Some (String ?x ?s) |- _ =>
      let E := fresh in
      pose proof (proj2 (c_Some _ _ _ H1)) as E; vm_compute in E;
      discriminate E
  end.

(** Membership in a literal list, as the cases of its elements. *)
Ltac in_cases H :=
  repeat (apply elem_of_cons in H as [H|H]); [..|by apply elem_of_nil in H].

Section Tables.
Variable cols : list string.
Variable cust : string.
Hypothesis Hcust : c cols "Customer ID" = Some cust.
Variable df : DataFrame.

Lemma customers_first_wins :
  first_wins (customers_table cols cust df) "CustomerID" df
    (customers_cols cols cust) cust.
Proof.
  unfold customers_table, customers_cols. rewrite not_none_cons.
  apply keyed_first_wins. by rewrite lookup_singleton_eq.
Qed.

Lemma accounts_first_wins :
  first_wins (accounts_table cols cust df) "AccountID" df
    (accounts_cols cols cust) "AccountID".
Proof.
  unfold accounts_table, accounts_cols. cbv zeta. rewrite not_none_cons.
  apply keyed_first_wins.
  match goal with |- default _ ?o = _ => destruct o as [v|] eqn:Hm end;
    [|done].
  apply rename_dict_elem in Hm. exfalso.
  in_cases Hm; injection Hm as Hm _; name_clash.
Qed.

(** Loans, Cards and Feedback when their identifier resolves. *)
Lemma loans_keyed k :
  c cols "Loan ID" = Some k →
  first_wins (loans_table cols cust df) "LoanID" df (loans_cols cols cust) k.
Proof.
  intros Hk. assert (PyStr.truthy k = true) as Ht
    by (eapply c_truthy; [done|compute_done]).
  unfold loans_table, loans_cols, id_first, id_subset, truthy_col.
  cbv zeta. rewrite Hk, Ht. simpl app. rewrite not_none_cons.
  apply keyed_first_wins. rewrite rename_dict_first; [done..|].
  intros v' Hin. in_cases Hin; injection Hin as Hin _; name_clash.
Qed.

Lemma cards_keyed k :
  c cols "CardID" = Some k →
  first_wins (cards_table cols cust df) "CardID" df (cards_cols cols cust) k.
Proof.
  intros Hk. assert (PyStr.truthy k = true) as Ht
    by (eapply c_truthy; [done|compute_done]).
  unfold cards_table, cards_cols, id_first, id_subset, truthy_col.
  cbv zeta. rewrite Hk, Ht. simpl app. rewrite not_none_cons.
  apply keyed_first_wins. rewrite rename_dict_first; [done..|].
  intros v' Hin. in_cases Hin; injection Hin as Hin _; name_clash.
Qed.

Lemma feedback_keyed k :
  c cols "Feedback ID" = Some k →
  first_wins (feedback_table cols cust df) "FeedbackID" df
    (feedback_cols cols cust) k.
Proof.
  intros Hk. assert (PyStr.truthy k = true) as Ht
    by (eapply c_truthy; [done|compute_done]).
  unfold feedback_table, feedback_cols, id_first, id_subset, truthy_col.
  cbv zeta. rewrite Hk, Ht. simpl app. rewrite not_none_cons.
  apply keyed_first_wins. rewrite rename_dict_first; [done..|].
  intros v' Hin. in_cases Hin; injection Hin as Hin _; name_clash.
Qed.




(** Transactions with and without an identifier. *)
Lemma transactions_keyed k :
  c cols "TransactionID" = Some k →
  first_wins (transactions_table cols df) "TransactionID" df
    (transactions_cols cols) k.
Proof.
  intros Hk. assert (PyStr.truthy k = true) as Ht
    by (eapply c_truthy; [done|compute_done]).
  unfold transactions_table, transactions_cols, id_first, truthy_col.
  cbv zeta. rewrite Hk, Ht. simpl app. rewrite not_none_cons.
  match goal with
  | |- context [rename ?m _] =>
      assert (default k (m !! k) = "TransactionID") as Hpk
  end.
  { rewrite rename_dict_first; [done..|].
    intros v' Hin. in_cases Hin; injection Hin as Hin _; name_clash. }
  rewrite decide_True.
  - by apply renamed_first_wins.
  - simpl. rewrite Hpk. by left.
Qed.


(** Branches. *)
Lemma branches_rows b :
  c cols "Branch ID" = Some b →
  tcolumns (branches_table cols df) = ["BranchID"]
  ∧ trows (branches_table cols df)
    = keep_first id [] ((λ r : gmap string cell, [r !!! b]) <$> rows df).
Proof.
  intros Hb. assert (PyStr.truthy b = true) as Ht
    by (eapply c_truthy; [done|compute_done]).
  unfold branches_table. cbv zeta. rewrite Hb, Ht. split; [|done].
  simpl. by rewrite lookup_singleton_eq.
Qed.

Lemma branches_absent :
  c cols "Branch ID" = None →
  branches_table cols df = empty_table ["BranchID"].
Proof. intros Hb. unfold branches_table. cbv zeta. by rewrite Hb. Qed.

Lemma branches_first_wins b :
  c cols "Branch ID" = Some b →
  first_wins (branches_table cols df) "BranchID" df [b] b.
Proof.
  intros Hb. destruct (branches_rows b Hb) as [Hcols Hrows].
  apply first_wins_intro.
  - intros r. rewrite Hcols. apply cell_at_head.
  - rewrite Hrows. fold (project [b]).
    rewrite (keep_first_fmap id).
    by rewrite <- (keep_first_inj (λ r : gmap string cell, r !!! b)
                     (λ v, [v])).
Qed.

(** Anomalies. *)
Lemma anomalies_rows a :
  c cols "Anomaly" = Some a → a ∈ columns df →
  tcolumns (anomalies_table cols cust df) = ["CustomerID"; "Anomaly"]
  ∧ trows (anomalies_table cols cust df)
    = keep_first id []
        (filter (λ row, isna (cell_at [cust; a] a row) = false)
           (project [cust; a] <$> rows df)).
Proof.
  intros Ha Hin. assert (cust ≠ a) as Hne by (intros ->; name_clash).
  unfold anomalies_table. cbv zeta. rewrite Ha, decide_True by done. split.
  - simpl. rewrite lookup_insert_ne, lookup_singleton_eq by done.
    by rewrite lookup_insert_eq.
  - simpl. f_equal. apply list_filter_iff. intros row.
    by rewrite Forall_singleton.
Qed.

Lemma anomalies_absent :
  c cols "Anomaly" = None →
  anomalies_table cols cust df = empty_table ["CustomerID"; "Anomaly"].
Proof. intros Ha. unfold anomalies_table. cbv zeta. by rewrite Ha. Qed.

End Tables.

(** ** Looking a sheet up *)

Lemma sheet_cons name n t (rest : Sheets) :
  sheet name ((n, t) :: rest)
  = if decide (n = name) then Some t else sheet name rest.
Proof.
  unfold sheet. simpl. case_decide; [done|].
  by destruct (list_find (λ p : string * Table, p.1 = name) rest) as [[??]|].
Qed.

Ltac find_sheet H :=
  repeat (rewrite sheet_cons in H;
          first [ rewrite decide_True in H by reflexivity
                | rewrite decide_False in H by discriminate ]);
  injection H as H; subst.

Lemma raw_customer_id : raw_name "Customer ID".
Proof. compute_done. Qed.
Lemma raw_anomaly : raw_name "Anomaly".
Proof. compute_done. Qed.
Lemma raw_branch_id : raw_name "Branch ID".
Proof. compute_done. Qed.

Lemma first_wins_single (t : Table) pk df names k v :
  first_wins t pk df names k → v ∈ column df k →
  ∃ r, r ∈ rows df ∧ r !!! k = v
       ∧ filter (λ row, cell_at (tcolumns t) pk row = v) (trows t)
         = [project names r].
Proof.
  intros Hfw (r & Hv & Hr)%list_elem_of_fmap. rewrite (Hfw v).
  destruct (filter (λ r0 : gmap string cell, r0 !!! k = v) (rows df))
    as [|r0 l] eqn:Hl.
  - assert (r ∈ filter (λ r0 : gmap string cell, r0 !!! k = v) (rows df))
      as Hin by by apply list_elem_of_filter.
    rewrite Hl in Hin. by apply elem_of_nil in Hin.
  - assert (r0 ∈ filter (λ r0 : gmap string cell, r0 !!! k = v) (rows df))
      as [??]%list_elem_of_filter by (rewrite Hl; by left).
    by exists r0.
Qed.

Section Claims.
Context `{PandasText}.

(** C7. Anomalies table: its header is CustomerID, Anomaly; without an
    Anomaly column it has no row; with one, its rows are the (CustomerID,
    Anomaly) pairs of the input rows whose Anomaly is not missing, each
    pair once. *)
Theorem anomalies_table_spec df sheets t :
  build_relational_sheets df = Ok sheets →
  sheet "Anomalies" sheets = Some t →
  tcolumns t = ["CustomerID"; "Anomaly"]
  ∧ match c (columns df) "Anomaly" with
    | None => trows t = []
    | Some a =>
        ∃ cust, c (columns df) "Customer ID" = Some cust
          ∧ (∀ row, row ∈ trows t ↔
               ∃ r, r ∈ rows df ∧ isna (r !!! a) = false
                    ∧ row = [r !!! cust; r !!! a])
          ∧ NoDup (trows t)
    end.
Proof.
  intros (cust & Hcust & ->)%build_inv Ht. find_sheet Ht.
  destruct (c (columns df) "Anomaly") as [a|] eqn:Ha.
  - assert (a ∈ columns (prepared cust df)) as Hin
      by (apply prepared_columns; by apply c_Some in Ha as [??]).
    destruct (anomalies_rows _ _ Hcust (prepared cust df) a Ha Hin)
      as [Hcols Hrows].
    split; [done|]. exists cust. split; [done|].
    rewrite Hrows.
    rewrite (rowwise_project _ _ _ [cust; a] (prepared_rowwise cust df)).
    + split; [|apply keep_first_id_NoDup].
      intros row. rewrite keep_first_id_elem, list_elem_of_filter.
      rewrite list_elem_of_fmap. split.
      * intros (Hna & r & -> & Hr). exists r. split_and!; [done| |done].
        rewrite cell_at_project in Hna; [done|].
        apply elem_of_cons. right. by left.
      * intros (r & Hr & Hna & ->). split; [|by exists r].
        change [r !!! cust; r !!! a] with (project [cust; a] r).
        rewrite cell_at_project; [done|].
        apply elem_of_cons. right. by left.
    + intros k [->|[->|[]%elem_of_nil]%elem_of_cons]%elem_of_cons.
      * by eapply raw_untouched; [apply raw_customer_id|].
      * by eapply raw_untouched; [apply raw_anomaly|].
  - rewrite anomalies_absent by done. done.
Qed.

(** C8. First occurrence wins: in every table deduplicated on a primary
    key, the output rows under a key value are exactly one row, the cut of
    the first row of the frame that carries the value. The frame keeps the
    input's rows, in order, and every column of the input that is neither
    a date nor a number nor a derived one, the key columns among them. *)
Theorem first_occurrence_wins df sheets cust :
  build_relational_sheets df = Ok sheets →
  c (columns df) "Customer ID" = Some cust →
  let cols := columns df in
  let pdf := prepared cust df in
  length (rows pdf) = length (rows df)
  ∧ (∀ n a, raw_name n → c cols n = Some a → column pdf a = column df a)
  ∧ (∀ t, sheet "Customers" sheets = Some t →
       first_wins t "CustomerID" pdf (customers_cols cols cust) cust)
  ∧ (∀ t, sheet "Accounts" sheets = Some t →
       first_wins t "AccountID" pdf (accounts_cols cols cust) "AccountID")
  ∧ (∀ t k, sheet "Transactions" sheets = Some t →
       c cols "TransactionID" = Some k →
       first_wins t "TransactionID" pdf (transactions_cols cols) k)
  ∧ (∀ t k, sheet "Loans" sheets = Some t → c cols "Loan ID" = Some k →
       first_wins t "LoanID" pdf (loans_cols cols cust) k)
  ∧ (∀ t k, sheet "Cards" sheets = Some t → c cols "CardID" = Some k →
       first_wins t "CardID" pdf (cards_cols cols cust) k)
  ∧ (∀ t k, sheet "Feedback" sheets = Some t →
       c cols "Feedback ID" = Some k →
       first_wins t "FeedbackID" pdf (feedback_cols cols cust) k)
  ∧ (∀ t k, sheet "Branches" sheets = Some t → c cols "Branch ID" = Some k →
       first_wins t "BranchID" pdf [k] k).
Proof.
  intros (cust' & Hcust' & ->)%build_inv Hcust.
  rewrite Hcust in Hcust'. injection Hcust' as <-. intros cols pdf.
  split_and!.
  - apply prepared_length.
  - intros n a Hn Ha. eapply rowwise_column; [apply prepared_rowwise|].
    by eapply raw_untouched.
  - intros t Ht. find_sheet Ht. apply customers_first_wins.
  - intros t Ht. find_sheet Ht. by apply accounts_first_wins.
  - intros t k Ht Hk. find_sheet Ht. by apply transactions_keyed.
  - intros t k Ht Hk. find_sheet Ht. by apply loans_keyed.
  - intros t k Ht Hk. find_sheet Ht. by apply cards_keyed.
  - intros t k Ht Hk. find_sheet Ht. by apply feedback_keyed.
  - intros t k Ht Hk. find_sheet Ht. by apply branches_first_wins.
Qed.

(** C10. Missing equals missing under deduplication: when some input row
    has no CustomerID, the Customers table has exactly one row whose
    CustomerID is missing, and likewise the Branches table exactly one row
    for the missing BranchID. *)
Theorem missing_keys_collapse df sheets cust :
  build_relational_sheets df = Ok sheets →
  c (columns df) "Customer ID" = Some cust →
  (∀ t, sheet "Customers" sheets = Some t → NaN ∈ column df cust →
     ∃ row, filter (λ row, cell_at (tcolumns t) "CustomerID" row = NaN)
              (trows t) = [row])
  ∧ (∀ t b, sheet "Branches" sheets = Some t →
       c (columns df) "Branch ID" = Some b → NaN ∈ column df b →
       filter (λ row, cell_at (tcolumns t) "BranchID" row = NaN) (trows t)
       = [[NaN]]).
Proof.
  intros (cust' & Hcust' & ->)%build_inv Hcust.
  rewrite Hcust in Hcust'. injection Hcust' as <-. split.
  - intros t Ht Hnan. find_sheet Ht.
    rewrite <- (rowwise_column _ _ _ cust (prepared_rowwise cust df)) in Hnan
      by by eapply raw_untouched; [apply raw_customer_id|].
    destruct (first_wins_single _ _ _ _ _ _
                (customers_first_wins (columns df) cust (prepared cust df))
                Hnan) as (r & _ & _ & Hf).
    by eexists.
  - intros t b Ht Hb Hnan. find_sheet Ht.
    rewrite <- (rowwise_column _ _ _ b (prepared_rowwise cust df)) in Hnan
      by by eapply raw_untouched; [apply raw_branch_id|].
    destruct (first_wins_single _ _ _ _ _ _
                (branches_first_wins (columns df) (prepared cust df) b Hb)
                Hnan) as (r & _ & Hr & Hf).
    rewrite Hf. unfold project. simpl. by rewrite Hr.
Qed.


End Claims.

(** ** Dates, the mandatory column, the dictionary, the account key *)

Section Bounds.
Variable cols : list string.
Variable cust : string.
Variable df : DataFrame.

Lemma cut_bounded names subset m w :
  (length names ≤ w)%nat →
  bounded (length (rows df)) w
    (rename m (reset_index (drop_duplicates subset (getitem df names)))).
Proof.
  intros Hw. split; simpl.
  - by rewrite length_fmap.
  - etransitivity; [apply keep_first_length|]. by rewrite length_fmap.
Qed.

Lemma id_first_length id_col ls :
  (length (not_none (id_first id_col ++ ls)) ≤ S (length ls))%nat.
Proof.
  etransitivity; [apply not_none_length|]. rewrite length_app.
  unfold id_first. destruct (truthy_col id_col); simpl; lia.
Qed.

Lemma customers_bounded :
  bounded (length (rows df)) 9 (customers_table cols cust df).
Proof.
  apply cut_bounded. unfold customers_cols.
  etransitivity; [apply not_none_length|]. done.
Qed.

Lemma accounts_bounded :
  bounded (length (rows df)) 7 (accounts_table cols cust df).
Proof.
  apply cut_bounded. unfold accounts_cols.
  etransitivity; [apply not_none_length|]. done.
Qed.

Lemma transactions_bounded :
  bounded (length (rows df)) 7 (transactions_table cols df).
Proof.
  unfold transactions_table. cbv zeta. case_decide.
  - split; simpl.
    + rewrite length_fmap. apply id_first_length.
    + etransitivity; [apply keep_first_length|]. by rewrite length_fmap.
  - split; simpl; rewrite length_fmap; [apply id_first_length|done].
Qed.

Lemma loans_bounded : bounded (length (rows df)) 9 (loans_table cols cust df).
Proof. apply cut_bounded, id_first_length. Qed.

Lemma cards_bounded : bounded (length (rows df)) 9 (cards_table cols cust df).
Proof. apply cut_bounded, id_first_length. Qed.

Lemma feedback_bounded :
  bounded (length (rows df)) 6 (feedback_table cols cust df).
Proof. apply cut_bounded, id_first_length. Qed.

Lemma branches_bounded : bounded (length (rows df)) 1 (branches_table cols df).
Proof.
  unfold branches_table. cbv zeta.
  destruct (c cols "Branch ID") as [b|]; [destruct (PyStr.truthy b)|].
  - by apply cut_bounded.
  - split; simpl; lia.
  - split; simpl; lia.
Qed.

Lemma anomalies_bounded :
  bounded (length (rows df)) 2 (anomalies_table cols cust df).
Proof.
  unfold anomalies_table. cbv zeta.
  destruct (c cols "Anomaly") as [a|]; [case_decide|].
  - split; simpl; [done|].
    etransitivity; [apply keep_first_length|].
    etransitivity; [apply length_filter|]. by rewrite length_fmap.
  - split; simpl; lia.
  - split; simpl; lia.
Qed.

End Bounds.

Section AccountKey.
Context `{PandasText}.
Variable cols : list string.


End AccountKey.

Section MoreClaims.
Context `{PandasText}.


(** C3. The mandatory column: when no column name equals "customer id"
    once trimmed and lower-cased, the transform raises, no sheet is
    returned and the process exits with status 3; when one does, on a
    well-formed frame, the transform returns its nine sheets whatever
    other columns are absent, each data table within its full width and
    the input's row count. *)
Theorem mandatory_customer_id df :
  ((∀ k, k ∈ columns df → PyStr.lower (PyStr.strip k) ≠ "customer id") →
     (∃ msg, build_relational_sheets df = Raise (ValueError msg))
     ∧ ∀ write, main_from write df = Exit 3)
  ∧ (wf_frame df →
     ∀ k, k ∈ columns df → PyStr.lower (PyStr.strip k) = "customer id" →
     ∃ sheets, build_relational_sheets df = Ok sheets
       ∧ (∀ write, main_from write df
                   = if write sheets then Written sheets else Exit 4)
       ∧ fst <$> sheets = (fst <$> full_widths) ++ ["DataDictionary"]
       ∧ Forall2 (λ (p : string * Table) (w : string * nat),
                    p.1 = w.1 ∧ bounded (length (rows df)) w.2 p.2)
           (take 8 sheets) full_widths).
Proof.
  split.
  - intros Hno.
    assert (c (columns df) "Customer ID" = None) as Hc.
    { apply find_col_None. intros k (k' & [= ->] & Hk)%list_elem_of_fmap.
      exact (Hno _ Hk). }
    destruct (build_Raise df Hc) as [msg Hb]. split; [by exists msg|].
    intros write. unfold main_from. by rewrite Hb.
  - intros _ k Hk Hnorm.
    destruct (c (columns df) "Customer ID") as [cust|] eqn:Hc.
    2:{ exfalso. apply (proj1 (find_col_None _ _) Hc k); [|exact Hnorm].
        by apply list_elem_of_fmap_2. }
    eexists. split; [by apply build_Ok|]. cbv zeta.
    split; [intros write; unfold main_from; by rewrite (build_Ok df cust)|].
    split; [done|]. simpl take. unfold full_widths.
    rewrite <- (prepared_length cust df).
    repeat (apply List.Forall2_cons; [split; [reflexivity|]|]);
      [..|apply List.Forall2_nil]; cbn [fst snd].
    + apply customers_bounded.
    + apply accounts_bounded.
    + apply transactions_bounded.
    + apply loans_bounded.
    + apply cards_bounded.
    + apply feedback_bounded.
    + apply branches_bounded.
    + apply anomalies_bounded.
Qed.

(** C9. The data dictionary: whenever the transform returns, its
    DataDictionary sheet is the one fixed table, of eight rows, one per
    other sheet and in their order. *)
Theorem data_dictionary_constant df sheets :
  build_relational_sheets df = Ok sheets →
  sheet "DataDictionary" sheets = Some data_dictionary
  ∧ length (trows data_dictionary) = 8%nat
  ∧ (λ row, cell_at (tcolumns data_dictionary) "Table" row)
      <$> trows data_dictionary
    = Str <$> take 8 (fst <$> sheets)
  ∧ tcolumns data_dictionary = ["Table"; "PrimaryKey"; "Notes"; "ForeignKeys"].
Proof.
  intros (cust & Hcust & ->)%build_inv. split_and!.
  - repeat (rewrite sheet_cons;
            first [ rewrite decide_True by reflexivity
                  | rewrite decide_False by discriminate ]).
    reflexivity.
  - vm_compute. reflexivity.
  - vm_compute. reflexivity.
  - vm_compute. reflexivity.
Qed.

(** C1, at the input on which the code departs from it. A row whose
    AccountType and opening date are missing gets its AccountID from the
    text C1|nan|NaT: the missing markers are spelled out, they do not
    count as the empty string. *)
Theorem account_id_of_missing_values :
  column (Example.blank) "Account Type" = [NaN]
  ∧ column (Example.blank) "Date Of Account Opening" = [NaN]
  ∧ column (prepared "Customer ID" Example.blank) "AccountID"
    = [Str (make_account_id (Str "C1") NaN (Str "NaT"))]
  ∧ account_id_base (Str "C1") NaN (Str "NaT") = "C1|nan|NaT"
  ∧ account_id_base (Str "C1") (Str "") (Str "") = "C1||"
  ∧ make_account_id (Str "C1") NaN (Str "NaT") = "ACC_0b3caed98941"
  ∧ make_account_id (Str "C1") (Str "") (Str "") = "ACC_b00f1d412ac9".
Proof. split_and!; vm_compute; reflexivity. Qed.

End MoreClaims.

(** ** The statements at concrete frames *)





Lemma example_built :
  @build_relational_sheets IsoDates.instance Example.frame = Ok Example.sheets.
Proof. vm_compute. reflexivity. Defined.

Lemma example_customer_id :
  c (columns Example.frame) "Customer ID" = Some "Customer ID".
Proof. vm_compute. reflexivity. Defined.

Lemma example_labels : NoDup (columns Example.frame).
Proof. compute_done. Defined.

Lemma example_table name t :
  sheet name Example.sheets = Some t → t = Example.table name.
Proof. intros Ht. unfold Example.table. by rewrite Ht. Defined.

Lemma anomalies_table_spec_witness :
  @build_relational_sheets IsoDates.instance Example.frame = Ok Example.sheets
  ∧ sheet "Anomalies" Example.sheets = Some (Example.table "Anomalies")
  ∧ tcolumns (Example.table "Anomalies") = ["CustomerID"; "Anomaly"]
  ∧ NoDup (trows (Example.table "Anomalies"))
  ∧ trows (Example.table "Anomalies")
    = [[Str "C1"; Str "Suspicious"]; [NaN; Str "Odd"]].
Proof.
  assert (sheet "Anomalies" Example.sheets = Some (Example.table "Anomalies"))
    as Ht by (vm_compute; reflexivity).
  destruct (@anomalies_table_spec IsoDates.instance _ _ _ example_built Ht)
    as [Hcols Hrows].
  change (c (columns Example.frame) "Anomaly") with (Some "Anomaly") in Hrows.
  destruct Hrows as (cust & _ & _ & Hnd).
  split_and!; [exact example_built|exact Ht|exact Hcols|exact Hnd|].
  vm_compute. reflexivity.
Defined.

Lemma first_occurrence_wins_witness :
  @build_relational_sheets IsoDates.instance Example.frame = Ok Example.sheets
  ∧ c (columns Example.frame) "Customer ID" = Some "Customer ID"
  ∧ sheet "Customers" Example.sheets = Some (Example.table "Customers")
  ∧ filter (λ row, cell_at (tcolumns (Example.table "Customers"))
                     "CustomerID" row = Str "C1")
      (trows (Example.table "Customers"))
    = [[Str "C1"; Str "Ann"]].
Proof.
  assert (sheet "Customers" Example.sheets = Some (Example.table "Customers"))
    as Ht by (vm_compute; reflexivity).
  destruct (@first_occurrence_wins IsoDates.instance _ _ _
              example_built example_customer_id) as (_ & _ & Hcu & _).
  split_and!; [exact example_built|exact example_customer_id|exact Ht|].
  rewrite (Hcu _ Ht (Str "C1")). vm_compute. reflexivity.
Defined.

Lemma missing_keys_collapse_witness :
  @build_relational_sheets IsoDates.instance Example.frame = Ok Example.sheets
  ∧ c (columns Example.frame) "Customer ID" = Some "Customer ID"
  ∧ sheet "Customers" Example.sheets = Some (Example.table "Customers")
  ∧ NaN ∈ column Example.frame "Customer ID"
  ∧ ∃ row, filter (λ row, cell_at (tcolumns (Example.table "Customers"))
                            "CustomerID" row = NaN)
             (trows (Example.table "Customers")) = [row].
Proof.
  assert (sheet "Customers" Example.sheets = Some (Example.table "Customers"))
    as Ht by (vm_compute; reflexivity).
  assert (NaN ∈ column Example.frame "Customer ID") as Hn by compute_done.
  destruct (@missing_keys_collapse IsoDates.instance _ _ _
              example_built example_customer_id) as [Hcu _].
  split_and!; [exact example_built|exact example_customer_id|exact Ht
              |exact Hn|exact (Hcu _ Ht Hn)].
Defined.


Lemma mandatory_customer_id_witness :
  (∀ k, k ∈ columns Example.headless →
        PyStr.lower (PyStr.strip k) ≠ "customer id")
  ∧ @main_from IsoDates.instance (λ _, true) Example.headless = Exit 3
  ∧ wf_frame Example.frame
  ∧ "Customer ID" ∈ columns Example.frame
  ∧ ∃ sheets,
      @build_relational_sheets IsoDates.instance Example.frame = Ok sheets
      ∧ length sheets = 9%nat.
Proof.
  assert (∀ k, k ∈ columns Example.headless →
               PyStr.lower (PyStr.strip k) ≠ "customer id") as Hnone.
  { apply Forall_forall. compute_done. }
  assert (wf_frame Example.frame) as Hwf by compute_done.
  assert ("Customer ID" ∈ columns Example.frame) as Hin by compute_done.
  destruct (@mandatory_customer_id IsoDates.instance Example.headless)
    as [Hraise _].
  destruct (@mandatory_customer_id IsoDates.instance Example.frame)
    as [_ Hok].
  destruct (Hok Hwf _ Hin eq_refl) as (sheets & Hb & _ & Hnames & _).
  split_and!; [exact Hnone|exact (proj2 (Hraise Hnone) _)|exact Hwf
              |exact Hin|].
  exists sheets. split; [exact Hb|].
  rewrite <- (length_fmap fst), Hnames. reflexivity.
Defined.

Lemma data_dictionary_constant_witness :
  @build_relational_sheets IsoDates.instance Example.frame = Ok Example.sheets
  ∧ sheet "DataDictionary" Example.sheets = Some data_dictionary
  ∧ length (trows (Example.table "DataDictionary")) = 8%nat.
Proof.
  destruct (@data_dictionary_constant IsoDates.instance _ _ example_built)
    as (Hdd & Hlen & _).
  split_and!; [exact example_built|exact Hdd|].
  rewrite <- (example_table _ _ Hdd). exact Hlen.
Defined.

(** * More of the program *)

(** ** Trimming *)

Lemma lstrip_head l a l' :
  PyStr.lstrip_chars l = a :: l' → PyStr.is_space a = false.
Proof.
  induction l as [|b l IH]; simpl; [done|].
  destruct (PyStr.is_space b) eqn:Hb; [done|]. by intros [= <- _].
Qed.

Lemma lstrip_fix l :
  (∀ a l', l = a :: l' → PyStr.is_space a = false) →
  PyStr.lstrip_chars l = l.
Proof.
  destruct l as [|a l]; [done|]. intros Hh. simpl.
  by rewrite (Hh a l eq_refl).
Qed.

Lemma lstrip_idem l :
  PyStr.lstrip_chars (PyStr.lstrip_chars l) = PyStr.lstrip_chars l.
Proof. apply lstrip_fix. intros a l' Hl. by eapply lstrip_head. Qed.

Lemma lstrip_split l :
  ∃ sp, l = sp ++ PyStr.lstrip_chars l.
Proof.
  induction l as [|a l [sp IH]]; simpl; [by exists []|].
  destruct (PyStr.is_space a); [|by exists []].
  exists (a :: sp). simpl. by f_equal.
Qed.

Lemma rstrip_idem l :
  PyStr.rstrip_chars (PyStr.rstrip_chars l) = PyStr.rstrip_chars l.
Proof. unfold PyStr.rstrip_chars. by rewrite rev_involutive, lstrip_idem. Qed.

(** Trimming the right end leaves a trimmed left end trimmed. *)
Lemma lstrip_rstrip l :
  PyStr.lstrip_chars l = l →
  PyStr.lstrip_chars (PyStr.rstrip_chars l) = PyStr.rstrip_chars l.
Proof.
  intros Hl. apply lstrip_fix. intros a t Ht.
  destruct (lstrip_split (rev l)) as [sp Hsp].
  apply (f_equal (@rev ascii)) in Hsp.
  rewrite rev_involutive, rev_app_distr in Hsp.
  fold (PyStr.rstrip_chars l) in Hsp. rewrite Ht in Hsp. simpl in Hsp.
  apply (lstrip_head l a (t ++ rev sp)). by rewrite Hl.
Qed.

Lemma strip_chars_idem l :
  let t := PyStr.rstrip_chars (PyStr.lstrip_chars l) in
  PyStr.rstrip_chars (PyStr.lstrip_chars t) = t.
Proof.
  intros t. subst t. rewrite lstrip_rstrip by apply lstrip_idem.
  apply rstrip_idem.
Qed.

Lemma strip_idem s : PyStr.strip (PyStr.strip s) = PyStr.strip s.
Proof.
  unfold PyStr.strip. rewrite list_ascii_of_string_of_list_ascii.
  f_equal. apply strip_chars_idem.
Qed.

Lemma norm_strip s : norm (PyStr.strip s) = norm s.
Proof. unfold norm. by rewrite strip_idem. Qed.

(** ** More on the column resolver *)

Lemma find_col_target df_cols t t' :
  norm t = norm t' → find_col df_cols t = find_col df_cols t'.
Proof.
  intros Hn. induction df_cols as [|[c0|] rest IH]; [done| |done].
  by rewrite !find_col_cons_Some, Hn, IH.
Qed.

Lemma find_col_strip (df_cols : list (option string)) target :
  find_col ((λ o : option string, PyStr.strip <$> o) <$> df_cols) target
  = PyStr.strip <$> find_col df_cols target.
Proof.
  induction df_cols as [|[c0|] rest IH]; [done| |done].
  rewrite fmap_cons. cbn beta. cbn [fmap option_fmap option_map].
  rewrite !find_col_cons_Some, norm_strip, IH. by case_decide.
Qed.

(** X2. The target of [find_col] counts only through its trimmed,
    lower-cased form: two spellings of a name resolve to the same column,
    a target may be trimmed beforehand, and the name found resolves to
    itself. *)
Theorem find_col_target_spelling (df_cols : list (option string))
    (target : string) :
  (∀ target', PyStr.lower (PyStr.strip target')
              = PyStr.lower (PyStr.strip target) →
     find_col df_cols target' = find_col df_cols target)
  ∧ find_col df_cols (PyStr.strip target) = find_col df_cols target
  ∧ (∀ c0, find_col df_cols target = Some c0 →
       find_col df_cols c0 = Some c0).
Proof.
  split_and!.
  - intros target' Hn. by apply find_col_target.
  - apply find_col_target, norm_strip.
  - intros c0 Hc. rewrite <- Hc. apply find_col_target.
    by apply find_col_Some in Hc as (_ & _ & _ & Hn & _).
Qed.

Lemma find_col_target_spelling_witness :
  PyStr.lower (PyStr.strip "  CUSTOMER id") = PyStr.lower (PyStr.strip "Customer ID")
  ∧ find_col [Some "Age"; Some "customer ID "] "  CUSTOMER id"
    = find_col [Some "Age"; Some "customer ID "] "Customer ID"
  ∧ find_col [Some "Age"; Some "customer ID "] "Customer ID"
    = Some "customer ID "
  ∧ find_col [Some "Age"; Some "customer ID "] "customer ID "
    = Some "customer ID ".
Proof.
  assert (PyStr.lower (PyStr.strip "  CUSTOMER id")
          = PyStr.lower (PyStr.strip "Customer ID")) as Hn
    by (vm_compute; reflexivity).
  assert (find_col [Some "Age"; Some "customer ID "] "Customer ID"
          = Some "customer ID ") as Hf by (vm_compute; reflexivity).
  destruct (find_col_target_spelling [Some "Age"; Some "customer ID "]
              "Customer ID") as (Hsp & _ & Hself).
  split_and!; [exact Hn|exact (Hsp _ Hn)|exact Hf|exact (Hself _ Hf)].
Defined.

(** X3. Trimming the header first, as line 321 does, does not change
    which column is found: the name found in the trimmed header is the
    trimmed form of the name found in the header as read. *)
Theorem find_col_trimmed_header (df_cols : list (option string))
    (target : string) :
  find_col ((λ o : option string, PyStr.strip <$> o) <$> df_cols) target
  = PyStr.strip <$> find_col df_cols target.
Proof.
  induction df_cols as [|[c0|] rest IH]; [done| |exact IH].
  rewrite fmap_cons. cbn beta. cbn [fmap option_fmap option_map].
  rewrite !find_col_cons_Some, IH.
  assert (norm (PyStr.strip c0) = norm c0) as ->
    by (unfold norm; by rewrite strip_idem).
  by case_decide.
Qed.

(** ** The shape of an account identifier *)

Lemma be_bytes_length n x : length (Sha1.be_bytes n x) = n.
Proof. induction n as [|n IH]; simpl; [done|]. by rewrite IH. Qed.

Lemma be_bytes_range n x :
  Forall (λ b, 0 ≤ b < 256) (Sha1.be_bytes n x).
Proof.
  induction n as [|n IH]; simpl; constructor; [|done].
  change 255 with (Z.ones 8). rewrite Z.land_ones by lia.
  apply Z.mod_pos_bound. lia.
Qed.

Lemma digest_length msg : length (Sha1.digest msg) = 20%nat.
Proof. unfold Sha1.digest. cbv zeta. by rewrite !length_app, !be_bytes_length. Qed.

Lemma digest_range msg : Forall (λ b, 0 ≤ b < 256) (Sha1.digest msg).
Proof.
  unfold Sha1.digest. cbv zeta. rewrite !Forall_app.
  split_and!; apply be_bytes_range.
Qed.

Lemma hex_length bs : String.length (Sha1.hex bs) = (2 * length bs)%nat.
Proof. induction bs as [|b bs IH]; simpl; [done|]. rewrite IH. lia. Qed.

Lemma hex_digit_is_hex n : 0 ≤ n < 16 → is_hex (Sha1.hex_digit n).
Proof.
  intros Hn.
  assert (n ∈ [0; 1; 2; 3; 4; 5; 6; 7; 8; 9; 10; 11; 12; 13; 14; 15]) as Hin.
  { assert (n = 0 ∨ n = 1 ∨ n = 2 ∨ n = 3 ∨ n = 4 ∨ n = 5 ∨ n = 6 ∨ n = 7
            ∨ n = 8 ∨ n = 9 ∨ n = 10 ∨ n = 11 ∨ n = 12 ∨ n = 13 ∨ n = 14
            ∨ n = 15) as Hc by lia.
    repeat (destruct Hc as [->|Hc]; [compute_done|]). subst. compute_done. }
  clear Hn. revert n Hin. apply Forall_forall. compute_done.
Qed.

Lemma hex_is_hex bs :
  Forall (λ b, 0 ≤ b < 256) bs →
  Forall is_hex (list_ascii_of_string (Sha1.hex bs)).
Proof.
  induction 1 as [|b bs Hb _ IH]; simpl; [constructor|].
  constructor; [|constructor; [|done]]; apply hex_digit_is_hex.
  - rewrite Z.shiftr_div_pow2 by lia. change (2 ^ 4) with 16.
    split; [apply Z.div_pos; lia|]. apply Z.div_lt_upper_bound; lia.
  - change 15 with (Z.ones 4). rewrite Z.land_ones by lia.
    apply Z.mod_pos_bound. lia.
Qed.

Lemma prefix_length n s :
  String.length (PyStr.prefix n s) = (n `min` String.length s)%nat.
Proof.
  revert s. induction n as [|n IH]; intros [|a s]; simpl; [done..|].
  by rewrite IH.
Qed.

Lemma prefix_Forall (P : ascii → Prop) n s :
  Forall P (list_ascii_of_string s) →
  Forall P (list_ascii_of_string (PyStr.prefix n s)).
Proof.
  revert s. induction n as [|n IH]; intros [|a s]; simpl;
    [constructor..|].
  intros [??]%Forall_cons. constructor; [done|by apply IH].
Qed.

Lemma string_app_length (s t : string) :
  String.length (s +:+ t) = (String.length s + String.length t)%nat.
Proof. induction s as [|a s IH]; simpl; [done|]. by rewrite IH. Qed.

Lemma list_ascii_app (s t : string) :
  list_ascii_of_string (s +:+ t)
  = list_ascii_of_string s ++ list_ascii_of_string t.
Proof. induction s as [|a s IH]; simpl; [done|]. by rewrite IH. Qed.

Lemma prefix_app n s : ∃ tail, s = PyStr.prefix n s +:+ tail.
Proof.
  revert s. induction n as [|n IH]; intros s.
  - exists s. by destruct s.
  - destruct s as [|a s]; [by exists ""|].
    destruct (IH s) as [tail Ht]. exists tail.
    change (String a s = String a (PyStr.prefix n s +:+ tail)). by f_equal.
Qed.

Lemma string_app_nil_r (s : string) : s +:+ "" = s.
Proof.
  induction s as [|a s IH]; [done|].
  change (String a (s +:+ "") = String a s). by rewrite IH.
Qed.

Section AccountIdShape.
Context `{PandasText}.

(** X4. Whatever its arguments, [make_account_id] answers with 16
    characters: ACC_ and then 12 lower-case hexadecimal digits, which
    are the first 12 of the 40 of the SHA-1 digest of the UTF-8 bytes of
    the base text, 28 more following them in the digest. *)
Theorem make_account_id_shape (customer_id account_type open_date : cell) :
  ∃ h tail,
    make_account_id customer_id account_type open_date = "ACC_" +:+ h
    ∧ Sha1.hexdigest
        (PyStr.encode_utf8
           (account_id_base customer_id account_type open_date))
      = h +:+ tail
    ∧ String.length h = 12%nat
    ∧ String.length tail = 28%nat
    ∧ Forall is_hex (list_ascii_of_string h)
    ∧ Forall is_hex (list_ascii_of_string tail)
    ∧ String.length
        (Sha1.hexdigest
           (PyStr.encode_utf8
              (account_id_base customer_id account_type open_date)))
      = 40%nat
    ∧ String.length (make_account_id customer_id account_type open_date)
      = 16%nat.
Proof.
  unfold make_account_id. cbv zeta.
  set (d := Sha1.hexdigest _).
  assert (String.length d = 40%nat) as Hd
    by (subst d; unfold Sha1.hexdigest; by rewrite hex_length, digest_length).
  assert (Forall is_hex (list_ascii_of_string d)) as Hhex
    by (subst d; apply hex_is_hex, digest_range).
  destruct (prefix_app 12 d) as [tail Htail].
  assert (String.length (PyStr.prefix 12 d) = 12%nat) as Hlen
    by (by rewrite prefix_length, Hd).
  exists (PyStr.prefix 12 d), tail. split_and!.
  - done.
  - done.
  - done.
  - apply (f_equal String.length) in Htail.
    rewrite string_app_length, Hd, Hlen in Htail. lia.
  - by apply prefix_Forall.
  - rewrite Htail, list_ascii_app in Hhex. by apply Forall_app in Hhex as [_ ?].
  - done.
  - by rewrite string_app_length, Hlen.
Qed.

(** The text a [str] argument contributes to the base. *)
Lemma format_or_empty s : py_format (py_or_empty (Str s)) = s.
Proof.
  unfold py_or_empty, py_bool, PyStr.truthy. by case_decide; subst.
Qed.

Lemma account_id_base_texts a b d :
  account_id_base (Str a) (Str b) (Str d) = a +:+ "|" +:+ b +:+ "|" +:+ d.
Proof. unfold account_id_base. by rewrite !format_or_empty. Qed.

End AccountIdShape.

Lemma bar_split (a a' r r' : list ascii) :
  "|"%char ∉ a → "|"%char ∉ a' →
  a ++ "|"%char :: r = a' ++ "|"%char :: r' → a = a' ∧ r = r'.
Proof.
  revert a'. induction a as [|x a IH]; intros [|x' a'] Ha Ha'; simpl.
  - by intros [= ->].
  - intros [= <- _]. destruct Ha'. by left.
  - intros [= -> _]. destruct Ha. by left.
  - intros [= -> Heq]. destruct (IH a') as [-> ->]; [| |done..].
    + intros ?. apply Ha. by right.
    + intros ?. apply Ha'. by right.
Qed.

Lemma string_of_list_inj (s t : string) :
  list_ascii_of_string s = list_ascii_of_string t → s = t.
Proof.
  intros Heq. rewrite <- (string_of_list_ascii_of_string s),
    <- (string_of_list_ascii_of_string t). by rewrite Heq.
Qed.

Section AccountIdBase.
Context `{PandasText}.

(** X5. The base text determines its three parts as long as the customer
    identifier and the account type hold no vertical bar: two rows then
    share a base text only when the three texts agree. The bar is not
    escaped: with one inside a part, different triples give one base and
    so one AccountID. *)
Theorem account_id_base_injective (a b d a' b' d' : string) :
  bar_free a → bar_free b → bar_free a' → bar_free b' →
  account_id_base (Str a) (Str b) (Str d)
  = account_id_base (Str a') (Str b') (Str d') →
  a = a' ∧ b = b' ∧ d = d'.
Proof.
  intros Ha Hb Ha' Hb'. rewrite !account_id_base_texts. intros Heq.
  apply (f_equal list_ascii_of_string) in Heq.
  rewrite !list_ascii_app in Heq. simpl in Heq.
  apply bar_split in Heq as [Haa Heq]; [|done..].
  apply bar_split in Heq as [Hbb Hdd]; [|done..].
  split_and!; by apply string_of_list_inj.
Qed.

End AccountIdBase.

Lemma account_id_base_injective_witness :
  bar_free "C1" ∧ bar_free "Savings"
  ∧ @account_id_base IsoDates.instance (Str "C1") (Str "Savings")
      (Str "2023-01-05")
    = "C1|Savings|2023-01-05"
  ∧ ("C1" = "C1" ∧ "Savings" = "Savings" ∧ "2023-01-05" = "2023-01-05").
Proof.
  assert (bar_free "C1") as H1 by compute_done.
  assert (bar_free "Savings") as H2 by compute_done.
  split; [exact H1|]. split; [exact H2|]. split; [reflexivity|].
  exact (@account_id_base_injective IsoDates.instance
           "C1" "Savings" "2023-01-05" "C1" "Savings" "2023-01-05"
           H1 H2 H1 H2 eq_refl).
Defined.

(** The bar is not escaped. *)
Example account_id_base_collision :
  @account_id_base IsoDates.instance (Str "a|b") (Str "") (Str "")
  = @account_id_base IsoDates.instance (Str "a") (Str "b|") (Str "").
Proof. vm_compute. reflexivity. Qed.

(** ** What the coercion loops leave alone *)

Section Untouched.
Context `{PandasText}.

Lemma coerce_rowwise_logical cols df :
  rowwise (λ k, ∃ n, n ∈ date_cols ++ numeric_cols ∧ c cols n = Some k)
    df (coerce cols df).
Proof.
  unfold coerce, coerce_numerics, coerce_dates.
  rewrite coerce_fold_numeric, coerce_fold_date.
  eapply rowwise_trans.
  - eapply rowwise_mono; [|apply (coerce_fold_rowwise to_datetime)].
    intros k (n & ? & ?). exists n.
    split; [apply elem_of_app; by left|done].
  - eapply rowwise_mono; [|apply (coerce_fold_rowwise numeric_column)].
    intros k (n & ? & ?). exists n.
    split; [apply elem_of_app; by right|done].
Qed.

(** A resolved date column after both loops. *)
Lemma coerce_date_column df dc a :
  dc ∈ date_cols → c (columns df) dc = Some a →
  column (coerce (columns df) df) a = to_datetime (column df a).
Proof.
  intros Hdc Hc. unfold coerce, coerce_numerics, coerce_dates.
  rewrite coerce_fold_numeric, coerce_fold_date.
  pose proof norms_distinct as Hnd.
  rewrite fmap_app in Hnd. apply NoDup_app in Hnd as (Hdates & Hdn & _).
  rewrite (rowwise_column _ _ _ a (coerce_fold_rowwise _ _ _ numeric_cols)).
  - apply (coerce_fold_column _ _ _ _ dc a); [done..|].
    eapply c_truthy; [done|]. apply norm_of_logical_nonempty.
    apply elem_of_app. by left.
  - intros (nc & Hnc & Hc'). apply (Hdn (norm dc)).
    + by apply list_elem_of_fmap_2.
    + rewrite fmap_app, elem_of_app. left.
      rewrite (c_same _ _ _ _ Hc Hc'). by apply list_elem_of_fmap_2.
Qed.

(** X6. The two coercion loops leave the header and the number of rows
    as they are, and rewrite no column other than those that one of the
    seven date names or nine numeric names resolves to. *)
Theorem coercion_touches_only_its_columns df :
  columns (coerce (columns df) df) = columns df
  ∧ length (rows (coerce (columns df) df)) = length (rows df)
  ∧ ∀ k, (∀ n, n ∈ date_cols ++ numeric_cols → c (columns df) n ≠ Some k) →
         column (coerce (columns df) df) k = column df k.
Proof.
  split_and!.
  - apply coerce_columns.
  - eapply rowwise_length, coerce_rowwise_logical.
  - intros k Hk. eapply rowwise_column; [apply coerce_rowwise_logical|].
    intros (n & Hn & Hc). by apply (Hk n).
Qed.

End Untouched.

Lemma coercion_touches_only_its_columns_witness :
  (∀ n, n ∈ date_cols ++ numeric_cols →
        c (columns Example.frame) n ≠ Some "first name")
  ∧ column (@coerce IsoDates.instance (columns Example.frame) Example.frame)
      "first name"
    = [Str "Ann"; Str "Anna"; Str "Bob"; Str "Bea"].
Proof.
  assert (∀ n, n ∈ date_cols ++ numeric_cols →
               c (columns Example.frame) n ≠ Some "first name") as Hn.
  { apply Forall_forall. compute_done. }
  split; [exact Hn|].
  destruct (@coercion_touches_only_its_columns IsoDates.instance
              Example.frame) as (_ & _ & Hcol).
  rewrite (Hcol _ Hn). vm_compute. reflexivity.
Defined.

(** ** Tables that hold the input as it was read *)




Section AsRead.
Context `{PandasText}.


End AsRead.


(** ** The account identifier from the input's columns *)


Section AccountIdColumn.
Context `{PandasText}.


End AccountIdColumn.


(** ** Headers of the renamed tables *)

Lemma rename_dict_into m0 entries a v :
  (∀ v', (Some a, v') ∈ entries → v' = v) →
  m0 !! a = Some v ∨ ((Some a, v) ∈ entries ∧ PyStr.truthy a = true) →
  foldl (λ (m : gmap string string) (e : option string * string),
           match e.1 with
           | Some a => if PyStr.truthy a then <[a := e.2]> m else m
           | None => m
           end) m0 entries !! a = Some v.
Proof.
  revert m0. induction entries as [|[[a'|] v'] entries IH]; intros m0 Hu Hin;
    simpl.
  - destruct Hin as [?|[?%elem_of_nil _]]; done.
  - apply IH; [intros v'' ?; apply Hu; by right|].
    destruct (decide (a' = a)) as [->|Hne].
    + assert (v' = v) as -> by (apply Hu; by left).
      destruct Hin as [Hm|[_ Ht]].
      * left. destruct (PyStr.truthy a); [apply lookup_insert_eq|done].
      * left. rewrite Ht. apply lookup_insert_eq.
    + destruct Hin as [Hm|[Hin Ht]].
      * left. destruct (PyStr.truthy a'); [by rewrite lookup_insert_ne|done].
      * right. split; [|done].
        apply elem_of_cons in Hin as [[= ?]|?]; [by subst|done].
  - apply IH; [intros v'' ?; apply Hu; by right|].
    destruct Hin as [Hm|[Hin Ht]]; [by left|right]. split; [|done].
    by apply elem_of_cons in Hin as [?|?].
Qed.

Lemma rename_dict_lookup entries a v :
  (Some a, v) ∈ entries → PyStr.truthy a = true →
  (∀ v', (Some a, v') ∈ entries → v' = v) →
  rename_dict entries !! a = Some v.
Proof. intros Hin Ht Hu. apply rename_dict_into; [done|]. by right. Qed.

Lemma resolved_header_rename (f : string → string) entries :
  (∀ a v, (Some a, v) ∈ entries → f a = v) →
  f <$> not_none (fst <$> entries) = resolved_header entries.
Proof.
  induction entries as [|[[a|] v] entries IH]; intros Hf; [done| |].
  - change (f <$> not_none (fst <$> (Some a, v) :: entries))
      with (f a :: (f <$> not_none (fst <$> entries))).
    change (resolved_header ((Some a, v) :: entries))
      with (v :: resolved_header entries).
    rewrite (Hf a v) by by left. f_equal. apply IH.
    intros a' v' ?. apply Hf. by right.
  - apply IH. intros a' v' ?. apply Hf. by right.
Qed.

Lemma resolved_header_sublist entries :
  resolved_header entries `sublist_of` (snd <$> entries).
Proof.
  induction entries as [|[[a|] v] entries IH]; [done| |].
  - by apply sublist_skip.
  - by apply sublist_cons.
Qed.

Lemma resolved_header_NoDup entries :
  NoDup (snd <$> entries) → NoDup (resolved_header entries).
Proof. intros Hn. eapply sublist_NoDup; [done|apply resolved_header_sublist]. Qed.

Lemma id_first_not_none (o : option string) l :
  (∀ k, o = Some k → PyStr.truthy k = true) →
  not_none (id_first o ++ l) = not_none (o :: l).
Proof.
  intros Ht. unfold id_first, truthy_col. destruct o as [k|]; [|done].
  by rewrite (Ht k eq_refl).
Qed.

Lemma cell_at_renamed (f : string → string) names a r :
  NoDup (f <$> names) → a ∈ names →
  cell_at (f <$> names) (f a) (project names r) = r !!! a.
Proof.
  induction names as [|h hs IH]; [by intros _ ?%elem_of_nil|].
  rewrite fmap_cons. intros [Hh Hnd]%NoDup_cons Ha.
  unfold project. rewrite fmap_cons, cell_at_cons. fold (project hs r).
  apply elem_of_cons in Ha as [->|Ha].
  - by rewrite decide_True.
  - rewrite decide_False; [by apply IH|].
    intros Heq. apply Hh. rewrite Heq. by apply list_elem_of_fmap_2.
Qed.

(** What a cut gives. *)
Lemma cut_header t df entries :
  cut_of t df entries → tcolumns t = resolved_header entries.
Proof. intros (f & -> & Hf & _). by apply resolved_header_rename. Qed.

Lemma cut_cell t df entries row :
  cut_of t df entries → NoDup (resolved_header entries) → row ∈ trows t →
  ∃ r, r ∈ rows df
    ∧ ∀ a v, (Some a, v) ∈ entries → cell_at (tcolumns t) v row = r !!! a.
Proof.
  intros (f & Hcols & Hf & Hrows) Hnd Hrow.
  pose proof (elem_of_sublist _ _ _ Hrow Hrows) as Hin'.
  apply list_elem_of_fmap in Hin' as (r & Heq & Hr). subst row.
  exists r. split; [done|].
  intros a v Hin. rewrite Hcols, <- (Hf a v Hin).
  apply cell_at_renamed.
  - by rewrite (resolved_header_rename f entries Hf).
  - apply not_none_elem. by apply (list_elem_of_fmap_2 fst _ (Some a, v)).
Qed.

Lemma cut_rectangular t df entries : cut_of t df entries → rectangular t.
Proof.
  intros (f & Hcols & _ & Hrows). apply Forall_forall. intros row Hrow.
  pose proof (elem_of_sublist _ _ _ Hrow Hrows) as Hin'.
  apply list_elem_of_fmap in Hin' as (r & Heq & _). subst row.
  unfold project. by rewrite Hcols, !length_fmap.
Qed.


Lemma cut_rows df names subset m :
  trows (rename m (reset_index (drop_duplicates subset (getitem df names))))
  `sublist_of` (project names <$> rows df).
Proof. apply keep_first_sublist. Qed.

(** Finding an entry of a rename dict. *)
Ltac renamed_entry E :=
  lazymatch goal with
  | |- default ?a (rename_dict _ !! ?a) = ?v =>
      rewrite (rename_dict_lookup E a v);
      [ reflexivity
      | repeat match goal with
               | H : c _ _ = Some a |- _ => rewrite H
               end;
        repeat first [apply list_elem_of_here | apply list_elem_of_further]
      | eapply c_truthy; [eassumption | compute_done]
      | let v' := fresh "v'" in
        let Hin := fresh "Hin" in
        intros v' Hin; in_cases Hin; inversion Hin; subst;
        first [ reflexivity | name_clash ] ]
  end.

(** A label that no entry of the rename dict carries keeps its name. *)
Ltac not_renamed :=
  lazymatch goal with
  | |- default ?a ?o = ?a =>
      let Hm := fresh "Hm" in
      destruct o eqn:Hm; [|reflexivity];
      apply rename_dict_elem in Hm; exfalso;
      in_cases Hm; injection Hm as Hm _; name_clash
  end.

(** The entries of a cut, one by one. *)
Ltac cut_entries :=
  let a := fresh "a" in
  let v := fresh "v" in
  let Hin := fresh "Hin" in
  intros a v Hin; in_cases Hin; inversion Hin; subst; cbn beta;
  repeat match goal with
         | H : Some _ = c _ _ |- _ => symmetry in H
         end;
  lazymatch goal with
  | |- default ?a (rename_dict ?E !! ?a) = ?a => not_renamed
  | |- default ?a (rename_dict ?E !! ?a) = _ => renamed_entry E
  end.

Ltac id_truthy :=
  let k := fresh "k" in
  let Hk := fresh "Hk" in
  intros k Hk; eapply c_truthy; [exact Hk|compute_done].

Section Cuts.
Variable cols : list string.
Variable cust : string.
Hypothesis Hcust : c cols "Customer ID" = Some cust.
Variable df : DataFrame.

Lemma customers_cut :
  cut_of (customers_table cols cust df) df (customers_entries cols cust).
Proof.
  unfold customers_table.
  exists (λ k, default k (({[cust := "CustomerID"]} : gmap string string) !! k)).
  split_and!; [done| |apply cut_rows].
  intros a v Hin. unfold customers_entries in Hin.
  cbn [fmap list_fmap] in Hin.
  apply elem_of_cons in Hin as [Hin|Hin].
  - injection Hin as -> ->. by rewrite lookup_singleton_eq.
  - in_cases Hin; injection Hin as Hin ->; symmetry in Hin; rewrite Hin;
      (rewrite lookup_singleton_ne; [done|]); intros <-; name_clash.
Qed.

Lemma accounts_cut :
  cut_of (accounts_table cols cust df) df (accounts_entries cols cust).
Proof.
  unfold accounts_table. cbv zeta.
  match goal with |- cut_of (rename ?m _) _ _ =>
    exists (λ k, default k (m !! k)) end.
  split_and!; [done| |apply cut_rows]. cut_entries.
Qed.

Lemma loans_cut :
  cut_of (loans_table cols cust df) df (loans_entries cols cust).
Proof.
  unfold loans_table, loans_cols. cbv zeta.
  rewrite id_first_not_none by id_truthy.
  match goal with |- cut_of (rename ?m _) _ _ =>
    exists (λ k, default k (m !! k)) end.
  split_and!; [done| |apply cut_rows]. cut_entries.
Qed.

Lemma cards_cut :
  cut_of (cards_table cols cust df) df (cards_entries cols cust).
Proof.
  unfold cards_table, cards_cols. cbv zeta.
  rewrite id_first_not_none by id_truthy.
  match goal with |- cut_of (rename ?m _) _ _ =>
    exists (λ k, default k (m !! k)) end.
  split_and!; [done| |apply cut_rows]. cut_entries.
Qed.

Lemma feedback_cut :
  cut_of (feedback_table cols cust df) df (feedback_entries cols cust).
Proof.
  unfold feedback_table, feedback_cols. cbv zeta.
  rewrite id_first_not_none by id_truthy.
  match goal with |- cut_of (rename ?m _) _ _ =>
    exists (λ k, default k (m !! k)) end.
  split_and!; [done| |apply cut_rows]. cut_entries.
Qed.

Lemma transactions_cut :
  cut_of (transactions_table cols df) df (transactions_entries cols).
Proof.
  unfold transactions_table, transactions_cols. cbv zeta.
  rewrite id_first_not_none by id_truthy.
  match goal with |- context [rename ?m _] =>
    exists (λ k, default k (m !! k)) end.
  split_and!.
  - by case_decide.
  - cut_entries.
  - case_decide; [apply keep_first_sublist|done].
Qed.

End Cuts.

Lemma accounts_names_distinct cols cust :
  NoDup (snd <$> accounts_entries cols cust).
Proof. compute_done. Qed.
Lemma transactions_names_distinct cols :
  NoDup (snd <$> transactions_entries cols).
Proof. compute_done. Qed.
Lemma loans_names_distinct cols cust :
  NoDup (snd <$> loans_entries cols cust).
Proof. compute_done. Qed.
Lemma cards_names_distinct cols cust :
  NoDup (snd <$> cards_entries cols cust).
Proof. compute_done. Qed.
Lemma feedback_names_distinct cols cust :
  NoDup (snd <$> feedback_entries cols cust).
Proof. compute_done. Qed.

Lemma sheet_elem name (sheets : Sheets) t :
  sheet name sheets = Some t → (name, t) ∈ sheets.
Proof.
  unfold sheet.
  destruct (list_find (λ p : string * Table, p.1 = name) sheets)
    as [[i [n t']]|] eqn:Hf; [|done].
  intros [= <-]. apply list_find_Some in Hf as (Hl & Hn & _).
  simpl in Hn. subst n. by eapply list_elem_of_lookup_2.
Qed.

Lemma resolved_header_cons o v entries :
  resolved_header ((o, v) :: entries)
  = match o with
    | Some _ => v :: resolved_header entries
    | None => resolved_header entries
    end.
Proof. by destruct o. Qed.

Lemma customers_header_names cols (ns : list string) :
  resolved_header ((λ n, (c cols n, default "" (c cols n))) <$> ns)
  = omap (c cols) ns.
Proof.
  induction ns as [|n ns IH]; [done|].
  rewrite fmap_cons, resolved_header_cons, IH. simpl.
  by destruct (c cols n).
Qed.

Lemma resolved_norms cols (ns : list string) :
  norm <$> omap (c cols) ns `sublist_of` norm <$> ns.
Proof.
  induction ns as [|n ns IH]; [done|]. simpl.
  destruct (c cols n) as [a|] eqn:Ha; simpl.
  - apply c_Some in Ha as [_ ->]. by apply sublist_skip.
  - by apply sublist_cons.
Qed.

Lemma customers_header_distinct cols cust :
  NoDup (resolved_header (customers_entries cols cust)).
Proof.
  unfold customers_entries.
  change (resolved_header ((Some cust, "CustomerID") :: ?l))
    with ("CustomerID" :: resolved_header l).
  rewrite customers_header_names.
  apply (NoDup_fmap_1 norm). rewrite fmap_cons.
  eapply sublist_NoDup; [|apply sublist_skip, resolved_norms].
  compute_done.
Qed.

Section Headers.
Context `{PandasText}.

(** X10. The headers of the sheets, for a frame whose labels are
    distinct. Customers keeps the spelling of the input for every column
    but the identifier; Accounts, Transactions,
    Loans, Cards and Feedback carry the new names of exactly the columns
    that resolve, in the order of the cut (AccountID and CustomerID are
    always there); Branches has the one column BranchID whether or not
    the input has branches. *)
Theorem sheet_headers df sheets cust :
  NoDup (columns df) →
  build_relational_sheets df = Ok sheets →
  c (columns df) "Customer ID" = Some cust →
  let cols := columns df in
  (∀ t, sheet "Customers" sheets = Some t →
     tcolumns t
     = "CustomerID"
       :: omap (c cols) [ "First Name"; "Last Name"; "Age"; "Gender";
                          "Address"; "City"; "Contact Number"; "Email" ])
  ∧ (∀ t, sheet "Accounts" sheets = Some t →
       tcolumns t = resolved_header (accounts_entries cols cust))
  ∧ (∀ t, sheet "Transactions" sheets = Some t →
       tcolumns t = resolved_header (transactions_entries cols))
  ∧ (∀ t, sheet "Loans" sheets = Some t →
       tcolumns t = resolved_header (loans_entries cols cust))
  ∧ (∀ t, sheet "Cards" sheets = Some t →
       tcolumns t = resolved_header (cards_entries cols cust))
  ∧ (∀ t, sheet "Feedback" sheets = Some t →
       tcolumns t = resolved_header (feedback_entries cols cust))
  ∧ (∀ t, sheet "Branches" sheets = Some t → tcolumns t = ["BranchID"]).
Proof.
  intros _ (cust' & Hcust' & ->)%build_inv Hcust.
  rewrite Hcust in Hcust'. injection Hcust' as <-. intros cols.
  split_and!; intros t Ht; find_sheet Ht.
  - rewrite (cut_header _ _ _ (customers_cut _ _ Hcust _)).
    unfold customers_entries.
    change (resolved_header ((Some cust, "CustomerID") :: ?l))
      with ("CustomerID" :: resolved_header l).
    by rewrite customers_header_names.
  - by apply (cut_header _ _ _ (accounts_cut _ _ Hcust _)).
  - by apply (cut_header _ _ _ (transactions_cut _ _)).
  - by apply (cut_header _ _ _ (loans_cut _ _ Hcust _)).
  - by apply (cut_header _ _ _ (cards_cut _ _ Hcust _)).
  - by apply (cut_header _ _ _ (feedback_cut _ _ Hcust _)).
  - destruct (c cols "Branch ID") as [b|] eqn:Hb.
    + exact (proj1 (branches_rows _ _ b Hb)).
    + by rewrite branches_absent.
Qed.

Lemma branches_rectangular cols df : rectangular (branches_table cols df).
Proof.
  destruct (c cols "Branch ID") as [b|] eqn:Hb.
  - destruct (branches_rows cols df b Hb) as [Hc Hr].
    unfold rectangular. rewrite Hc, Hr. apply Forall_forall.
    intros row [Hin _]%keep_first_elem.
    by apply list_elem_of_fmap in Hin as (r & -> & _).
  - rewrite branches_absent by done. constructor.
Qed.

Lemma anomalies_rectangular cols cust df :
  rectangular (anomalies_table cols cust df).
Proof.
  unfold anomalies_table. cbv zeta.
  destruct (c cols "Anomaly") as [a|]; [case_decide|]; [|constructor..].
  apply Forall_forall. intros row Hrow. simpl in Hrow.
  apply keep_first_elem in Hrow as [Hrow _].
  apply list_elem_of_filter in Hrow as [_ Hrow].
  by apply list_elem_of_fmap in Hrow as (r & -> & _).
Qed.

Lemma anomalies_header cols cust df :
  c cols "Customer ID" = Some cust →
  tcolumns (anomalies_table cols cust df) = ["CustomerID"; "Anomaly"].
Proof.
  intros Hcust. destruct (c cols "Anomaly") as [a|] eqn:Ha.
  - destruct (decide (a ∈ columns df)) as [Hin|Hnin].
    + exact (proj1 (anomalies_rows _ _ Hcust df a Ha Hin)).
    + unfold anomalies_table. cbv zeta. by rewrite Ha, decide_False.
  - by rewrite anomalies_absent.
Qed.

(** X11. Every sheet cut from a frame whose labels are distinct is a
    proper table: no header names a column twice, and every row has one
    cell per column. *)
Theorem sheets_well_formed df sheets name t :
  NoDup (columns df) →
  build_relational_sheets df = Ok sheets →
  sheet name sheets = Some t →
  NoDup (tcolumns t) ∧ rectangular t.
Proof.
  intros _ (cust & Hcust & ->)%build_inv Ht%sheet_elem.
  in_cases Ht; injection Ht as _ ->.
  - pose proof (customers_cut _ _ Hcust (prepared cust df)) as Hcut.
    split; [|by eapply cut_rectangular].
    rewrite (cut_header _ _ _ Hcut). apply customers_header_distinct.
  - pose proof (accounts_cut _ _ Hcust (prepared cust df)) as Hcut.
    split; [|by eapply cut_rectangular].
    rewrite (cut_header _ _ _ Hcut).
    apply resolved_header_NoDup, accounts_names_distinct.
  - pose proof (transactions_cut (columns df) (prepared cust df)) as Hcut.
    split; [|by eapply cut_rectangular].
    rewrite (cut_header _ _ _ Hcut).
    apply resolved_header_NoDup, transactions_names_distinct.
  - pose proof (loans_cut _ _ Hcust (prepared cust df)) as Hcut.
    split; [|by eapply cut_rectangular].
    rewrite (cut_header _ _ _ Hcut).
    apply resolved_header_NoDup, loans_names_distinct.
  - pose proof (cards_cut _ _ Hcust (prepared cust df)) as Hcut.
    split; [|by eapply cut_rectangular].
    rewrite (cut_header _ _ _ Hcut).
    apply resolved_header_NoDup, cards_names_distinct.
  - pose proof (feedback_cut _ _ Hcust (prepared cust df)) as Hcut.
    split; [|by eapply cut_rectangular].
    rewrite (cut_header _ _ _ Hcut).
    apply resolved_header_NoDup, feedback_names_distinct.
  - split; [|apply branches_rectangular].
    destruct (c (columns df) "Branch ID") as [b|] eqn:Hb.
    + destruct (branches_rows _ (prepared cust df) b Hb) as [-> _].
      compute_done.
    + rewrite branches_absent by done. compute_done.
  - split; [|apply anomalies_rectangular].
    rewrite (anomalies_header _ _ _ Hcust). compute_done.
  - split; [compute_done|]. unfold rectangular. compute_done.
Qed.

(** ** Foreign keys *)

Lemma references_customers cols cust df child entries :
  c cols "Customer ID" = Some cust →
  cut_of child df entries → NoDup (resolved_header entries) →
  (Some cust, "CustomerID") ∈ entries →
  references child "CustomerID" (customers_table cols cust df) "CustomerID".
Proof.
  intros Hcust Hcut Hnd Hin row Hrow.
  destruct (cut_cell _ _ _ _ Hcut Hnd Hrow) as (r & Hr & Hcell).
  rewrite (Hcell _ _ Hin).
  destruct (first_wins_single _ _ _ _ _ (r !!! cust)
              (customers_first_wins cols cust df))
    as (r0 & _ & _ & Hf); [by apply list_elem_of_fmap_2|].
  exists (project (customers_cols cols cust) r0).
  assert (project (customers_cols cols cust) r0
          ∈ filter (λ row, cell_at (tcolumns (customers_table cols cust df))
                             "CustomerID" row = r !!! cust)
              (trows (customers_table cols cust df))) as Hp
    by (rewrite Hf; by left).
  by apply list_elem_of_filter in Hp as [??].
Qed.

Lemma references_branches cols df child entries b :
  c cols "Branch ID" = Some b →
  cut_of child df entries → NoDup (resolved_header entries) →
  (Some b, "BranchID") ∈ entries →
  references child "BranchID" (branches_table cols df) "BranchID".
Proof.
  intros Hb Hcut Hnd Hin row Hrow.
  destruct (cut_cell _ _ _ _ Hcut Hnd Hrow) as (r & Hr & Hcell).
  rewrite (Hcell _ _ Hin).
  destruct (first_wins_single _ _ _ _ _ (r !!! b)
              (branches_first_wins cols df b Hb))
    as (r0 & _ & _ & Hf); [by apply list_elem_of_fmap_2|].
  exists (project [b] r0).
  assert (project [b] r0
          ∈ filter (λ row, cell_at (tcolumns (branches_table cols df))
                             "BranchID" row = r !!! b)
              (trows (branches_table cols df))) as Hp
    by (rewrite Hf; by left).
  by apply list_elem_of_filter in Hp as [??].
Qed.

Lemma references_accounts cols cust df :
  c cols "Customer ID" = Some cust →
  references (transactions_table cols df) "AccountID"
    (accounts_table cols cust df) "AccountID".
Proof.
  intros Hcust row Hrow.
  destruct (cut_cell _ _ _ _ (transactions_cut cols df)
              (resolved_header_NoDup _ (transactions_names_distinct cols)) Hrow)
    as (r & Hr & Hcell).
  rewrite (Hcell "AccountID" "AccountID")
    by (apply list_elem_of_further, list_elem_of_here).
  destruct (first_wins_single _ _ _ _ _ (r !!! "AccountID")
              (accounts_first_wins cols cust Hcust df))
    as (r0 & _ & _ & Hf); [by apply list_elem_of_fmap_2|].
  exists (project (accounts_cols cols cust) r0).
  assert (project (accounts_cols cols cust) r0
          ∈ filter (λ row, cell_at (tcolumns (accounts_table cols cust df))
                             "AccountID" row = r !!! "AccountID")
              (trows (accounts_table cols cust df))) as Hp
    by (rewrite Hf; by left).
  by apply list_elem_of_filter in Hp as [??].
Qed.

Lemma anomalies_reference_customers cols cust df :
  c cols "Customer ID" = Some cust →
  references (anomalies_table cols cust df) "CustomerID"
    (customers_table cols cust df) "CustomerID".
Proof.
  intros Hcust row Hrow.
  destruct (c cols "Anomaly") as [a|] eqn:Ha.
  2:{ rewrite anomalies_absent in Hrow by done. by apply elem_of_nil in Hrow. }
  destruct (decide (a ∈ columns df)) as [Hin|Hnin].
  2:{ unfold anomalies_table in Hrow. cbv zeta in Hrow.
      rewrite Ha, decide_False in Hrow by done. by apply elem_of_nil in Hrow. }
  destruct (anomalies_rows _ _ Hcust df a Ha Hin) as [Hc Hr].
  rewrite Hc, Hr in *.
  apply keep_first_elem in Hrow as [Hrow _].
  apply list_elem_of_filter in Hrow as [_ Hrow].
  apply list_elem_of_fmap in Hrow as (r & -> & Hrow).
  unfold project. rewrite fmap_cons, cell_at_head.
  destruct (first_wins_single _ _ _ _ _ (r !!! cust)
              (customers_first_wins cols cust df))
    as (r0 & _ & _ & Hf); [by apply list_elem_of_fmap_2|].
  exists (project (customers_cols cols cust) r0).
  assert (project (customers_cols cols cust) r0
          ∈ filter (λ row, cell_at (tcolumns (customers_table cols cust df))
                             "CustomerID" row = r !!! cust)
              (trows (customers_table cols cust df))) as Hp
    by (rewrite Hf; by left).
  by apply list_elem_of_filter in Hp as [??].
Qed.

(** X12. The foreign keys that the data dictionary declares hold in the
    sheets: every CustomerID of Accounts, Loans, Cards, Feedback and
    Anomalies is the CustomerID of a Customers row, every AccountID of
    Transactions is the AccountID of an Accounts row, and, when the input
    has a branch column, every BranchID of Transactions, Loans and
    Accounts is a BranchID of Branches. A missing key refers to the row
    of the missing key. *)
Theorem foreign_keys_hold df sheets customers accounts branches :
  build_relational_sheets df = Ok sheets →
  sheet "Customers" sheets = Some customers →
  sheet "Accounts" sheets = Some accounts →
  sheet "Branches" sheets = Some branches →
  (∀ name t, name ∈ ["Accounts"; "Loans"; "Cards"; "Feedback"; "Anomalies"] →
     sheet name sheets = Some t →
     references t "CustomerID" customers "CustomerID")
  ∧ (∀ t, sheet "Transactions" sheets = Some t →
       references t "AccountID" accounts "AccountID")
  ∧ (∀ name t, name ∈ ["Transactions"; "Loans"; "Accounts"] →
       c (columns df) "Branch ID" ≠ None →
       sheet name sheets = Some t →
       references t "BranchID" branches "BranchID").
Proof.
  intros (cust & Hcust & ->)%build_inv Hcu Hac Hbr.
  find_sheet Hcu. find_sheet Hac. find_sheet Hbr.
  set (pdf := prepared cust df). split_and!.
  - intros name t Hname Ht. in_cases Hname; subst name; find_sheet Ht.
    + eapply references_customers;
        [done|by apply accounts_cut
        |apply resolved_header_NoDup, accounts_names_distinct
        |apply list_elem_of_further, list_elem_of_here].
    + eapply references_customers;
        [done|by apply loans_cut
        |apply resolved_header_NoDup, loans_names_distinct
        |apply list_elem_of_further, list_elem_of_here].
    + eapply references_customers;
        [done|by apply cards_cut
        |apply resolved_header_NoDup, cards_names_distinct
        |apply list_elem_of_further, list_elem_of_here].
    + eapply references_customers;
        [done|by apply feedback_cut
        |apply resolved_header_NoDup, feedback_names_distinct
        |apply list_elem_of_further, list_elem_of_here].
    + by apply anomalies_reference_customers.
  - intros t Ht. find_sheet Ht. by apply references_accounts.
  - intros name t Hname Hb Ht.
    destruct (c (columns df) "Branch ID") as [b|] eqn:Hbc; [|done].
    in_cases Hname; subst name; find_sheet Ht.
    + eapply (references_branches _ _ _ _ b Hbc);
        [by apply transactions_cut
        |apply resolved_header_NoDup, transactions_names_distinct|].
      unfold transactions_entries. rewrite Hbc.
      repeat first [apply list_elem_of_here | apply list_elem_of_further].
    + eapply (references_branches _ _ _ _ b Hbc);
        [by apply loans_cut
        |apply resolved_header_NoDup, loans_names_distinct|].
      unfold loans_entries. rewrite Hbc.
      repeat first [apply list_elem_of_here | apply list_elem_of_further].
    + eapply (references_branches _ _ _ _ b Hbc);
        [by apply accounts_cut
        |apply resolved_header_NoDup, accounts_names_distinct|].
      unfold accounts_entries. rewrite Hbc.
      repeat first [apply list_elem_of_here | apply list_elem_of_further].
Qed.

End Headers.

(** ** Reading the file *)

Lemma lookup_zip_map (labels : list string) (cells : list cell) j k v :
  NoDup labels → labels !! j = Some k → cells !! j = Some v →
  (list_to_map (zip labels cells) : gmap string cell) !! k = Some v.
Proof.
  revert j cells. induction labels as [|l0 ls IH]; intros j cells Hnd Hk Hv;
    [done|].
  destruct cells as [|c0 cs]; [done|].
  apply NoDup_cons in Hnd as [Hl0 Hnd]. simpl.
  destruct j as [|j]; simpl in Hk, Hv.
  - injection Hk as ->. injection Hv as ->. apply lookup_insert_eq.
  - rewrite lookup_insert_ne; [by eapply IH|].
    intros ->. apply Hl0. by eapply list_elem_of_lookup_2.
Qed.

(** X16. The frame read from a file whose trimmed header has no
    repetition: its labels are the trimmed header, it has one row per
    record, and the cell of record [i] under the [j]-th label is the
    [j]-th field, the three texts "", NA and N/A reading as missing and
    every other text as itself; when every record has as many fields as
    the header, every label is filled in every row. *)
Theorem read_frame_cells (header : list string)
    (records : list (list string)) :
  NoDup (PyStr.strip <$> header) →
  columns (read_frame header records) = PyStr.strip <$> header
  ∧ length (rows (read_frame header records)) = length records
  ∧ (∀ i j rec h text,
       records !! i = Some rec → header !! j = Some h →
       rec !! j = Some text →
       ∃ r, rows (read_frame header records) !! i = Some r
         ∧ r !! PyStr.strip h
           = Some (if decide (text = "" ∨ text = "NA" ∨ text = "N/A")
                   then NaN else Str text))
  ∧ (Forall (λ rec, length rec = length header) records →
     wf_frame (read_frame header records)).
Proof.
  intros Hnd. unfold read_frame. cbv zeta. simpl. split_and!.
  - done.
  - by rewrite length_fmap.
  - intros i j rec h text Hrec Hh Htext. eexists. split.
    + by rewrite list_lookup_fmap, Hrec.
    + erewrite (lookup_zip_map _ _ j); [|done| |].
      * reflexivity.
      * by rewrite list_lookup_fmap, Hh.
      * rewrite list_lookup_fmap, Htext. simpl. f_equal.
        unfold read_field. case_decide as Hin; case_decide as Hor;
          try done; exfalso.
        -- apply Hor. in_cases Hin; auto.
        -- apply Hin. destruct Hor as [-> | [-> | ->]]; compute_done.
  - intros Hlen. split; [done|]. simpl. apply Forall_fmap, Forall_forall.
    intros rec Hrec. simpl. apply Forall_forall.
    intros k (j & Hj)%list_elem_of_lookup_1.
    rewrite Forall_forall in Hlen. specialize (Hlen _ Hrec).
    assert (j < length rec)%nat as Hlt.
    { rewrite Hlen, <- (length_fmap PyStr.strip).
      by eapply lookup_lt_Some. }
    apply lookup_lt_is_Some_2 in Hlt as [text Htext].
    exists (read_field text). apply (lookup_zip_map _ _ j); [done..|].
    by rewrite list_lookup_fmap, Htext.
Qed.

Lemma read_frame_cells_witness :
  NoDup (PyStr.strip <$> [" Customer ID "; "Anomaly"])
  ∧ wf_frame (read_frame [" Customer ID "; "Anomaly"]
                [["C1"; "NA"]; ["N/A"; "n/a"]])
  ∧ rows (read_frame [" Customer ID "; "Anomaly"]
            [["C1"; "NA"]; ["N/A"; "n/a"]])
    = [ {[ "Customer ID" := Str "C1"; "Anomaly" := NaN ]};
        {[ "Customer ID" := NaN; "Anomaly" := Str "n/a" ]} ].
Proof.
  assert (NoDup (PyStr.strip <$> [" Customer ID "; "Anomaly"])) as Hnd
    by compute_done.
  destruct (read_frame_cells [" Customer ID "; "Anomaly"]
              [["C1"; "NA"]; ["N/A"; "n/a"]] Hnd) as (_ & _ & _ & Hwf).
  split_and!; [exact Hnd|apply Hwf; compute_done|].
  vm_compute. reflexivity.
Defined.

(** ** Sheet names *)

Section Writer.
Context `{PandasText}.

(** X15. Sheet names on the way to the workbook: a name is cut to its
    first 31 characters and never comes out longer; the nine names of the
    transform are within the limit and distinct, so the writer is handed
    the dict as it is, no name cut and no two sheets under one name. *)
Theorem sheet_names_kept :
  (∀ name, (String.length (sheet_name name) ≤ 31)%nat
           ∧ (∃ tail, name = sheet_name name +:+ tail)
           ∧ ((String.length name ≤ 31)%nat → sheet_name name = name))
  ∧ (∀ df sheets, build_relational_sheets df = Ok sheets →
       write_sheets_to_excel sheets = sheets
       ∧ NoDup (fst <$> write_sheets_to_excel sheets)).
Proof.
  split.
  - intros name. unfold sheet_name.
    destruct (String.length name <=? 31)%nat eqn:Hle.
    + apply Nat.leb_le in Hle. split_and!;
        [done|exists ""; by rewrite string_app_nil_r|done].
    + apply Nat.leb_gt in Hle. split_and!.
      * rewrite prefix_length. lia.
      * apply prefix_app.
      * lia.
  - intros df sheets (cust & Hcust & ->)%build_inv. split; [done|].
    compute_done.
Qed.

End Writer.

Lemma sheet_names_kept_witness :
  @build_relational_sheets IsoDates.instance Example.frame = Ok Example.sheets
  ∧ write_sheets_to_excel Example.sheets = Example.sheets
  ∧ (String.length "A sheet name of more than thirty-one characters" ≤ 31
     → False)%nat
  ∧ sheet_name "A sheet name of more than thirty-one characters"
    = "A sheet name of more than thirt".
Proof.
  destruct (@sheet_names_kept IsoDates.instance) as [_ Hb].
  split_and!; [exact example_built|exact (proj1 (Hb _ _ example_built))
              |simpl; lia|reflexivity].
Defined.

(** ** The command line *)

Section Main.
Context `{PandasText}.

Lemma read_frame_customer_id header records :
  c (columns (read_frame header records)) "Customer ID"
  = PyStr.strip <$> find_col (Some <$> header) "Customer ID".
Proof.
  unfold c. simpl. rewrite <- find_col_strip. f_equal.
  rewrite <- !list_fmap_compose. done.
Qed.

(** X17. How [main] ends. Without the input file the status is 1 and
    nothing is read; when the file cannot be read it is 2; when no name
    of the header as read is customer id once trimmed and lower-cased it
    is 3; when one is, the trimmed names are distinct and every record
    has the width of the header, the transform returns its nine sheets,
    and the status is 4 when the writer fails on them, else [main]
    returns. An argument that is absent or empty gives way to the
    default file name. *)
Theorem main_outcome (w : World) (input_csv output_xlsx : option string) :
  let input := arg_or input_csv default_input in
  let output := arg_or output_xlsx default_output in
  (path_exists w input = false → main w input_csv output_xlsx = Exit 1)
  ∧ (path_exists w input = true → read_csv w input = None →
     main w input_csv output_xlsx = Exit 2)
  ∧ (∀ header records,
       path_exists w input = true →
       read_csv w input = Some (header, records) →
       (∀ k, k ∈ header → PyStr.lower (PyStr.strip k) ≠ "customer id") →
       main w input_csv output_xlsx = Exit 3)
  ∧ (∀ header records k,
       path_exists w input = true →
       read_csv w input = Some (header, records) →
       NoDup (PyStr.strip <$> header) →
       Forall (λ rec, length rec = length header) records →
       k ∈ header → PyStr.lower (PyStr.strip k) = "customer id" →
       ∃ sheets,
         build_relational_sheets (read_frame header records) = Ok sheets
         ∧ length sheets = 9%nat
         ∧ main w input_csv output_xlsx
           = if excel_writer w output (write_sheets_to_excel sheets)
             then Written sheets else Exit 4)
  ∧ main w None None = main w (Some default_input) (Some default_output)
  ∧ main w (Some "") (Some "") = main w None None.
Proof.
  intros input output. unfold main. cbv zeta.
  fold input. fold output. split_and!.
  - by intros ->.
  - by intros -> ->.
  - intros header records -> -> Hno. simpl. unfold main_from.
    destruct (build_Raise (read_frame header records)) as [msg ->]; [|done].
    rewrite read_frame_customer_id.
    assert (find_col (Some <$> header) "Customer ID" = None) as ->; [|done].
    apply find_col_None. intros k' (k & [= ->] & Hk)%list_elem_of_fmap.
    exact (Hno _ Hk).
  - intros header records k -> -> _ _ Hk Hn. simpl. unfold main_from.
    destruct (c (columns (read_frame header records)) "Customer ID")
      as [cust|] eqn:Hc.
    + rewrite (build_Ok _ cust Hc). cbv zeta. eexists.
      split_and!; reflexivity.
    + exfalso. rewrite read_frame_customer_id in Hc.
      destruct (find_col (Some <$> header) "Customer ID") eqn:Hf; [done|].
      apply (proj1 (find_col_None _ _) Hf k); [|exact Hn].
      by apply list_elem_of_fmap_2.
  - reflexivity.
  - reflexivity.
Qed.

End Main.

Lemma main_outcome_witness :
  path_exists ExampleWorld.world default_input = false
  ∧ @main IsoDates.instance ExampleWorld.world None None = Exit 1
  ∧ @main IsoDates.instance ExampleWorld.world (Some "other.csv") None = Exit 3
  ∧ ∃ sheets,
      @main IsoDates.instance ExampleWorld.world (Some "bank.csv") None
      = Written sheets
      ∧ length sheets = 9%nat.
Proof.
  assert (path_exists ExampleWorld.world default_input = false) as H1
    by (vm_compute; reflexivity).
  destruct (@main_outcome IsoDates.instance ExampleWorld.world None None)
    as (Hmiss & _).
  destruct (@main_outcome IsoDates.instance ExampleWorld.world
              (Some "other.csv") None) as (_ & _ & Hno & _).
  destruct (@main_outcome IsoDates.instance ExampleWorld.world
              (Some "bank.csv") None) as (_ & _ & _ & Hok & _).
  split_and!; [exact H1|exact (Hmiss H1)| |].
  - apply (Hno ["Client"] [["C1"]]); [reflexivity..|].
    apply Forall_forall. compute_done.
  - destruct (Hok [" customer id"; "Anomaly"] [["C1"; "Odd"]] " customer id")
      as (sheets & _ & Hlen & Hmain);
      [reflexivity|reflexivity|compute_done|compute_done|compute_done
      |vm_compute; reflexivity|].
    exists sheets. split; [exact Hmain|exact Hlen].
Defined.

(** ** The catalogue of expected names *)

Lemma expected_norms_distinct : NoDup (norm <$> EXPECTED_COLS).
Proof. compute_done. Qed.

(** X1. The forty expected names stay apart under the comparison of
    [find_col]: no column of the input answers to two of them, so no
    column feeds two fields of the sheets; the date and numeric names are
    among them. *)
Theorem expected_names_resolve_apart :
  length EXPECTED_COLS = 40%nat
  ∧ date_cols ++ numeric_cols ⊆ EXPECTED_COLS
  ∧ ∀ (cols : list string) (n n' a : string),
      n ∈ EXPECTED_COLS → n' ∈ EXPECTED_COLS →
      c cols n = Some a → c cols n' = Some a → n = n'.
Proof.
  split_and!.
  - done.
  - apply (bool_decide_unpack _). vm_compute. reflexivity.
  - intros cols n n' a Hn Hn' Hc Hc'.
    pose proof (c_same _ _ _ _ Hc Hc') as Heq.
    pose proof expected_norms_distinct as Hnd.
    apply list_elem_of_lookup_1 in Hn as [i Hi].
    apply list_elem_of_lookup_1 in Hn' as [j Hj].
    assert (i = j) as ->.
    { eapply (NoDup_lookup _ i j (norm n)); [exact Hnd| |].
      - by rewrite list_lookup_fmap, Hi.
      - by rewrite list_lookup_fmap, Hj, Heq. }
    rewrite Hi in Hj. by injection Hj.
Qed.

Lemma expected_names_resolve_apart_witness :
  "Account Balance" ∈ EXPECTED_COLS
  ∧ c ["account balance "; "Account Balance After Transaction"]
      "Account Balance" = Some "account balance "
  ∧ "Account Balance" = "Account Balance".
Proof.
  assert ("Account Balance" ∈ EXPECTED_COLS) as Hin by compute_done.
  assert (c ["account balance "; "Account Balance After Transaction"]
            "Account Balance" = Some "account balance ") as Hc
    by (vm_compute; reflexivity).
  split_and!; [exact Hin|exact Hc|].
  exact (proj2 (proj2 expected_names_resolve_apart) _ _ _ _ Hin Hin Hc Hc).
Defined.

(** ** Numbers under decoration *)

Lemma strip_decoration_app (s t : string) :
  Numeric.strip_decoration (s +:+ t)
  = Numeric.strip_decoration s +:+ Numeric.strip_decoration t.
Proof.
  apply string_of_list_inj. unfold Numeric.strip_decoration.
  rewrite (list_ascii_app (string_of_list_ascii _)).
  rewrite !list_ascii_of_string_of_list_ascii.
  by rewrite list_ascii_app, filter_app.
Qed.

Section Decoration.
Context `{PandasText}.

(** What the numeric loop makes of a column of texts. *)
Lemma numeric_column_texts (texts : list string) :
  numeric_cell (Str <$> texts) <$> (Str <$> texts)
  = Numeric.to_numeric (Numeric.strip_decoration <$> texts).
Proof.
  assert (astype_str (Str <$> texts) = texts) as Htexts.
  { unfold astype_str. rewrite <- list_fmap_compose.
    transitivity (id <$> texts); [by apply list_fmap_ext|].
    apply list_fmap_id. }
  unfold numeric_cell, Numeric.to_numeric, Numeric.str_replace.
  rewrite Htexts, <- !list_fmap_compose. by apply list_fmap_ext.
Qed.

(** X7. Decoration does not count. The stripping of line 91 works
    character by character: the stripped form of two texts joined is the
    stripped forms joined, and stripping a stripped text changes
    nothing; parentheses and a plus sign go, a minus sign stays where it
    stands. So a column of amounts written between parentheses is
    coerced to what the column of the bare amounts is coerced to, the
    sign that the parentheses stand for being lost, and a column is
    coerced to what the column of its stripped texts is coerced to. *)
Theorem numeric_decoration_dropped (s t : string) (texts : list string) :
  Numeric.strip_decoration (s +:+ t)
  = Numeric.strip_decoration s +:+ Numeric.strip_decoration t
  ∧ Numeric.strip_decoration (Numeric.strip_decoration s)
    = Numeric.strip_decoration s
  ∧ Numeric.strip_decoration ("(" +:+ s +:+ ")") = Numeric.strip_decoration s
  ∧ Numeric.strip_decoration ("+" +:+ s) = Numeric.strip_decoration s
  ∧ Numeric.strip_decoration ("-" +:+ s)
    = "-" +:+ Numeric.strip_decoration s
  ∧ (let bare := Str <$> texts in
     let bracketed := Str <$> ((λ s, "(" +:+ s +:+ ")") <$> texts) in
     numeric_cell bracketed <$> bracketed = numeric_cell bare <$> bare)
  ∧ (let stripped := Str <$> (Numeric.strip_decoration <$> texts) in
     numeric_cell stripped <$> stripped
     = numeric_cell (Str <$> texts) <$> (Str <$> texts)).
Proof.
  assert (∀ s, Numeric.strip_decoration (Numeric.strip_decoration s)
               = Numeric.strip_decoration s) as Hidem.
  { intros s'. apply string_of_list_inj. unfold Numeric.strip_decoration.
    rewrite !list_ascii_of_string_of_list_ascii.
    by apply list_filter_filter_l. }
  assert (∀ s, Numeric.strip_decoration ("(" +:+ s +:+ ")")
               = Numeric.strip_decoration s) as Hbr.
  { intros s'. rewrite !strip_decoration_app.
    change (Numeric.strip_decoration "(") with "".
    change (Numeric.strip_decoration ")") with "".
    by rewrite string_app_nil_r. }
  split_and!.
  - apply strip_decoration_app.
  - apply Hidem.
  - apply Hbr.
  - by rewrite strip_decoration_app.
  - by rewrite strip_decoration_app.
  - cbv zeta. rewrite !numeric_column_texts. f_equal.
    rewrite <- list_fmap_compose. apply list_fmap_ext.
    intros _ s' _. apply Hbr.
  - cbv zeta. rewrite !numeric_column_texts. f_equal.
    rewrite <- list_fmap_compose. apply list_fmap_ext.
    intros _ s' _. apply Hidem.
Qed.

End Decoration.

(** ** The types of the cells that leave *)

Section Typed.
Context `{PandasText}.

Lemma derive_keys_rowwise_keys cols cust df :
  rowwise (λ k, k ∈ key_labels) df (derive_keys cols cust df).
Proof.
  unfold derive_keys. cbv zeta.
  assert (∃ g : gmap string cell → cell,
    match c cols "Date Of Account Opening" with
    | Some a =>
        if PyStr.truthy a then Str <$> astype_str (column df a)
        else replicate (length (rows df)) (Str "")
    | None => replicate (length (rows df)) (Str "")
    end = g <$> rows df) as [g1 ->].
  { destruct (c cols "Date Of Account Opening") as [a|];
      [destruct (PyStr.truthy a)|].
    - eexists. apply astype_rows.
    - exists (λ _, Str ""). symmetry. by apply const_fmap.
    - exists (λ _, Str ""). symmetry. by apply const_fmap. }
  eapply rowwise_trans; [eapply rowwise_trans|].
  - eapply (rowwise_setitem_eq _ df "__account_open_date_str");
      [reflexivity|]. compute_done.
  - eapply (rowwise_setitem_eq _ _ "__customer_id_str");
      [apply astype_rows|]. compute_done.
  - eapply (rowwise_setitem_eq _ _ "AccountID"); [reflexivity|].
    compute_done.
Qed.

Lemma logical_not_key cols n a :
  n ∈ date_cols ++ numeric_cols → c cols n = Some a → a ∉ key_labels.
Proof.
  intros Hn [_ Ha]%c_Some Hk.
  pose proof norms_distinct as Hnd.
  rewrite app_assoc, fmap_app in Hnd.
  apply NoDup_app in Hnd as (_ & Hd & _).
  apply (Hd (norm n)); [by apply list_elem_of_fmap_2|].
  rewrite <- Ha. by apply list_elem_of_fmap_2.
Qed.

Lemma coerce_numeric_column df nc a :
  nc ∈ numeric_cols → c (columns df) nc = Some a →
  column (coerce (columns df) df) a
  = numeric_cell (column df a) <$> column df a.
Proof.
  intros Hnc Hc. unfold coerce, coerce_numerics, coerce_dates.
  rewrite coerce_fold_numeric, coerce_fold_date.
  pose proof norms_distinct as Hnd.
  rewrite fmap_app in Hnd. apply NoDup_app in Hnd as (_ & Hdn & Hnd).
  rewrite fmap_app in Hnd. apply NoDup_app in Hnd as (Hnum & _ & _).
  rewrite (coerce_fold_column _ _ _ _ nc a); [|done..|].
  - rewrite (rowwise_column _ _ _ a (coerce_fold_rowwise _ _ df date_cols));
      [done|].
    intros (dc & Hdc & Hc'). apply (Hdn (norm dc)).
    + by apply list_elem_of_fmap_2.
    + rewrite fmap_app, elem_of_app. left.
      rewrite (c_same _ _ _ _ Hc' Hc). by apply list_elem_of_fmap_2.
  - eapply c_truthy; [done|]. apply norm_of_logical_nonempty.
    apply elem_of_app. by right.
Qed.

Lemma numeric_cell_is_number col v : is_number (numeric_cell col v).
Proof.
  unfold numeric_cell, Numeric.to_numeric_text.
  case_decide; [done|]. by destruct (float_of_text _).
Qed.

(** The frame the tables are cut from holds timestamps under the date
    columns and numbers under the numeric columns. *)
Lemma prepared_typed df cust n a r :
  c (columns df) n = Some a → r ∈ rows (prepared cust df) →
  (n ∈ date_cols → is_datetime (r !!! a))
  ∧ (n ∈ numeric_cols → is_number (r !!! a)).
Proof.
  intros Hc Hr.
  assert (n ∈ date_cols ++ numeric_cols →
          r !!! a ∈ column (coerce (columns df) df) a) as Hin.
  { intros Hn. unfold prepared in Hr.
    rewrite <- (rowwise_column _ _ _ a
                  (derive_keys_rowwise_keys (columns df) cust _))
      by by eapply logical_not_key.
    by apply list_elem_of_fmap_2. }
  split; intros Hn.
  - assert (n ∈ date_cols ++ numeric_cols) as Hn'
      by (apply elem_of_app; by left).
    specialize (Hin Hn'). rewrite (coerce_date_column df n a) in Hin by done.
    pose proof (to_datetime_is_datetime (column df a)) as Hall.
    rewrite Forall_forall in Hall. by apply Hall.
  - assert (n ∈ date_cols ++ numeric_cols) as Hn'
      by (apply elem_of_app; by right).
    specialize (Hin Hn').
    rewrite (coerce_numeric_column df n a) in Hin by done.
    apply list_elem_of_fmap in Hin as (v & -> & _).
    apply numeric_cell_is_number.
Qed.

Lemma sheet_cut df cust name entries t :
  c (columns df) "Customer ID" = Some cust →
  (name, entries) ∈ sheet_entries (columns df) cust →
  sheet name
    [ ("Customers", customers_table (columns df) cust (prepared cust df));
      ("Accounts", accounts_table (columns df) cust (prepared cust df));
      ("Transactions", transactions_table (columns df) (prepared cust df));
      ("Loans", loans_table (columns df) cust (prepared cust df));
      ("Cards", cards_table (columns df) cust (prepared cust df));
      ("Feedback", feedback_table (columns df) cust (prepared cust df));
      ("Branches", branches_table (columns df) (prepared cust df));
      ("Anomalies", anomalies_table (columns df) cust (prepared cust df));
      ("DataDictionary", data_dictionary) ] = Some t →
  cut_of t (prepared cust df) entries ∧ NoDup (snd <$> entries).
Proof.
  intros Hcust Hin Ht. unfold sheet_entries in Hin.
  in_cases Hin; injection Hin as -> ->; find_sheet Ht.
  - split; [by apply accounts_cut|apply accounts_names_distinct].
  - split; [by apply transactions_cut|apply transactions_names_distinct].
  - split; [by apply loans_cut|apply loans_names_distinct].
  - split; [by apply cards_cut|apply cards_names_distinct].
  - split; [by apply feedback_cut|apply feedback_names_distinct].
Qed.

(** X13. The cells that leave are typed: in Accounts, Transactions,
    Loans, Cards and Feedback every cell under the new name of a date
    column is a timestamp or NaT, and every cell under the new name of a
    numeric column is a number or NaN; no text is left in them. *)
Theorem output_cells_typed df sheets cust name entries t n a v row :
  build_relational_sheets df = Ok sheets →
  c (columns df) "Customer ID" = Some cust →
  (name, entries) ∈ sheet_entries (columns df) cust →
  sheet name sheets = Some t →
  c (columns df) n = Some a → (Some a, v) ∈ entries →
  row ∈ trows t →
  (n ∈ date_cols → is_datetime (cell_at (tcolumns t) v row))
  ∧ (n ∈ numeric_cols → is_number (cell_at (tcolumns t) v row)).
Proof.
  intros (cust' & Hcust' & ->)%build_inv Hcust Hent Ht Hc Hin Hrow.
  rewrite Hcust in Hcust'. injection Hcust' as <-.
  destruct (sheet_cut _ _ _ _ _ Hcust Hent Ht) as [Hcut Hnd].
  destruct (cut_cell _ _ _ _ Hcut (resolved_header_NoDup _ Hnd) Hrow)
    as (r & Hr & Hcell).
  rewrite (Hcell _ _ Hin). by eapply prepared_typed.
Qed.


End Typed.


Lemma output_cells_typed_witness :
  @build_relational_sheets IsoDates.instance Example.frame = Ok Example.sheets
  ∧ ("Accounts", accounts_entries (columns Example.frame) "Customer ID")
    ∈ sheet_entries (columns Example.frame) "Customer ID"
  ∧ (Some "Account Balance", "AccountBalance")
    ∈ accounts_entries (columns Example.frame) "Customer ID"
  ∧ "Account Balance" ∈ numeric_cols
  ∧ Forall (λ row, is_number (cell_at (tcolumns (Example.table "Accounts"))
                                "AccountBalance" row))
      (trows (Example.table "Accounts"))
  ∧ (λ row, cell_at (tcolumns (Example.table "Accounts")) "AccountBalance" row)
      <$> trows (Example.table "Accounts")
    = [Num (Qred 1234.56); NaN; Num 7].
Proof.
  assert (("Accounts", accounts_entries (columns Example.frame) "Customer ID")
          ∈ sheet_entries (columns Example.frame) "Customer ID") as Hent
    by apply list_elem_of_here.
  assert ((Some "Account Balance", "AccountBalance")
          ∈ accounts_entries (columns Example.frame) "Customer ID") as Hin
    by (vm_compute; repeat first [apply list_elem_of_here
                                 | apply list_elem_of_further]).
  assert ("Account Balance" ∈ numeric_cols) as Hnum by compute_done.
  assert (sheet "Accounts" Example.sheets = Some (Example.table "Accounts"))
    as Ht by (vm_compute; reflexivity).
  assert (c (columns Example.frame) "Account Balance"
          = Some "Account Balance") as Hc by (vm_compute; reflexivity).
  split_and!; [exact example_built|exact Hent|exact Hin|exact Hnum| |].
  - apply Forall_forall. intros row Hrow.
    exact (proj2 (@output_cells_typed IsoDates.instance _ _ _ _ _ _ _ _ _ _
                    example_built example_customer_id Hent Ht Hc Hin Hrow)
             Hnum).
  - vm_compute. reflexivity.
Defined.

(** ** Headers, well-formedness and foreign keys at the example frame *)

Lemma sheet_headers_witness :
  NoDup (columns Example.frame)
  ∧ @build_relational_sheets IsoDates.instance Example.frame = Ok Example.sheets
  ∧ c (columns Example.frame) "Customer ID" = Some "Customer ID"
  ∧ tcolumns (Example.table "Customers") = ["CustomerID"; "first name"]
  ∧ tcolumns (Example.table "Accounts")
    = [ "AccountID"; "CustomerID"; "AccountType"; "AccountBalance";
        "DateOfAccountOpening"; "BranchID" ]
  ∧ tcolumns (Example.table "Loans") = ["CustomerID"; "LoanAmount"; "BranchID"].
Proof.
  assert (sheet "Customers" Example.sheets = Some (Example.table "Customers"))
    as Hcu by (vm_compute; reflexivity).
  assert (sheet "Accounts" Example.sheets = Some (Example.table "Accounts"))
    as Hac by (vm_compute; reflexivity).
  assert (sheet "Loans" Example.sheets = Some (Example.table "Loans"))
    as Hlo by (vm_compute; reflexivity).
  destruct (@sheet_headers IsoDates.instance _ _ _
              example_labels example_built example_customer_id)
    as (Hc & Ha & _ & Hl & _).
  split_and!; [exact example_labels|exact example_built
              |exact example_customer_id| | |].
  - rewrite (Hc _ Hcu). vm_compute. reflexivity.
  - rewrite (Ha _ Hac). vm_compute. reflexivity.
  - rewrite (Hl _ Hlo). vm_compute. reflexivity.
Defined.

Lemma sheets_well_formed_witness :
  NoDup (columns Example.frame)
  ∧ @build_relational_sheets IsoDates.instance Example.frame = Ok Example.sheets
  ∧ sheet "Transactions" Example.sheets = Some (Example.table "Transactions")
  ∧ NoDup (tcolumns (Example.table "Transactions"))
  ∧ rectangular (Example.table "Transactions")
  ∧ length (trows (Example.table "Transactions")) = 3%nat.
Proof.
  assert (sheet "Transactions" Example.sheets
          = Some (Example.table "Transactions")) as Ht
    by (vm_compute; reflexivity).
  destruct (@sheets_well_formed IsoDates.instance _ _ _ _
              example_labels example_built Ht)
    as [Hnd Hrect].
  split_and!; [exact example_labels|exact example_built|exact Ht|exact Hnd
              |exact Hrect|].
  vm_compute. reflexivity.
Defined.

Lemma foreign_keys_hold_witness :
  @build_relational_sheets IsoDates.instance Example.frame = Ok Example.sheets
  ∧ c (columns Example.frame) "Branch ID" ≠ None
  ∧ references (Example.table "Loans") "CustomerID"
      (Example.table "Customers") "CustomerID"
  ∧ references (Example.table "Transactions") "AccountID"
      (Example.table "Accounts") "AccountID"
  ∧ references (Example.table "Loans") "BranchID"
      (Example.table "Branches") "BranchID"
  ∧ trows (Example.table "Branches") = [[Str "B1"]; [NaN]].
Proof.
  assert (sheet "Customers" Example.sheets = Some (Example.table "Customers"))
    as Hcu by (vm_compute; reflexivity).
  assert (sheet "Accounts" Example.sheets = Some (Example.table "Accounts"))
    as Hac by (vm_compute; reflexivity).
  assert (sheet "Branches" Example.sheets = Some (Example.table "Branches"))
    as Hbr by (vm_compute; reflexivity).
  assert (sheet "Loans" Example.sheets = Some (Example.table "Loans"))
    as Hlo by (vm_compute; reflexivity).
  assert (sheet "Transactions" Example.sheets
          = Some (Example.table "Transactions")) as Htx
    by (vm_compute; reflexivity).
  assert (c (columns Example.frame) "Branch ID" ≠ None) as Hb
    by (vm_compute; discriminate).
  destruct (@foreign_keys_hold IsoDates.instance _ _ _ _ _
              example_built Hcu Hac Hbr) as (Hc & Ha & Hbk).
  split_and!; [exact example_built|exact Hb| | | |vm_compute; reflexivity].
  - apply (Hc "Loans"); [|exact Hlo].
    apply list_elem_of_further, list_elem_of_here.
  - exact (Ha _ Htx).
  - apply (Hbk "Loans"); [|exact Hb|exact Hlo].
    apply list_elem_of_further, list_elem_of_here.
Defined.

(** ** What the call leaves in the caller's frame *)

Lemma drop_columns_rowwise names df :
  rowwise (λ k, k ∈ names) df (drop_columns names df).
Proof.
  apply (rowwise_fmap _ _ _ (λ r, foldr delete r names)); [done|].
  intros r k Hk. induction names as [|n names IH]; [done|]. simpl.
  rewrite lookup_delete_ne.
  - apply IH. intros ?. apply Hk. by right.
  - intros ->. apply Hk. by left.
Qed.

Lemma drop_columns_gone names df r k :
  k ∈ names → r ∈ rows (drop_columns names df) → r !! k = None.
Proof.
  intros Hk (r0 & -> & _)%list_elem_of_fmap.
  induction names as [|n names IH]; [by apply elem_of_nil in Hk|]. simpl.
  destruct (decide (n = k)) as [->|Hne]; [apply lookup_delete_eq|].
  rewrite lookup_delete_ne by done. apply IH.
  by apply elem_of_cons in Hk as [?|?].
Qed.

Lemma setitem_columns_filter (P : string → Prop) `{∀ k, Decision (P k)}
    df name s :
  filter P (columns (setitem df name s))
  = filter P (columns df)
    ++ (if decide (P name ∧ name ∉ columns df) then [name] else []).
Proof.
  simpl. destruct (decide (name ∈ columns df)) as [Hin|Hnin].
  - rewrite decide_False by (by intros [_ ?]). by rewrite app_nil_r.
  - rewrite filter_app. f_equal.
    destruct (decide (P name)) as [HP|HP].
    + rewrite decide_True by done. by rewrite filter_cons_True.
    + rewrite decide_False by (by intros [? _]). by rewrite filter_cons_False.
Qed.

Section FrameAfter.
Context `{PandasText}.

Lemma derive_keys_columns cols cust df :
  filter (λ k, k ∉ ["__account_open_date_str"; "__customer_id_str"])
    (columns (derive_keys cols cust df))
  = filter (λ k, k ∉ ["__account_open_date_str"; "__customer_id_str"])
      (columns df)
    ++ (if decide ("AccountID" ∈ columns df) then [] else ["AccountID"]).
Proof.
  unfold derive_keys. cbv zeta.
  rewrite !setitem_columns_filter.
  rewrite (decide_False (P := _ ∧ "__account_open_date_str" ∉ _))
    by (intros [Hn _]; apply Hn; compute_done).
  rewrite (decide_False (P := _ ∧ "__customer_id_str" ∉ _))
    by (intros [Hn _]; apply Hn; compute_done).
  rewrite !app_nil_r. f_equal.
  destruct (decide ("AccountID" ∈ columns df)) as [Hin|Hnin].
  - rewrite decide_False; [done|]. intros [_ Hn]. apply Hn.
    by do 2 apply setitem_columns_elem.
  - rewrite decide_True; [done|]. split; [compute_done|].
    intros Hin. apply Hnin. simpl in Hin.
    repeat case_decide;
      repeat (apply elem_of_app in Hin as [Hin|Hin]);
      try done; by in_cases Hin.
Qed.

(** X14. What a call leaves in the caller's frame, which the function
    rewrites in place. The rows stay in number and order; a column that
    no date or numeric name resolves to, and that is none of the three
    derived labels, is as before; every resolved date column is coerced,
    also when the call raises for want of a customer column, since the
    loops run before the check; when the call returns, the frame has an
    AccountID column, in place or appended, and the two helper columns
    are gone, from the header and from every row (so an input column that
    had one of their names is lost). *)
Theorem frame_after_call df :
  let cols := columns df in
  length (rows (frame_after df)) = length (rows df)
  ∧ (∀ k, ¬ touched cols k → column (frame_after df) k = column df k)
  ∧ (∀ dc a, dc ∈ date_cols → c cols dc = Some a →
       column (frame_after df) a = to_datetime (column df a))
  ∧ (c cols "Customer ID" = None → columns (frame_after df) = cols)
  ∧ (∀ cust, c cols "Customer ID" = Some cust →
       columns (frame_after df)
       = filter (λ k, k ∉ ["__account_open_date_str"; "__customer_id_str"])
           cols
         ++ (if decide ("AccountID" ∈ cols) then [] else ["AccountID"])
       ∧ column (frame_after df) "AccountID"
         = column (prepared cust df) "AccountID"
       ∧ ∀ r, r ∈ rows (frame_after df) →
           r !! "__account_open_date_str" = None
           ∧ r !! "__customer_id_str" = None).
Proof.
  intros cols. unfold frame_after. fold cols.
  assert (∀ cust,
    rowwise (touched cols) df
      (drop_columns ["__account_open_date_str"; "__customer_id_str"]
         (derive_keys cols cust (coerce cols df)))) as Hrw.
  { intros cust. eapply rowwise_trans; [apply prepared_rowwise|].
    eapply rowwise_mono; [|apply drop_columns_rowwise].
    intros k Hk. left. in_cases Hk; subst k; compute_done. }
  split_and!.
  - destruct (c cols "Customer ID") as [cust|].
    + eapply rowwise_length, Hrw.
    + eapply rowwise_length, coerce_rowwise.
  - intros k Hk. destruct (c cols "Customer ID") as [cust|].
    + by eapply rowwise_column.
    + eapply rowwise_column; [apply coerce_rowwise|done].
  - intros dc a Hdc Hc. rewrite <- (coerce_date_column df dc a) by done.
    destruct (c cols "Customer ID") as [cust|]; [|done].
    assert (a ∉ key_labels) as Hk
      by (eapply logical_not_key; [apply elem_of_app; by left|done]).
    rewrite (rowwise_column _ _ _ a (drop_columns_rowwise _ _))
      by (intros Hin; apply Hk; in_cases Hin; subst a; compute_done).
    by apply (rowwise_column _ _ _ a (derive_keys_rowwise_keys _ _ _)).
  - intros ->. subst cols. apply coerce_columns.
  - intros cust ->. split_and!.
    + unfold drop_columns. cbn [columns]. subst cols.
      by rewrite derive_keys_columns, coerce_columns.
    + apply (rowwise_column _ _ _ _ (drop_columns_rowwise _ _)).
      intros Hin. by in_cases Hin.
    + intros r Hr. split; eapply drop_columns_gone; [|done| |done];
        compute_done.
Qed.

End FrameAfter.

Lemma frame_after_call_witness :
  c (columns Example.headless) "Customer ID" = None
  ∧ columns (@frame_after IsoDates.instance Example.headless)
    = ["Client"; "Anomaly"]
  ∧ c (columns Example.frame) "Customer ID" = Some "Customer ID"
  ∧ columns (@frame_after IsoDates.instance Example.frame)
    = columns Example.frame ++ ["AccountID"]
  ∧ "Date Of Account Opening" ∈ date_cols
  ∧ column (@frame_after IsoDates.instance Example.frame)
      "Date Of Account Opening"
    = [Stamp 1672876800000000000; Stamp 1672876800000000000; NaT; NaT].
Proof.
  assert (c (columns Example.headless) "Customer ID" = None) as Hno
    by (vm_compute; reflexivity).
  assert ("Date Of Account Opening" ∈ date_cols) as Hin by compute_done.
  assert (c (columns Example.frame) "Date Of Account Opening"
          = Some "Date Of Account Opening") as Hc by (vm_compute; reflexivity).
  destruct (@frame_after_call IsoDates.instance Example.headless)
    as (_ & _ & _ & Hcols & _).
  destruct (@frame_after_call IsoDates.instance Example.frame)
    as (_ & _ & Hdate & _ & Hok).
  destruct (Hok _ example_customer_id) as (Hcols' & _).
  split_and!; [exact Hno|exact (Hcols Hno)|exact example_customer_id
              | |exact Hin|].
  - rewrite Hcols'. vm_compute. reflexivity.
  - rewrite (Hdate _ _ Hin Hc). vm_compute. reflexivity.
Defined.

(** ** Checks of the string, hash, number and date models *)

(** The FIPS 180 test vectors. *)
Example sha1_abc :
  Sha1.hexdigest (PyStr.encode_utf8 "abc")
  = "a9993e364706816aba3e25717850c26c9cd0d89d".
Proof. vm_compute. reflexivity. Qed.

Example sha1_empty :
  Sha1.hexdigest [] = "da39a3ee5e6b4b0d3255bfef95601890afd80709".
Proof. vm_compute. reflexivity. Qed.

Example sha1_two_blocks :
  Sha1.hexdigest (PyStr.encode_utf8
    "abcdbcdecdefdefgefghfghighijhijkijkljklmklmnlmnomnopnopq")
  = "84983e441c3bd26ebaae4aa1f95129e5e54670f1".
Proof. vm_compute. reflexivity. Qed.

Example account_id_plain :
  @make_account_id IsoDates.instance (Str "C1") (Str "Savings")
    (Str "2023-01-05")
  = "ACC_9533266c06ef".
Proof. vm_compute. reflexivity. Qed.

Example find_col_duplicate_headers :
  find_col [Some "Customer ID"; Some " customer id "] "Customer ID"
  = Some "Customer ID".
Proof. vm_compute. reflexivity. Qed.

Example find_col_skips_none :
  find_col [None; Some "  CUSTOMER id"; Some "Customer ID"] " customer ID "
  = Some "  CUSTOMER id".
Proof. vm_compute. reflexivity. Qed.

Example find_col_absent : find_col [Some "CustomerID"] "Customer ID" = None.
Proof. vm_compute. reflexivity. Qed.

Example parse_float_decorated :
  Decimal.parse_float (Numeric.strip_decoration "-1.5e-3 USD")
  = Some (-3 # 2000).
Proof. vm_compute. reflexivity. Qed.

Example parse_float_exponent :
  Decimal.parse_float (Numeric.strip_decoration "1e5") = Some (100000 # 1).
Proof. vm_compute. reflexivity. Qed.

Example parse_float_dangling_exponent :
  Decimal.parse_float (Numeric.strip_decoration "1e") = None.
Proof. vm_compute. reflexivity. Qed.

Example parse_float_point_alone :
  Decimal.parse_float (Numeric.strip_decoration ".") = None.
Proof. vm_compute. reflexivity. Qed.

Example parse_float_words_leave_e :
  Numeric.strip_decoration "Fee: 10" = "ee10"
  ∧ Decimal.parse_float "ee10" = None.
Proof. vm_compute. done. Qed.

Example iso_parse : IsoDates.parse "2023-01-05" = Some 1672876800000000000.
Proof. vm_compute. reflexivity. Qed.

Example iso_parse_zoned :
  IsoDates.parse_zoned "2023-01-05 01:30:00+01:00"
  = Some (1672878600000000000, Some 3600)
  ∧ IsoDates.parse_zoned "2023-01-05 00:00:00-05:30"
    = Some (1672896600000000000, Some (-19800))
  ∧ IsoDates.parse_zoned "2023-01-05" = Some (1672876800000000000, None)
  ∧ IsoDates.parse_zoned "2023-01-05 24:00:00+00:00" = None.
Proof. vm_compute. done. Qed.

Example iso_zoned_text :
  IsoDates.zoned_text 1672878600000000000 3600 = "2023-01-05 01:30:00+01:00"
  ∧ IsoDates.zoned_text 1672896600000000000 (-19800)
    = "2023-01-05 00:00:00-05:30".
Proof. vm_compute. done. Qed.

(** Timestamps that do not go together: the first offset stays, and
    once a timestamp without zone and one with have met, nothing more is
    converted. *)
Example to_datetime_first_offset :
  @to_datetime IsoDates.instance [Aware 0 0; Aware 5 3600; NaT; Aware 7 0]
  = [Aware 0 0; NaT; NaT; Aware 7 0].
Proof. vm_compute. reflexivity. Qed.

Example to_datetime_with_and_without_zone :
  @to_datetime IsoDates.instance [Stamp 0; Aware 5 0; Stamp 7; Aware 9 0]
  = [Stamp 0; NaT; NaT; NaT]
  ∧ @to_datetime IsoDates.instance [Aware 5 0; Stamp 0; Aware 9 0]
    = [Aware 5 0; NaT; NaT].
Proof. vm_compute. done. Qed.

Example iso_text : IsoDates.text 1672876800000000000 = "2023-01-05".
Proof. vm_compute. reflexivity. Qed.

Example iso_no_such_day : IsoDates.parse "2023-02-30" = None.
Proof. vm_compute. reflexivity. Qed.

(** Code points above 127: [str.lower], [str.strip] and the UTF-8 bytes
    of U+00C9 and U+00A0. *)
Example lower_latin1 :
  PyStr.lower (String (ascii_of_N 201) "A") = String (ascii_of_N 233) "a".
Proof. vm_compute. reflexivity. Qed.

Example strip_no_break_space :
  PyStr.strip (String (ascii_of_N 160) "a b" +:+ String (ascii_of_N 133) " ")
  = "a b".
Proof. vm_compute. reflexivity. Qed.

Example sha1_of_two_byte_code_point :
  PyStr.prefix 12
    (Sha1.hexdigest
       (PyStr.encode_utf8 ("C" +:+ String (ascii_of_N 233) "|x|")))
  = "1d2b83117d9e".
Proof. vm_compute. reflexivity. Qed.
